(** * media-organizer: content identity and incremental merge

    A shallow embedding of the photo organizer (class [PhotoOrganizer]) and of
    the batch processor (class [BatchProcessor]) of the repository, with the
    properties of the fingerprint generator, the persistent fingerprint cache,
    the merge loop and the duplicate resolver.

    Conventions of the embedding.
    - JavaScript strings are [string] (a sequence of bytes; paths are POSIX
      paths, already resolved and normalised, as [path.resolve] leaves them).
    - JavaScript numbers that the code handles are integers (byte sizes,
      millisecond time stamps, counters); they are [Z] or [N], and a number
      that may be [NaN] is an [option Z] with [None] for [NaN].
    - A JavaScript [Map] is an insertion-ordered association list ([JsMap]).
    - The file system is a finite map from the path of a regular file to what
      the code can observe of it ([File]); [async] code is run to completion,
      a call that may throw returns an [outcome], [Throws] when it does, and
      a [try]/[catch] is a match on it.  A loop without a bound is given
      fuel, and shown to end within it.
    - Folders are not part of the file system: a folder is there as soon as
      a file lies below it, [fs.pathExists] is the test for a regular file,
      and the calls of [fs.ensureDir], which make folders and throw when a
      file is in the way, are left out.  So what is stated of a call that
      makes folders ([copyOrganizedFiles], [generateNewPath] and their
      callers) is stated of the regular files and, where the call could
      throw for a folder, of a call that returns.  [findUniqueFilenameWith]
      and [generateNewPathWith] take what [fs.pathExists] answers and what
      [fs.ensureDir] does as parameters. *)

From Stdlib Require Import ZArith NArith Ascii String List Bool Lia.
From Stdlib Require Import DecimalString DecimalN DecimalPos.
From stdpp Require Import base option list gmap strings.

Local Open Scope Z_scope.
#[local] Set Warnings "-register-all,-abstract-large-number".

(** ** Strings *)

Module Str.

Definition ascii_eqb (a b : ascii) : bool := Ascii.eqb a b.

Definition is_digit (c : ascii) : bool :=
  let n := nat_of_ascii c in (48 <=? n)%nat && (n <=? 57)%nat.

Definition digit_val (c : ascii) : Z := Z.of_nat (nat_of_ascii c) - 48.

Fixpoint all_digits (s : string) : bool :=
  match s with
  | EmptyString => true
  | String c s' => is_digit c && all_digits s'
  end.

(** [s.startsWith(p)] and [s.endsWith(p)]. *)
Fixpoint startsWith (p s : string) : bool :=
  match p, s with
  | EmptyString, _ => true
  | String a p', String b s' => ascii_eqb a b && startsWith p' s'
  | String _ _, EmptyString => false
  end.

Fixpoint drop (n : nat) (s : string) : string :=
  match n, s with
  | O, _ => s
  | S n', String _ s' => drop n' s'
  | S _, EmptyString => EmptyString
  end.

Fixpoint take (n : nat) (s : string) : string :=
  match n, s with
  | O, _ => EmptyString
  | S n', String c s' => String c (take n' s')
  | S _, EmptyString => EmptyString
  end.

Definition endsWith (p s : string) : bool :=
  (String.length p <=? String.length s)%nat
  && String.eqb (drop (String.length s - String.length p) s) p.

(** [s.slice(0, -n)] for [0 < n]. *)
Definition dropEnd (n : nat) (s : string) : string :=
  take (String.length s - n) s.

Fixpoint repeat (c : ascii) (n : nat) : string :=
  match n with
  | O => EmptyString
  | S n' => String c (repeat c n')
  end.

(** [s.padStart(n, '0')]. *)
Definition padStart (n : nat) (s : string) : string :=
  repeat "0"%char (n - String.length s) +:+ s.

(** [String(n)] for a non-negative integer. *)
Definition ofN (n : N) : string := NilZero.string_of_uint (N.to_uint n).

(** [String(z)] for an integer. *)
Definition ofZ (z : Z) : string :=
  if z <? 0 then String "-"%char (ofN (Z.to_N (- z))) else ofN (Z.to_N z).

(** The value of a sequence of decimal digits read from the left, starting
    from the accumulator [acc] ([Number(s)] and [parseInt(s, 10)] on a
    string of digits). *)
Fixpoint digits_val (acc : Z) (s : string) : Z :=
  match s with
  | EmptyString => acc
  | String c s' => digits_val (10 * acc + digit_val c) s'
  end.

(** Index of the last occurrence of [c], counted from the left. *)
Fixpoint lastIndexOf (c : ascii) (s : string) : option nat :=
  match s with
  | EmptyString => None
  | String a s' =>
      match lastIndexOf c s' with
      | Some i => Some (S i)
      | None => if ascii_eqb a c then Some O else None
      end
  end.

End Str.

(** ** JavaScript numbers that may be [NaN] *)

Module Num.

(** A number, [None] for [NaN]. *)
Definition t := option Z.

(** [a < b] and [a > b]: [false] as soon as one side is [NaN]. *)
Definition lt (a b : t) : bool :=
  match a, b with Some x, Some y => x <? y | _, _ => false end.
Definition gt (a b : t) : bool := lt b a.

(** [a === b] on numbers: [NaN] is equal to nothing. *)
Definition seq (a b : t) : bool :=
  match a, b with Some x, Some y => x =? y | _, _ => false end.

Definition sub (a b : t) : t :=
  match a, b with Some x, Some y => Some (x - y) | _, _ => None end.

Definition is_space (c : ascii) : bool :=
  let n := nat_of_ascii c in
  (n =? 32)%nat || ((9 <=? n)%nat && (n <=? 13)%nat).

Fixpoint trimStart (s : string) : string :=
  match s with
  | String c s' => if is_space c then trimStart s' else s
  | EmptyString => s
  end.

Fixpoint takeDigits (s : string) : string :=
  match s with
  | String c s' => if Str.is_digit c then String c (takeDigits s') else ""
  | EmptyString => ""
  end.

Definition hex_val (c : ascii) : option Z :=
  let n := nat_of_ascii c in
  if (48 <=? n)%nat && (n <=? 57)%nat then Some (Z.of_nat n - 48)
  else if (97 <=? n)%nat && (n <=? 102)%nat then Some (Z.of_nat n - 87)
  else if (65 <=? n)%nat && (n <=? 70)%nat then Some (Z.of_nat n - 55)
  else None.

(** Value of the longest prefix of hexadecimal digits; [None] when empty. *)
Fixpoint hexDigits (acc : option Z) (s : string) : option Z :=
  match s with
  | String c s' =>
      match hex_val c with
      | Some v => hexDigits (Some (16 * default 0 acc + v)) s'
      | None => acc
      end
  | EmptyString => acc
  end.

(** [parseInt(s)] without a radix: leading white space (the ASCII one) is
    skipped, then an optional sign, then either [0x] and hexadecimal digits
    or decimal digits, up to the first character that is not a digit; [NaN]
    when there is no digit. *)
Definition parseInt (s : string) : t :=
  let s1 := trimStart s in
  let '(sign, s2) :=
    match s1 with
    | String "-"%char r => (-1, r)
    | String "+"%char r => (1, r)
    | _ => (1, s1)
    end in
  match s2 with
  | String "0"%char (String "x"%char r)
  | String "0"%char (String "X"%char r) =>
      option_map (Z.mul sign) (hexDigits None r)
  | _ =>
      let ds := takeDigits s2 in
      if String.eqb ds "" then None else Some (sign * Str.digits_val 0 ds)
  end.

End Num.

(** ** The built-in [Date]

    Modelled on the ECMAScript definitions (Day, DayFromYear, YearFromTime,
    MonthFromTime, DateFromTime, MakeDay, MakeTime, MakeDate, TimeClip).  A
    time value is a number of milliseconds; the local time zone is taken to
    have a constant offset, so that local time values are used directly. *)

Module JsDate.

(** A [Date] object: its time value, [None] for an invalid date. *)
Definition t := option Z.

Definition msPerDay : Z := 86400000.
Definition Day (tv : Z) : Z := tv / msPerDay.
Definition TimeWithinDay (tv : Z) : Z := tv mod msPerDay.

Definition leap (y : Z) : bool :=
  (y mod 4 =? 0) && (negb (y mod 100 =? 0) || (y mod 400 =? 0)).
Definition DaysInYear (y : Z) : Z := if leap y then 366 else 365.
Definition DayFromYear (y : Z) : Z :=
  365 * (y - 1970) + (y - 1969) / 4 - (y - 1901) / 100 + (y - 1601) / 400.

(** The largest [y] with [DayFromYear y <= day], searched downwards from an
    upper estimate. *)
Fixpoint yearSearch (fuel : nat) (y day : Z) : Z :=
  match fuel with
  | O => y
  | S f => if DayFromYear y <=? day then y else yearSearch f (y - 1) day
  end.
Definition YearFromDay (day : Z) : Z :=
  yearSearch (Z.to_nat (Z.abs day / 100000 + 3))
             (1970 + Z.max (day / 365) (day / 366) + 1) day.
Definition YearFromTime (tv : Z) : Z := YearFromDay (Day tv).
Definition DayWithinYear (tv : Z) : Z := Day tv - DayFromYear (YearFromTime tv).
Definition InLeapYear (tv : Z) : Z := if leap (YearFromTime tv) then 1 else 0.

(** Day number, within its year, of the first day of month [m] (0-11). *)
Definition monthStart (m l : Z) : Z :=
  match m with
  | 0 => 0 | 1 => 31 | 2 => 59 + l | 3 => 90 + l | 4 => 120 + l
  | 5 => 151 + l | 6 => 181 + l | 7 => 212 + l | 8 => 243 + l
  | 9 => 273 + l | 10 => 304 + l | _ => 334 + l
  end.

Definition MonthFromTime (tv : Z) : Z :=
  let d := DayWithinYear tv in
  let l := InLeapYear tv in
  if d <? 31 then 0 else if d <? 59 + l then 1 else if d <? 90 + l then 2
  else if d <? 120 + l then 3 else if d <? 151 + l then 4
  else if d <? 181 + l then 5 else if d <? 212 + l then 6
  else if d <? 243 + l then 7 else if d <? 273 + l then 8
  else if d <? 304 + l then 9 else if d <? 334 + l then 10 else 11.

Definition DateFromTime (tv : Z) : Z :=
  DayWithinYear tv - monthStart (MonthFromTime tv) (InLeapYear tv) + 1.

Definition MakeDay (year month date : Z) : Z :=
  let ym := year + month / 12 in
  let mn := month mod 12 in
  DayFromYear ym + monthStart mn (if leap ym then 1 else 0) + date - 1.
Definition MakeTime (h m s ms : Z) : Z :=
  h * 3600000 + m * 60000 + s * 1000 + ms.
Definition MakeDate (day time : Z) : Z := day * msPerDay + time.
Definition TimeClip (tv : Z) : t :=
  if Z.abs tv <=? 8640000000000000 then Some tv else None.

(** [new Date(year, month, day)]: a year from 0 to 99 means 1900 + year. *)
Definition ofYMD (year month day : Num.t) : t :=
  match year, month, day with
  | Some y, Some m, Some d =>
      let yr := if (0 <=? y) && (y <=? 99) then 1900 + y else y in
      TimeClip (MakeDate (MakeDay yr m d) (MakeTime 0 0 0 0))
  | _, _, _ => None
  end.

Definition getFullYear (d : t) : Num.t := option_map YearFromTime d.
Definition getMonth (d : t) : Num.t := option_map MonthFromTime d.
Definition getDate (d : t) : Num.t := option_map DateFromTime d.
Definition getHours (d : t) : Num.t :=
  option_map (fun tv => TimeWithinDay tv / 3600000) d.
Definition getMinutes (d : t) : Num.t :=
  option_map (fun tv => (TimeWithinDay tv / 60000) mod 60) d.

End JsDate.

(** ** The [path] module (POSIX), on normalised paths without a trailing
    slash and without [.] or [..] segments *)

Module Path.

Definition basename (p : string) : string :=
  match Str.lastIndexOf "/"%char p with
  | Some i => Str.drop (S i) p
  | None => p
  end.

(** [path.extname(p)]: from the last dot of the base name, and empty when
    there is none, when it is the first character, or for [..]. *)
Definition extname (p : string) : string :=
  let b := basename p in
  match Str.lastIndexOf "."%char b with
  | None => ""
  | Some O => ""
  | Some i => if String.eqb b ".." then "" else Str.drop i b
  end.

(** [path.basename(p, ext)]: the base name without [ext] when it ends with
    it and something is left. *)
Definition basenameExt (p ext : string) : string :=
  let b := basename p in
  if String.eqb ext "" then b
  else if String.eqb ext p then ""
  else if Str.endsWith ext b && (String.length ext <? String.length b)%nat
       then Str.dropEnd (String.length ext) b
       else b.

Definition dirname (p : string) : string :=
  match Str.lastIndexOf "/"%char p with
  | None => "."
  | Some O => "/"
  | Some i => Str.take i p
  end.

Definition join (a b : string) : string :=
  if String.eqb b "" then a
  else if String.eqb a "" || String.eqb a "." then b
  else if Str.endsWith "/" a then a +:+ b
  else a +:+ "/" +:+ b.

(** [path.relative(from, to)] for a path [to] under the directory [from]
    (the only use the code makes of it); another [to] is left as it is. *)
Definition relative (from to : string) : string :=
  if String.eqb from to then ""
  else if Str.startsWith (from +:+ "/") to
       then Str.drop (S (String.length from)) to
       else to.

Fixpoint lower (s : string) : string :=
  match s with
  | EmptyString => EmptyString
  | String c s' =>
      let n := nat_of_ascii c in
      String (if (65 <=? n)%nat && (n <=? 90)%nat
              then ascii_of_nat (n + 32) else c) (lower s')
  end.

End Path.

(** ** Dates in file names ([PhotoOrganizer]) *)

(** The pattern of [extractDateFromFilename],
    [(20(?:0[9]|1[0-9]|2[0-5]))(0[1-9]|1[0-2])(0[1-9]|[12][0-9]|3[01])],
    tried at the start of [s]: the three groups when it matches there. *)
Definition datePatternAt (s : string) : option (string * string * string) :=
  match s with
  | String k1 (String k2 (String ya (String yb
      (String ma (String mb (String da (String db _))))))) =>
      let n c := nat_of_ascii c in
      let two a b := String a (String b "") in
      let year_ok :=
        (n k1 =? 50)%nat && (n k2 =? 48)%nat
        && (((n ya =? 48)%nat && (n yb =? 57)%nat)
            || ((n ya =? 49)%nat && Str.is_digit yb)
            || ((n ya =? 50)%nat && (48 <=? n yb)%nat && (n yb <=? 53)%nat)) in
      let month_ok :=
        ((n ma =? 48)%nat && (49 <=? n mb)%nat && (n mb <=? 57)%nat)
        || ((n ma =? 49)%nat && (48 <=? n mb)%nat && (n mb <=? 50)%nat) in
      let day_ok :=
        ((n da =? 48)%nat && (49 <=? n db)%nat && (n db <=? 57)%nat)
        || (((n da =? 49)%nat || (n da =? 50)%nat) && Str.is_digit db)
        || ((n da =? 51)%nat && ((n db =? 48)%nat || (n db =? 49)%nat)) in
      if year_ok && month_ok && day_ok
      then Some (String k1 (String k2 (two ya yb)), two ma mb, two da db)
      else None
  | _ => None
  end.

(** [filename.match(datePattern)]: the leftmost match. *)
Fixpoint matchDatePattern (s : string) : option (string * string * string) :=
  match datePatternAt s with
  | Some g => Some g
  | None =>
      match s with
      | String _ s' => matchDatePattern s'
      | EmptyString => None
      end
  end.

(** [validateAndCreateDate(yearStr, monthStr, dayStr)]; [None] is [null]. *)
Definition validateAndCreateDate (yearStr monthStr dayStr : string)
  : option JsDate.t :=
  let year := Num.parseInt yearStr in
  let month := Num.parseInt monthStr in
  let day := Num.parseInt dayStr in
  if Num.lt year (Some 2009) || Num.gt year (Some 2025) then None
  else if Num.lt month (Some 1) || Num.gt month (Some 12) then None
  else if Num.lt day (Some 1) || Num.gt day (Some 31) then None
  else
    let date := JsDate.ofYMD year (Num.sub month (Some 1)) day in
    if Num.seq (JsDate.getFullYear date) year
       && Num.seq (JsDate.getMonth date) (Num.sub month (Some 1))
       && Num.seq (JsDate.getDate date) day
    then Some date
    else None.

(** [extractDateFromFilename(filePath)]. *)
Definition extractDateFromFilename (filePath : string) : option JsDate.t :=
  let filename := Path.basenameExt filePath (Path.extname filePath) in
  match matchDatePattern filename with
  | Some (year, month, day) =>
      match validateAndCreateDate year month day with
      | Some date => Some date
      | None => None
      end
  | None => None
  end.

(** ** JSON values and [JSON.stringify] *)

(** A parsed JSON document.  Numbers are integers: the only numbers the code
    writes and compares are millisecond time stamps.  An object lists each
    of its property names once, as [JSON.parse] leaves it. *)
Inductive json : Type :=
| JNull
| JBool (b : bool)
| JNum (z : Z)
| JStr (s : string)
| JArr (items : list json)
| JObj (props : list (string * json)).

(** A JavaScript value as the code meets it: [None] is [undefined]. *)
Definition jsval := option json.

Module Js.

(** Truthiness, as [if (v)], [a || b] and [a && b] test it. *)
Definition truthy (v : jsval) : bool :=
  match v with
  | None | Some JNull => false
  | Some (JBool b) => b
  | Some (JNum z) => negb (z =? 0)
  | Some (JStr s) => negb (String.eqb s "")
  | Some (JArr _) | Some (JObj _) => true
  end.

(** [a || b]. *)
Definition or (a b : jsval) : jsval := if truthy a then a else b.

(** [a === b], which is also the key equality of a [Map], on values
    that come out of [JSON.parse] or are primitive: two arrays or objects
    are never the same object. *)
Definition same (a b : jsval) : bool :=
  match a, b with
  | None, None => true
  | Some JNull, Some JNull => true
  | Some (JBool x), Some (JBool y) => Bool.eqb x y
  | Some (JNum x), Some (JNum y) => x =? y
  | Some (JStr x), Some (JStr y) => String.eqb x y
  | _, _ => false
  end.

Definition str (s : string) : jsval := Some (JStr s).
Definition num (z : Z) : jsval := Some (JNum z).

(** [o.name] on a value that is neither [null] nor [undefined]: the last
    property of that name of an object, [undefined] on anything else (none
    of the names the code reads is a property of a primitive, and the one
    it reads on an array, [entries], is a method there; see
    [loadHashCache]). *)
Fixpoint lookup (name : string) (props : list (string * json)) : jsval :=
  match props with
  | [] => None
  | (k, v) :: rest =>
      match lookup name rest with
      | Some v' => Some v'
      | None => if String.eqb k name then Some v else None
      end
  end.

Definition prop (name : string) (v : json) : jsval :=
  match v with
  | JObj props => lookup name props
  | _ => None
  end.

Definition hexDigit (n : nat) : ascii :=
  ascii_of_nat (if (n <? 10)%nat then 48 + n else 87 + n).

(** The escape of one character inside a JSON string. *)
Definition escapeChar (c : ascii) : string :=
  let n := nat_of_ascii c in
  let bs := "\"%char in
  if (n =? 34)%nat then String bs (String c "")
  else if (n =? 92)%nat then String bs (String bs "")
  else if (n =? 8)%nat then String bs "b"
  else if (n =? 12)%nat then String bs "f"
  else if (n =? 10)%nat then String bs "n"
  else if (n =? 13)%nat then String bs "r"
  else if (n =? 9)%nat then String bs "t"
  else if (n <? 32)%nat
       then String bs ("u00" +:+ String (hexDigit (n / 16))
                                   (String (hexDigit (n mod 16)) ""))
  else String c "".

Fixpoint escape (s : string) : string :=
  match s with
  | EmptyString => ""
  | String c s' => escapeChar c +:+ escape s'
  end.

Definition quote (s : string) : string :=
  String (ascii_of_nat 34) (escape s +:+ String (ascii_of_nat 34) "").

Fixpoint joinWith (sep : string) (l : list string) : string :=
  match l with
  | [] => ""
  | [x] => x
  | x :: rest => x +:+ sep +:+ joinWith sep rest
  end.

Definition newline : string := String (ascii_of_nat 10) "".

(** [JSON.stringify(v, null, gap)] at indentation [ind]; [gap = 0] is the
    compact [JSON.stringify(v)]. *)
Fixpoint stringifyAt (gap ind : nat) (v : json) : string :=
  let inner := (ind + gap)%nat in
  let wrap (opening closing : string) (items : list string) :=
    match items with
    | [] => opening +:+ closing
    | _ =>
        if (gap =? 0)%nat
        then opening +:+ joinWith "," items +:+ closing
        else opening +:+ newline +:+ Str.repeat " "%char inner
             +:+ joinWith ("," +:+ newline +:+ Str.repeat " "%char inner) items
             +:+ newline +:+ Str.repeat " "%char ind +:+ closing
    end in
  match v with
  | JNull => "null"
  | JBool true => "true"
  | JBool false => "false"
  | JNum z => Str.ofZ z
  | JStr s => quote s
  | JArr items =>
      wrap "[" "]" (List.map (fun x => stringifyAt gap inner x) items)
  | JObj props =>
      wrap "{" "}"
        (List.map (fun kv =>
           quote (fst kv) +:+ (if (gap =? 0)%nat then ":" else ": ")
           +:+ stringifyAt gap inner (snd kv)) props)
  end.

Definition stringify (v : json) : string := stringifyAt 0 0 v.

End Js.

(** ** [Map]: an insertion-ordered association list *)

Module JsMap.

Section WithKey.
Context {K V : Type} (same : K -> K -> bool).

Fixpoint get (m : list (K * V)) (k : K) : option V :=
  match m with
  | [] => None
  | (k', v) :: m' => if same k' k then Some v else get m' k
  end.

Definition has (m : list (K * V)) (k : K) : bool :=
  match get m k with Some _ => true | None => false end.

(** [m.set(k, v)]: the value of an existing key is replaced where it
    stands, a new key goes to the end. *)
Fixpoint set (m : list (K * V)) (k : K) (v : V) : list (K * V) :=
  match m with
  | [] => [(k, v)]
  | (k', v') :: m' =>
      if same k' k then (k', v) :: m' else (k', v') :: set m' k v
  end.

End WithKey.

Definition keys {K V : Type} (m : list (K * V)) : list K := List.map fst m.
Definition values {K V : Type} (m : list (K * V)) : list V := List.map snd m.

End JsMap.

(** A [Map] keyed by strings, and one keyed by arbitrary values. *)
Abbreviation StrMap V := (list (string * V)).
Abbreviation ValMap V := (list (jsval * V)).

(** ** Files *)

(** The object [exifr.parse] resolves to: the tags the code reads. *)
Record ExifData : Type := {
  Make : jsval; Model : jsval;
  DateTime : jsval; DateTimeOriginal : jsval; CreateDate : jsval;
  DateTimeDigitized : jsval;
  Orientation : jsval; ExposureTime : jsval; FNumber : jsval; ISO : jsval;
  FocalLength : jsval; Flash : jsval; WhiteBalance : jsval;
  ImageWidth : jsval; ExifImageWidth : jsval;
  ImageHeight : jsval; ExifImageHeight : jsval
}.

(** What [exifr.parse(file)] does: it throws, or resolves to nothing
    ([undefined]) or to the tags. *)
Inductive ExifOutcome : Type :=
| ExifThrows
| ExifResolves (data : option ExifData).

(** What the code can observe of a regular file: its byte size and
    modification time ([fs.stat]), what [exifr.parse] makes of it, and what
    [fs.readJson] makes of it ([None] when it throws). *)
Record File : Type := {
  sizeBytes : N;
  mtime : Z;
  exif : ExifOutcome;
  jsonContent : option json
}.

(** The result of a call that may throw. *)
Inductive outcome (A : Type) : Type :=
| Returns (a : A)
| Throws.
Arguments Returns {A} a.
Arguments Throws {A}.

(** The file system: the regular files by path, and the clock that stamps
    the files written (one millisecond goes by at every write). *)
Record World : Type := {
  files : gmap string File;
  clock : Z
}.

Module Fs.

Definition stat (w : World) (p : string) : outcome File :=
  match files w !! p with
  | Some f => Returns f
  | None => Throws
  end.

Definition pathExists (w : World) (p : string) : bool :=
  match files w !! p with Some _ => true | None => false end.

(** The paths of the regular files below [dir], as the recursive
    [readdir] of [scanAllFiles] and [scanFiles] collects them, in the order
    of the map; a folder that is not there has none. *)
Definition scan (w : World) (dir : string) : list string :=
  List.filter (Str.startsWith (dir +:+ "/")) (map fst (map_to_list (files w))).

(** A directory exists as soon as a file lies below it. *)
Definition dirExists (w : World) (dir : string) : bool :=
  match scan w dir with [] => false | _ => true end.

Definition write (w : World) (p : string) (f : File) : World :=
  {| files := <[p := f]> (files w); clock := clock w + 1 |}.

(** [fs.copy(src, dst)]: the bytes of [src], stamped with the time of
    the copy. *)
Definition copy (w : World) (src dst : string) : outcome World :=
  match files w !! src with
  | Some f =>
      Returns (write w dst {| sizeBytes := sizeBytes f; mtime := clock w;
                              exif := exif f;
                              jsonContent := jsonContent f |})
  | None => Throws
  end.

Definition remove (w : World) (p : string) : World :=
  {| files := delete p (files w); clock := clock w |}.

(** [fs.readJson(p)]. *)
Definition readJson (w : World) (p : string) : outcome json :=
  match files w !! p with
  | Some f =>
      match jsonContent f with
      | Some j => Returns j
      | None => Throws
      end
  | None => Throws
  end.

(** [fs.writeJson(p, data, { spaces: 2 })]: the text is
    [JSON.stringify(data, null, 2)] and a final newline; [exifr] finds no
    image in it. *)
Definition writeJson (w : World) (p : string) (data : json) : World :=
  let text := Js.stringifyAt 2 0 data +:+ Js.newline in
  write w p {| sizeBytes := N.of_nat (String.length text); mtime := clock w;
               exif := ExifThrows; jsonContent := Some data |}.

End Fs.

(** ** [PhotoOrganizer] *)

(** The digest [crypto.createHash('md5').update(s).digest('hex')]. *)
Class Md5 := md5hex : string -> string.

(** The options a [PhotoOrganizer] is built with, as its constructor stores
    them. *)
Record Organizer : Type := {
  baseDirectory : string;
  dryRun : bool;
  isExifRenameMode : bool;
  duplicateSuffix : option string;
  useDetailedTimestamp : bool;
  videosOnly : bool
}.

(** The counters of [this.stats] that the modelled methods touch. *)
Record Stats : Type := {
  imagesProcessed : nat;
  duplicatesRemoved : nat;
  errors : nat
}.

Definition noStats : Stats :=
  {| imagesProcessed := 0; duplicatesRemoved := 0; errors := 0 |}.
Definition countImage (s : Stats) : Stats :=
  {| imagesProcessed := S (imagesProcessed s);
     duplicatesRemoved := duplicatesRemoved s; errors := errors s |}.
Definition countRemoved (s : Stats) : Stats :=
  {| imagesProcessed := imagesProcessed s;
     duplicatesRemoved := S (duplicatesRemoved s); errors := errors s |}.
Definition countError (s : Stats) : Stats :=
  {| imagesProcessed := imagesProcessed s;
     duplicatesRemoved := duplicatesRemoved s; errors := S (errors s) |}.

Definition imageExtensions : list string :=
  [".jpg"; ".jpeg"; ".png"; ".tiff"; ".tif"; ".bmp"; ".webp"; ".heic";
   ".heif"; ".raw"; ".cr2"; ".nef"; ".arw"; ".dng"].

Definition videoExtensions : list string :=
  [".mp4"; ".avi"; ".mov"; ".mkv"; ".wmv"; ".flv"; ".webm"; ".m4v"].

Definition hasExt (exts : list string) (file : string) : bool :=
  existsb (String.eqb (Path.lower (Path.extname file))) exts.

(** *** Fingerprints *)

(** The object [relevantExif] of [createFileFingerprint], in the order of
    its properties. *)
Definition relevantExif (d : ExifData) : list (string * jsval) :=
  [ ("make", Make d);
    ("model", Model d);
    ("dateTime", Js.or (Js.or (DateTime d) (DateTimeOriginal d)) (CreateDate d));
    ("orientation", Orientation d);
    ("exposureTime", ExposureTime d);
    ("fNumber", FNumber d);
    ("iso", ISO d);
    ("focalLength", FocalLength d);
    ("flash", Flash d);
    ("whiteBalance", WhiteBalance d);
    ("imageWidth", Js.or (ImageWidth d) (ExifImageWidth d));
    ("imageHeight", Js.or (ImageHeight d) (ExifImageHeight d)) ].

(** [cleanExif]: the properties whose value is not [undefined]. *)
Definition cleanExif (d : ExifData) : json :=
  JObj (omap (fun kv => match snd kv with
                        | Some v => Some (fst kv, v)
                        | None => None
                        end) (relevantExif d)).

(** [createFileFingerprint(filePath)]: it throws only when [fs.stat]
    does. *)
Definition createFileFingerprint `{Md5} (w : World) (filePath : string)
  : outcome string :=
  match Fs.stat w filePath with
  | Throws => Throws
  | Returns stats =>
      let fileSize := sizeBytes stats in
      let exifHash :=
        match exif stats with
        | ExifResolves (Some exifData) => md5hex (Js.stringify (cleanExif exifData))
        | ExifResolves None => "no-exif"
        | ExifThrows => "no-exif"
        end in
      Returns (Str.ofN fileSize +:+ "-" +:+ exifHash)
  end.

(** [^\d{4}-\d{2}-\d{2}] at the start of [s]: the date and what follows. *)
Definition splitDatePrefix (s : string) : option (string * string) :=
  match Str.take 10 s with
  | String a (String b (String c (String d (String h1 (String e (String f
      (String h2 (String g (String h EmptyString))))))))) =>
      if forallb Str.is_digit [a; b; c; d; e; f; g; h]
         && Str.ascii_eqb h1 "-"%char && Str.ascii_eqb h2 "-"%char
      then Some (Str.take 10 s, Str.drop 10 s)
      else None
  | _ => None
  end.

(** [filename.match(/^(\d{4}-\d{2}-\d{2})_\d+$/)]: the captured date. *)
Definition matchVideoDatePattern (filename : string) : option string :=
  match splitDatePrefix filename with
  | Some (date, String u digits) =>
      if Str.ascii_eqb u "_"%char && negb (String.eqb digits "")
         && Str.all_digits digits
      then Some date else None
  | _ => None
  end.

(** [createVideoFingerprint(filePath)]; [Returns None] is [null]. *)
Definition createVideoFingerprint (w : World) (filePath : string)
  : outcome (option string) :=
  match Fs.stat w filePath with
  | Throws => Throws
  | Returns stats =>
      let fileSize := sizeBytes stats in
      let filename := Path.basenameExt filePath (Path.extname filePath) in
      match matchVideoDatePattern filename with
      | None => Returns None
      | Some dateStr =>
          (* dateStr.split('-').map(Number) *)
          let year := Str.digits_val 0 (Str.take 4 dateStr) in
          let month := Str.digits_val 0 (Str.take 2 (Str.drop 5 dateStr)) in
          let day := Str.digits_val 0 (Str.take 2 (Str.drop 8 dateStr)) in
          match validateAndCreateDate (Str.ofZ year)
                  (Str.padStart 2 (Str.ofZ month))
                  (Str.padStart 2 (Str.ofZ day)) with
          | None => Returns None
          | Some _ => Returns (Some (Str.ofN fileSize +:+ "-video-" +:+ dateStr))
          end
      end
  end.

(** *** Duplicate groups *)

(** A member of a duplicate group, as [handleDuplicates] and
    [handleFilenameDuplicates] record it (the latter also keeps the base
    name, which it never reads again). *)
Record Member : Type := {
  path : string;
  hasSuffix : bool;
  memberMtime : Z
}.

(** [this.duplicateSuffix && baseName.endsWith(this.duplicateSuffix)], as a
    condition. *)
Definition suffixed (o : Organizer) (baseName : string) : bool :=
  match duplicateSuffix o with
  | Some s => negb (String.eqb s "") && Str.endsWith s baseName
  | None => false
  end.

(** [if (this.duplicateSuffix)]. *)
Definition suffixConfigured (o : Organizer) : bool :=
  match duplicateSuffix o with
  | Some s => negb (String.eqb s "")
  | None => false
  end.

(** [l.sort((a, b) => key(a) - key(b))]: the sort is stable. *)
Fixpoint insertByKey {A : Type} (key : A -> Z) (x : A) (l : list A) : list A :=
  match l with
  | [] => [x]
  | y :: l' => if key x <=? key y then x :: l else y :: insertByKey key x l'
  end.
Definition sortByKey {A : Type} (key : A -> Z) (l : list A) : list A :=
  fold_right (insertByKey key) [] l.

(** The choice of [fileToKeep] in a group of several members; [None] stands
    for the [undefined] that [[0]] gives on an empty array. *)
Definition chooseFileToKeep (o : Organizer) (group : list Member)
  : option Member :=
  if suffixConfigured o then
    let suffixedFiles := List.filter hasSuffix group in
    let originalFiles := List.filter (fun f => negb (hasSuffix f)) group in
    match suffixedFiles with
    | _ :: _ => head (sortByKey memberMtime suffixedFiles)
    | [] => head (sortByKey memberMtime originalFiles)
    end
  else head (sortByKey memberMtime group).

(** [fs.remove] of each of [paths] unless this is a dry run, counting
    them. *)
Definition removeAll (o : Organizer) (paths : list string)
    (ws : World * Stats) : World * Stats :=
  fold_left (fun '(w, st) p =>
               ((if dryRun o then w else Fs.remove w p), countRemoved st))
            paths ws.

(** One turn of the loop over the groups in [handleDuplicates] and in
    [handleFilenameDuplicates]: the path kept and the paths removed.  It
    throws on an empty group (reading [.path] of [undefined]). *)
Definition resolveGroup (o : Organizer) (group : list Member)
  : outcome (string * list string) :=
  match group with
  | [only] => Returns (path only, [])
  | _ =>
      match chooseFileToKeep o group with
      | Some fileToKeep =>
          Returns (path fileToKeep,
                   map path (List.filter
                     (fun f => negb (String.eqb (path f) (path fileToKeep)))
                     group))
      | None => Throws
      end
  end.

(** The loop over the groups. *)
Fixpoint resolveGroups (o : Organizer) (groups : list (list Member))
    (acc : World * Stats * list string)
  : outcome (World * Stats * list string) :=
  match groups with
  | [] => Returns acc
  | group :: rest =>
      match resolveGroup o group with
      | Throws => Throws
      | Returns (keep, toRemove) =>
          let '(w, st, filesToKeep) := acc in
          let '(w', st') := removeAll o toRemove (w, st) in
          resolveGroups o rest (w', st', filesToKeep ++ [keep])
      end
  end.

(** [groups.get(key).push(x)] after [if (!groups.has(key)) groups.set(key, [])]. *)
Definition groupPush {A : Type} (groups : StrMap (list A)) (key : string) (x : A)
  : StrMap (list A) :=
  JsMap.set String.eqb groups key (default [] (JsMap.get String.eqb groups key) ++ [x]).

(** [if (!groups.has(key)) groups.set(key, [])] alone. *)
Definition groupTouch {A : Type} (groups : StrMap (list A)) (key : string)
  : StrMap (list A) :=
  if JsMap.has String.eqb groups key then groups
  else JsMap.set String.eqb groups key [].

(** The first loop of [handleDuplicates]: the groups by fingerprint, the
    files kept because they could not be analysed, and the counters. *)
Definition analyseByFingerprint `{Md5} (o : Organizer) (w : World)
    (imageFiles : list string) (st : Stats)
  : StrMap (list Member) * list string * Stats :=
  fold_left
    (fun '(fingerprints, filesToKeep, st) file =>
       match createFileFingerprint w file with
       | Throws => (fingerprints, filesToKeep ++ [file], countError st)
       | Returns fingerprint =>
           let baseName := Path.basenameExt file (Path.extname file) in
           match Fs.stat w file with
           | Throws =>
               (groupTouch fingerprints fingerprint,
                filesToKeep ++ [file], countError st)
           | Returns stats =>
               (groupPush fingerprints fingerprint
                  {| path := file; hasSuffix := suffixed o baseName;
                     memberMtime := mtime stats |},
                filesToKeep, st)
           end
       end)
    imageFiles ([], [], st).

(** [handleDuplicates(imageFiles)]: the files kept. *)
Definition handleDuplicates `{Md5} (o : Organizer) (w : World) (st : Stats)
    (imageFiles : list string) : outcome (World * Stats * list string) :=
  let '(fingerprints, filesToKeep, st1) := analyseByFingerprint o w imageFiles st in
  resolveGroups o (JsMap.values fingerprints) (w, st1, filesToKeep).

(** The first loop of [handleFilenameDuplicates]: the groups by directory,
    base name without the suffix, and extension. *)
Definition analyseByFilename (o : Organizer) (w : World)
    (imageFiles : list string) (st : Stats)
  : StrMap (list Member) * list string * Stats :=
  fold_left
    (fun '(filenameGroups, filesToKeep, st) file =>
       let ext := Path.extname file in
       let fullBaseName := Path.basenameExt file ext in
       let hasSuffix := suffixed o fullBaseName in
       let baseFilename :=
         if hasSuffix
         then Str.dropEnd (String.length (default "" (duplicateSuffix o))) fullBaseName
         else fullBaseName in
       let groupKey := Path.join (Path.dirname file) (baseFilename +:+ ext) in
       match Fs.stat w file with
       | Throws =>
           (groupTouch filenameGroups groupKey,
            filesToKeep ++ [file], countError st)
       | Returns stats =>
           (groupPush filenameGroups groupKey
              {| path := file; hasSuffix := hasSuffix;
                 memberMtime := mtime stats |},
            filesToKeep, st)
       end)
    imageFiles ([], [], st).

(** [handleFilenameDuplicates(imageFiles)]: the files kept. *)
Definition handleFilenameDuplicates (o : Organizer) (w : World) (st : Stats)
    (imageFiles : list string) : outcome (World * Stats * list string) :=
  let '(filenameGroups, filesToKeep, st1) := analyseByFilename o w imageFiles st in
  resolveGroups o (JsMap.values filenameGroups) (w, st1, filesToKeep).

(** The groups of more than one file of a map from fingerprint to files. *)
Definition duplicateGroupsOf (fingerprints : StrMap (list string))
  : list (list string) :=
  List.filter (fun files => (1 <? length files)%nat) (JsMap.values fingerprints).

(** One turn of the first loop of [findDuplicatesByExifAndSize]. *)
Definition groupImageStep `{Md5} (w : World)
    (acc : StrMap (list string) * Stats) (file : string)
  : StrMap (list string) * Stats :=
  let '(fingerprints, st) := acc in
  match createFileFingerprint w file with
  | Returns fingerprint => (groupPush fingerprints fingerprint file, countImage st)
  | Throws => (fingerprints, countError st)
  end.

(** [findDuplicatesByExifAndSize(imageFiles)]. *)
Definition findDuplicatesByExifAndSize `{Md5} (w : World) (st : Stats)
    (imageFiles : list string) : list (list string) * Stats :=
  let '(fingerprints, st') := fold_left (groupImageStep w) imageFiles ([], st) in
  (duplicateGroupsOf fingerprints, st').

(** One turn of the first loop of [findDuplicatesByDateAndSize]: a file
    without a fingerprint joins no group. *)
Definition groupVideoStep (w : World)
    (acc : StrMap (list string) * Stats) (file : string)
  : StrMap (list string) * Stats :=
  let '(fingerprints, st) := acc in
  match createVideoFingerprint w file with
  | Returns (Some fingerprint) =>
      ((if String.eqb fingerprint "" then fingerprints
        else groupPush fingerprints fingerprint file), countImage st)
  | Returns None => (fingerprints, countImage st)
  | Throws => (fingerprints, countError st)
  end.

(** [findDuplicatesByDateAndSize(videoFiles)]. *)
Definition findDuplicatesByDateAndSize (w : World) (st : Stats)
    (videoFiles : list string) : list (list string) * Stats :=
  let '(fingerprints, st') := fold_left (groupVideoStep w) videoFiles ([], st) in
  (duplicateGroupsOf fingerprints, st').





(** *** New names *)

Definition numToString (n : Num.t) : string :=
  match n with Some z => Str.ofZ z | None => "NaN" end.

Definition numAdd1 (n : Num.t) : Num.t := option_map (Z.add 1) n.

(** The file name [`${base}_${String(counter).padStart(3, '0')}${ext}`]. *)
Definition counterName (base ext : string) (counter : Z) : string :=
  base +:+ "_" +:+ Str.padStart 3 (Str.ofZ counter) +:+ ext.

(** The [while] loop of [generateNewPath], entered with the current
    [counter] and [newPath]; [None] when [fuel] runs out. *)
Fixpoint generateLoop (fuel : nat) (w : World)
    (targetDir baseFilename ext originalPath : string)
    (counter : Z) (newFilename newPath : string)
  : option (outcome (string * string)) :=
  if Fs.pathExists w newPath && negb (String.eqb newPath originalPath) then
    let counter := counter + 1 in
    let newFilename := counterName baseFilename ext counter in
    let newPath := Path.join targetDir newFilename in
    if counter >? 9999 then Some Throws
    else match fuel with
         | S fuel' =>
             generateLoop fuel' w targetDir baseFilename ext originalPath
                          counter newFilename newPath
         | O => None
         end
  else Some (Returns (newPath, newFilename)).

(** [generateNewPath(originalPath, creationDate)]: the new path and the new
    file name.  The call of [fs.ensureDir] for the folder of the new names,
    before the loop, is left out here; [generateNewPathWith] has it. *)
Definition generateNewPath (o : Organizer) (w : World)
    (originalPath : string) (creationDate : JsDate.t)
  : option (outcome (string * string)) :=
  let ext := Path.lower (Path.extname originalPath) in
  let year := numToString (JsDate.getFullYear creationDate) in
  let month := Str.padStart 2 (numToString (numAdd1 (JsDate.getMonth creationDate))) in
  let day := Str.padStart 2 (numToString (JsDate.getDate creationDate)) in
  let targetDir :=
    if isExifRenameMode o then Path.dirname originalPath
    else Path.join (Path.join (baseDirectory o) year) month in
  let baseFilename :=
    if useDetailedTimestamp o then
      let hour := Str.padStart 2 (numToString (JsDate.getHours creationDate)) in
      let minute := Str.padStart 2 (numToString (JsDate.getMinutes creationDate)) in
      year +:+ "-" +:+ month +:+ "-" +:+ day +:+ "-" +:+ hour +:+ "-" +:+ minute
    else year +:+ "-" +:+ month +:+ "-" +:+ day in
  let counter := 1 in
  let newFilename := counterName baseFilename ext counter in
  let newPath := Path.join targetDir newFilename in
  generateLoop 9999 w targetDir baseFilename ext originalPath
               counter newFilename newPath.

(** The creation date [processVideoOrPatternFile] settles on: the date of
    the file name, or else the modification time of the file. *)
Definition videoCreationDate (w : World) (filePath : string) : outcome JsDate.t :=
  match extractDateFromFilename filePath with
  | Some date => Returns date
  | None =>
      match Fs.stat w filePath with
      | Returns stats => Returns (Some (mtime stats))
      | Throws => Throws
      end
  end.

(** [fs.move(oldPath, newPath)] unless this is a dry run. *)
Definition moveFile (o : Organizer) (w : World) (oldPath newPath : string)
  : outcome World :=
  if dryRun o then Returns w
  else match files w !! oldPath with
       | Some f =>
           if Fs.pathExists w newPath then Throws
           else Returns {| files := <[newPath := f]> (delete oldPath (files w));
                           clock := clock w |}
       | None => Throws
       end.

(** [processVideoOrPatternFile(filePath)]. *)
Definition processVideoOrPatternFile (o : Organizer) (w : World)
    (filePath : string) : option (outcome World) :=
  match videoCreationDate w filePath with
  | Throws => Some Throws
  | Returns creationDate =>
      match generateNewPath o w filePath creationDate with
      | None => None
      | Some Throws => Some Throws
      | Some (Returns (newPath, _)) =>
          if String.eqb newPath filePath then Some (Returns w)
          else Some (moveFile o w filePath newPath)
      end
  end.

(** ** [BatchProcessor] *)

Record BatchProcessor : Type := {
  sourceDirectory : string;
  targetDirectory : string
}.

Definition hashCacheFile (bp : BatchProcessor) : string :=
  Path.join (targetDirectory bp) ".photo-organizer-cache.json".

(** The counters of [this.globalStats] that the merge touches. *)
Record GlobalStats : Type := {
  filesRenamedForConflicts : nat;
  duplicatesSkipped : nat
}.

(** One turn of the loop of [buildHashDatabase]. *)
Definition hashStep `{Md5} (w : World) (hashes : StrMap string) (file : string)
  : StrMap string :=
  match createFileFingerprint w file with
  | Returns hash => JsMap.set String.eqb hashes file hash
  | Throws => hashes
  end.

(** [buildHashDatabase(files)]: the fingerprint of each file that has one,
    videos included. *)
Definition buildHashDatabase `{Md5} (w : World) (files : list string)
  : StrMap string :=
  fold_left (hashStep w) files [].

(** *** The cache *)

(** [const [file, entry] = item]: an array gives its first two elements, a
    string its first two characters (bytes here), anything else is not
    iterable. *)
Definition destructurePair (item : json) : outcome (jsval * jsval) :=
  match item with
  | JArr l => Returns (nth_error l 0, nth_error l 1)
  | JStr s =>
      let char i := match String.get i s with
                    | Some c => Some (JStr (String c ""))
                    | None => None
                    end in
      Returns (char 0%nat, char 1%nat)
  | _ => Throws
  end.

(** The loop [for (const [file, entry] of cacheData.entries) cache.set(file, entry)]. *)
Fixpoint fillCache (items : list json) (cache : ValMap jsval)
  : outcome (ValMap jsval) :=
  match items with
  | [] => Returns cache
  | item :: rest =>
      match destructurePair item with
      | Throws => Throws
      | Returns (file, entry) => fillCache rest (JsMap.set Js.same cache file entry)
      end
  end.

(** The body of the [try] of [loadHashCache]: [Returns None] when control
    leaves it without a [return]. *)
Definition loadHashCacheTry (bp : BatchProcessor) (w : World)
  : outcome (option (ValMap jsval)) :=
  if Fs.pathExists w (hashCacheFile bp) then
    match Fs.readJson w (hashCacheFile bp) with
    | Throws => Throws
    | Returns cacheData =>
        match cacheData with
        | JNull => Throws
        | JObj props =>
            match Js.lookup "entries" props with
            | Some (JArr items) =>
                match fillCache items [] with
                | Returns cache => Returns (Some cache)
                | Throws => Throws
                end
            | _ => Returns (Some [])
            end
        | _ => Returns (Some [])
        end
    end
  else Returns None.

(** [loadHashCache()]: from a file path to its cached entry. *)
Definition loadHashCache (bp : BatchProcessor) (w : World) : ValMap jsval :=
  match loadHashCacheTry bp w with
  | Returns (Some cache) => cache
  | Returns None => []
  | Throws => []
  end.

Definition pad (n : nat) (z : Z) : string := Str.padStart n (Str.ofZ z).

(** [new Date(tv).toISOString()], for a year from 0 to 9999. *)
Definition toISOString (tv : Z) : string :=
  let ms := JsDate.TimeWithinDay tv in
  pad 4 (JsDate.YearFromTime tv) +:+ "-" +:+ pad 2 (JsDate.MonthFromTime tv + 1)
  +:+ "-" +:+ pad 2 (JsDate.DateFromTime tv) +:+ "T"
  +:+ pad 2 (ms / 3600000) +:+ ":" +:+ pad 2 ((ms / 60000) mod 60)
  +:+ ":" +:+ pad 2 ((ms / 1000) mod 60) +:+ "." +:+ pad 3 (ms mod 1000) +:+ "Z".

(** A cache snapshot: the document with a version tag, the time of the last
    update and the entries. *)
Definition snapshot (version lastUpdated : string) (entries : list json) : json :=
  JObj [ ("version", JStr version);
         ("lastUpdated", JStr lastUpdated);
         ("entries", JArr entries) ].

(** The document written to the cache file: [version: '1.0'],
    [lastUpdated: new Date().toISOString()] and
    [entries: Array.from(cache.entries())]. *)
Definition cacheData (now : Z) (cache : ValMap jsval) : json :=
  snapshot "1.0" (toISOString now)
    (map (fun kv => JArr [default JNull (fst kv); default JNull (snd kv)]) cache).

(** The object [{ hash, modTime }]; a property that is [undefined] is not in
    the document. *)
Definition cacheEntry (hash modTime : jsval) : jsval :=
  Some (JObj (match hash with Some h => [("hash", h)] | None => [] end
              ++ match modTime with Some m => [("modTime", m)] | None => [] end)).

(** [updateHashCache(newEntries, allHashes)]: the new entries are set, the
    entries whose key is not the path of a file of [allHashes] are deleted
    (the loop of [delete] over the keys is a filter), and the document is
    written. *)
Definition updateHashCache (bp : BatchProcessor) (w : World)
    (newEntries : StrMap jsval) (allHashes : ValMap string) : World :=
  let existingCache := loadHashCache bp w in
  let existingCache :=
    fold_left (fun cache fe => JsMap.set Js.same cache (Js.str (fst fe)) (snd fe))
              newEntries existingCache in
  let currentFiles := JsMap.values allHashes in
  let existingCache :=
    List.filter (fun kv => match fst kv with
                           | Some (JStr file) => existsb (String.eqb file) currentFiles
                           | _ => false
                           end) existingCache in
  Fs.writeJson w (hashCacheFile bp) (cacheData (clock w) existingCache).

(** [updateCacheWithNewFiles(sourceFiles, sourceHashes, targetHashes)]. *)
Definition updateCacheWithNewFiles (bp : BatchProcessor) (w : World)
    (targetHashes : ValMap string) : World :=
  let existingCache := loadHashCache bp w in
  let existingCache :=
    fold_left
      (fun cache ht =>
         let '(hash, targetFile) := ht in
         if JsMap.has Js.same cache (Js.str targetFile) then cache
         else match Fs.stat w targetFile with
              | Returns stats =>
                  JsMap.set Js.same cache (Js.str targetFile)
                            (cacheEntry hash (Js.num (mtime stats)))
              | Throws => cache
              end)
      targetHashes existingCache in
  Fs.writeJson w (hashCacheFile bp) (cacheData (clock w) existingCache).

(** [fileModTimes]: the modification time of each file that [fs.stat]
    finds. *)
Definition modTimesOf (w : World) (targetFiles : list string) : StrMap Z :=
  fold_left (fun m file =>
               match Fs.stat w file with
               | Returns stats => JsMap.set String.eqb m file (mtime stats)
               | Throws => m
               end) targetFiles [].

(** One turn of the loop that sorts the target files into those whose
    cached entry is still valid and those to hash. *)
Definition splitStep (cachedHashes : ValMap jsval) (fileModTimes : StrMap Z)
    (acc : ValMap string * list string) (file : string)
  : ValMap string * list string :=
  let '(validCachedHashes, filesToHash) := acc in
  let currentModTime : jsval :=
    option_map JNum (JsMap.get String.eqb fileModTimes file) in
  let cachedEntry : jsval :=
    mjoin (JsMap.get Js.same cachedHashes (Js.str file)) in
  if Js.truthy cachedEntry
     && Js.same (cachedEntry ≫= Js.prop "modTime") currentModTime
  then (JsMap.set Js.same validCachedHashes
                  (cachedEntry ≫= Js.prop "hash") file, filesToHash)
  else (validCachedHashes, filesToHash ++ [file]).

Definition splitByCache (cachedHashes : ValMap jsval) (fileModTimes : StrMap Z)
    (targetFiles : list string) : ValMap string * list string :=
  fold_left (splitStep cachedHashes fileModTimes) targetFiles ([], []).

(** One turn of the loop that hashes the files the cache does not cover. *)
Definition hashRemainingStep `{Md5} (w : World) (fileModTimes : StrMap Z)
    (acc : ValMap string * StrMap jsval) (file : string)
  : ValMap string * StrMap jsval :=
  let '(validCachedHashes, newCacheEntries) := acc in
  match createFileFingerprint w file with
  | Returns hash =>
      let modTime : jsval :=
        option_map JNum (JsMap.get String.eqb fileModTimes file) in
      (JsMap.set Js.same validCachedHashes (Js.str hash) file,
       JsMap.set String.eqb newCacheEntries file
                 (cacheEntry (Js.str hash) modTime))
  | Throws => (validCachedHashes, newCacheEntries)
  end.

Definition hashRemaining `{Md5} (w : World) (fileModTimes : StrMap Z)
    (filesToHash : list string) (validCachedHashes : ValMap string)
  : ValMap string * StrMap jsval :=
  fold_left (hashRemainingStep w fileModTimes) filesToHash (validCachedHashes, []).

(** [buildTargetHashDatabase()] from the point where the cache has been
    loaded, given what was loaded. *)
Definition buildTargetWith `{Md5} (bp : BatchProcessor) (w : World)
    (cachedHashes : ValMap jsval) : ValMap string * World :=
  let targetFiles := Fs.scan w (targetDirectory bp) in
  match targetFiles with
  | [] => ([], w)
  | _ =>
      let fileModTimes := modTimesOf w targetFiles in
      let '(validCachedHashes, filesToHash) :=
        splitByCache cachedHashes fileModTimes targetFiles in
      match filesToHash with
      | [] => (validCachedHashes, w)
      | _ =>
          let '(validCachedHashes, newCacheEntries) :=
            hashRemaining w fileModTimes filesToHash validCachedHashes in
          (validCachedHashes,
           updateHashCache bp w newCacheEntries validCachedHashes)
      end
  end.

(** [buildTargetHashDatabase()]: the index from fingerprint to a file of the
    target, and the world with the cache file brought up to date. *)
Definition buildTargetHashDatabase `{Md5} (bp : BatchProcessor) (w : World)
  : ValMap string * World :=
  if negb (Fs.dirExists w (targetDirectory bp)) then ([], w)
  else buildTargetWith bp w (loadHashCache bp w).

(** *** The merge *)

(** The first counter from [counter] on whose name is free, looked for
    [fuel] times. *)
Fixpoint firstFree (fuel : nat) (w : World) (name : Z -> string) (counter : Z)
  : option string :=
  match fuel with
  | O => None
  | S fuel' =>
      if Fs.pathExists w (name counter)
      then firstFree fuel' w name (counter + 1)
      else Some (name counter)
  end.

(** [baseName.match(/^(\d{4}-\d{2}-\d{2})_(\d{3})$/)]: the date and the
    counter. *)
Definition matchDateCounter (baseName : string) : option (string * string) :=
  match splitDatePrefix baseName with
  | Some (date, String u counterStr) =>
      if Str.ascii_eqb u "_"%char && (String.length counterStr =? 3)%nat
         && Str.all_digits counterStr
      then Some (date, counterStr) else None
  | _ => None
  end.

(** [findUniqueFilename(targetPath)].  Both loops of the source look for the
    first free name from a counter on, without a bound; here the search is
    given as many turns as there are files, and one more ([None] when that
    is not enough, which does not happen: see [findUniqueFilename_total]). *)
Definition findUniqueFilename (w : World) (targetPath : string) : option string :=
  if negb (Fs.pathExists w targetPath) then Some targetPath
  else
    let ext := Path.extname targetPath in
    let baseName := Path.basenameExt targetPath ext in
    let dir := Path.dirname targetPath in
    let fuel := S (size (files w)) in
    match matchDateCounter baseName with
    | None =>
        firstFree fuel w (fun counter => Path.join dir (counterName baseName ext counter)) 1
    | Some (datePrefix, counterStr) =>
        let counter := Str.digits_val 0 counterStr in
        firstFree fuel w (fun counter => Path.join dir (counterName datePrefix ext counter))
                  (counter + 1)
    end.

(** The state of the loop of [copyOrganizedFiles]. *)
Record Merge : Type := {
  world : World;
  targetHashes : ValMap string;
  copiedCount : nat;
  globalStats : GlobalStats
}.

(** What the loop does with one source file. *)
Inductive Action : Type :=
| NoHash (sourceFile : string)
| Skip (sourceFile : string)
| Copy (sourceFile finalTargetPath : string).

(** One turn of the loop over the source files: the action taken and the
    state after it.  [None] when the search for a free name runs out of
    fuel, [Some Throws] when [fs.copy] throws.  The call of [fs.ensureDir]
    for the folder of the copy, before the search, is left out. *)
Definition copyStep (bp : BatchProcessor) (sourcePath : string)
    (sourceHashes : StrMap string) (s : Merge) (sourceFile : string)
  : option (outcome (Action * Merge)) :=
  match JsMap.get String.eqb sourceHashes sourceFile with
  | None => Some (Returns (NoHash sourceFile, s))
  | Some sourceHash =>
      if String.eqb sourceHash "" then Some (Returns (NoHash sourceFile, s))
      else if JsMap.has Js.same (targetHashes s) (Js.str sourceHash) then
        Some (Returns
          (Skip sourceFile,
           {| world := world s; targetHashes := targetHashes s;
              copiedCount := copiedCount s;
              globalStats :=
                {| filesRenamedForConflicts := filesRenamedForConflicts (globalStats s);
                   duplicatesSkipped := S (duplicatesSkipped (globalStats s)) |} |}))
      else
        let relativePath := Path.relative sourcePath sourceFile in
        let targetPath := Path.join (targetDirectory bp) relativePath in
        match findUniqueFilename (world s) targetPath with
        | None => None
        | Some finalTargetPath =>
            match Fs.copy (world s) sourceFile finalTargetPath with
            | Throws => Some Throws
            | Returns w' =>
                Some (Returns
                  (Copy sourceFile finalTargetPath,
                   {| world := w';
                      targetHashes :=
                        JsMap.set Js.same (targetHashes s) (Js.str sourceHash)
                                  finalTargetPath;
                      copiedCount := S (copiedCount s);
                      globalStats :=
                        {| filesRenamedForConflicts :=
                             (if String.eqb finalTargetPath targetPath
                              then filesRenamedForConflicts (globalStats s)
                              else S (filesRenamedForConflicts (globalStats s)));
                           duplicatesSkipped := duplicatesSkipped (globalStats s) |} |}))
            end
        end
  end.

(** The loop over the source files, with the actions taken in order. *)
Fixpoint copyLoop (bp : BatchProcessor) (sourcePath : string)
    (sourceHashes : StrMap string) (sourceFiles : list string) (s : Merge)
  : option (outcome (list Action * Merge)) :=
  match sourceFiles with
  | [] => Some (Returns ([], s))
  | sourceFile :: rest =>
      match copyStep bp sourcePath sourceHashes s sourceFile with
      | None => None
      | Some Throws => Some Throws
      | Some (Returns (a, s')) =>
          match copyLoop bp sourcePath sourceHashes rest s' with
          | Some (Returns (acts, s'')) => Some (Returns (a :: acts, s''))
          | other => other
          end
      end
  end.

(** [copyOrganizedFiles(sourcePath)]: the actions of the loop and the state
    it ends in, whose [copiedCount] is the value returned. *)
Definition copyOrganizedFiles `{Md5} (bp : BatchProcessor) (w : World)
    (gs : GlobalStats) (sourcePath : string)
  : option (outcome (list Action * Merge)) :=
  let sourceFiles := Fs.scan w sourcePath in
  let sourceHashes := buildHashDatabase w sourceFiles in
  let '(targetIndex, w1) := buildTargetHashDatabase bp w in
  match copyLoop bp sourcePath sourceHashes sourceFiles
          {| world := w1; targetHashes := targetIndex;
             copiedCount := 0; globalStats := gs |} with
  | Some (Returns (acts, s)) =>
      let w2 := if (0 <? copiedCount s)%nat
                then updateCacheWithNewFiles bp (world s) (targetHashes s)
                else world s in
      Some (Returns (acts, {| world := w2; targetHashes := targetHashes s;
                              copiedCount := copiedCount s;
                              globalStats := globalStats s |}))
  | other => other
  end.

(** ** The calendar, for the statements *)

(** The days of month [m] (1-12) of year [y] in the Gregorian calendar. *)
Definition daysInMonth (y m : Z) : Z :=
  match m with
  | 1 | 3 | 5 | 7 | 8 | 10 | 12 => 31
  | 4 | 6 | 9 | 11 => 30
  | 2 => if (y mod 4 =? 0) && (negb (y mod 100 =? 0) || (y mod 400 =? 0))
         then 29 else 28
  | _ => 0
  end.

(** [y]-[m]-[d] is a day of the calendar. *)
Definition calendarDate (y m d : Z) : Prop :=
  1 <= m <= 12 /\ 1 <= d <= daysInMonth y m.

(** The integers [lo], [lo + 1], ..., [n] of them. *)
Fixpoint zrange (lo : Z) (n : nat) : list Z :=
  match n with
  | O => []
  | S k => lo :: zrange (lo + 1) k
  end.

(** On the window of [validateAndCreateDate], the comparison of the date
    built by [new Date(year, month - 1, day)] with its arguments is the
    test of the calendar. *)
Definition roundTrips (y m d : Z) : bool :=
  let date := JsDate.ofYMD (Some y) (Some (m - 1)) (Some d) in
  Num.seq (JsDate.getFullYear date) (Some y)
  && Num.seq (JsDate.getMonth date) (Some (m - 1))
  && Num.seq (JsDate.getDate date) (Some d).

(** ** Notions for the statements *)

(** [f] is the fingerprint of the file at [p]: the one of
    [createFileFingerprint] or the one of [createVideoFingerprint]. *)
Definition isFingerprintOf `{Md5} (w : World) (p f : string) : Prop :=
  createFileFingerprint w p = Returns f
  \/ createVideoFingerprint w p = Returns (Some f).

(** The extraction of the metadata of a file fails entirely: the parser
    throws, or gives nothing. *)
Definition metadataUnreadable (f : File) : Prop :=
  exif f = ExifThrows \/ exif f = ExifResolves None.

(** A stand-in for the digest, to run the examples: none of them reaches
    it, and the properties hold for any function. *)
Definition plainDigest : Md5 := fun s => s.

(** A file that is [n] bytes long, last modified at [t], without metadata
    that [exifr] can read and without JSON in it. *)
Definition plainFile (n : N) (t : Z) : File :=
  {| sizeBytes := n; mtime := t; exif := ExifThrows; jsonContent := None |}.

(** The world [w] with the document [j] in the cache file of [bp]. *)
Definition withCacheFile (bp : BatchProcessor) (w : World) (j : json) : World :=
  Fs.writeJson w (hashCacheFile bp) j.

(** The world [w] with a cache file that [fs.readJson] cannot read or
    parse. *)
Definition withBrokenCacheFile (bp : BatchProcessor) (w : World) (n : N) : World :=
  Fs.write w (hashCacheFile bp) (plainFile n (clock w)).

(** The world [w] without a cache file. *)
Definition withoutCacheFile (bp : BatchProcessor) (w : World) : World :=
  Fs.remove w (hashCacheFile bp).

(** [keep] is a member of [l], and none of [l] is older. *)
Definition oldestIn (keep : Member) (l : list Member) : Prop :=
  In keep l /\ forall x, In x l -> memberMtime keep <= memberMtime x.

(** Some member of the group carries the preferred suffix. *)
Definition someSuffixed (group : list Member) : Prop :=
  exists x, In x group /\ hasSuffix x = true.

(** An organizer for the examples, with the suffix [_edited]. *)
Definition editedSuffixOrganizer : Organizer :=
  {| baseDirectory := "/d"; dryRun := false; isExifRenameMode := false;
     duplicateSuffix := Some "_edited"; useDetailedTimestamp := false;
     videosOnly := false |}.

(** Three files of the same content, modified at 1, 2 and 3, of which the
    second alone carries the suffix. *)
Definition threeCopies : World :=
  {| files := {[ "/d/x.jpg" := plainFile 9 1;
                 "/d/x_edited.jpg" := plainFile 9 2;
                 "/d/y.jpg" := plainFile 9 3 ]};
     clock := 10 |}.


Definition exampleBatch : BatchProcessor :=
  {| sourceDirectory := "/zips"; targetDirectory := "/t" |}.

Definition noGlobalStats : GlobalStats :=
  {| filesRenamedForConflicts := 0; duplicatesSkipped := 0 |}.

(** The actions of a run of the merge. *)
Definition actionsOf (r : option (outcome (list Action * Merge)))
  : option (list Action) :=
  match r with
  | Some (Returns (acts, _)) => Some acts
  | _ => None
  end.

(** The files copied by a run of the merge. *)
Definition copiesOf (r : option (outcome (list Action * Merge))) : option nat :=
  match r with
  | Some (Returns (_, s)) => Some (copiedCount s)
  | _ => None
  end.

(** The world a run of the merge leaves. *)
Definition worldAfter (w : World) (r : option (outcome (list Action * Merge)))
  : World :=
  match r with
  | Some (Returns (_, s)) => world s
  | _ => w
  end.

(** A month folder of the target in which the 9999 names
    [2023-01-15_001.jpg] to [2023-01-15_9999.jpg] are taken. *)
Definition crowdedMonth : World :=
  {| files :=
       list_to_map
         (map (fun c => (Path.join "/t/2023/01" (counterName "2023-01-15" ".jpg" c),
                         plainFile 1 0))
              (zrange 1 (Z.to_nat 9999)));
     clock := 10 |}.

(** An organizer of the folder [/t], as the batch processor builds it. *)
Definition targetOrganizer : Organizer :=
  {| baseDirectory := "/t"; dryRun := false; isExifRenameMode := false;
     duplicateSuffix := None; useDetailedTimestamp := false;
     videosOnly := false |}.

(** The fingerprints that an index holds, in the order of its keys. *)
Definition indexFingerprints (index : ValMap string) : list string :=
  omap (fun k => match k with Some (JStr s) => Some s | _ => None end)
       (JsMap.keys index).

(** The fingerprints of the files that a list of actions copies. *)
Definition copiedFingerprints (sourceHashes : StrMap string) (acts : list Action)
  : list string :=
  omap (fun a => match a with
                 | Copy sourceFile _ => JsMap.get String.eqb sourceHashes sourceFile
                 | _ => None
                 end) acts.

(** The state of the loop after a skip. *)
Definition skipped (s : Merge) : Merge :=
  {| world := world s; targetHashes := targetHashes s;
     copiedCount := copiedCount s;
     globalStats :=
       {| filesRenamedForConflicts := filesRenamedForConflicts (globalStats s);
          duplicatesSkipped := S (duplicatesSkipped (globalStats s)) |} |}.

(** A source with two files of the same content and a third one, and a
    target that holds the content of the third already. *)
Definition twoAlike : World :=
  {| files := {[ "/s/2021/05/2021-05-01_001.jpg" := plainFile 4 1;
                 "/s/2021/05/2021-05-01_002.jpg" := plainFile 4 2;
                 "/s/2021/05/2021-05-02_001.jpg" := plainFile 6 3;
                 "/t/2021/05/2021-05-01_001.jpg" := plainFile 6 4 ]};
     clock := 10 |}.

(** A target whose cache file holds the empty document [{}], two bytes
    long, and a source with one file of two bytes that [exifr] cannot
    read. *)
Definition smallCache : World :=
  {| files := {[ "/t/.photo-organizer-cache.json" :=
                   {| sizeBytes := 2; mtime := 5; exif := ExifThrows;
                      jsonContent := Some (JObj []) |};
                 "/s/a.jpg" := plainFile 2 7 ]};
     clock := 1000 |}.

(** A target with one photo and no cache file yet. *)
Definition freshTarget : World :=
  {| files := {[ "/t/2020/01/2020-01-05_001.jpg" := plainFile 10 1 ]};
     clock := 1000 |}.

(** The byte size of the cache file of the example target in [w]. *)
Definition cacheFileSize (w : World) : N :=
  match files w !! hashCacheFile exampleBatch with
  | Some f => sizeBytes f
  | None => 0
  end.

(** [freshTarget] after a first merge, of an empty source, which writes the
    cache file; then a source file arrives that is as long as the cache
    file and that [exifr] cannot read. *)
Definition afterFirstMerge : World :=
  worldAfter freshTarget
    (copyOrganizedFiles (H := plainDigest) exampleBatch freshTarget
       noGlobalStats "/empty").
Definition newSource : World :=
  Fs.write afterFirstMerge "/s/a.jpg"
    (plainFile (cacheFileSize afterFirstMerge) (clock afterFirstMerge)).

(** Two runs of the merge of [sourcePath], one after the other: the files
    copied by each. *)
Definition twoRuns `{Md5} (bp : BatchProcessor) (w : World) (sourcePath : string)
  : option nat * option nat :=
  let first := copyOrganizedFiles bp w noGlobalStats sourcePath in
  let second :=
    copyOrganizedFiles bp (worldAfter w first) noGlobalStats sourcePath in
  (copiesOf first, copiesOf second).

(** ** Further notions for the statements *)

(** The folder and the base file name that [generateNewPath] builds the new
    names from (its [targetDir] and [baseFilename]). *)
Definition newPathDir (o : Organizer) (originalPath : string)
    (creationDate : JsDate.t) : string :=
  let year := numToString (JsDate.getFullYear creationDate) in
  let month := Str.padStart 2 (numToString (numAdd1 (JsDate.getMonth creationDate))) in
  if isExifRenameMode o then Path.dirname originalPath
  else Path.join (Path.join (baseDirectory o) year) month.

Definition newBaseFilename (o : Organizer) (creationDate : JsDate.t) : string :=
  let year := numToString (JsDate.getFullYear creationDate) in
  let month := Str.padStart 2 (numToString (numAdd1 (JsDate.getMonth creationDate))) in
  let day := Str.padStart 2 (numToString (JsDate.getDate creationDate)) in
  if useDetailedTimestamp o then
    let hour := Str.padStart 2 (numToString (JsDate.getHours creationDate)) in
    let minute := Str.padStart 2 (numToString (JsDate.getMinutes creationDate)) in
    year +:+ "-" +:+ month +:+ "-" +:+ day +:+ "-" +:+ hour +:+ "-" +:+ minute
  else year +:+ "-" +:+ month +:+ "-" +:+ day.

(** The candidate of counter [c] of [generateNewPath]. *)
Definition newPathCandidate (o : Organizer) (originalPath : string)
    (creationDate : JsDate.t) (c : Z) : string :=
  Path.join (newPathDir o originalPath creationDate)
    (counterName (newBaseFilename o creationDate)
                 (Path.lower (Path.extname originalPath)) c).

(** A candidate is taken: a file has its name, and it is not the file that
    is being renamed. *)
Definition taken (w : World) (originalPath candidate : string) : bool :=
  Fs.pathExists w candidate && negb (String.eqb candidate originalPath).

(** ** Free names, for any answers of the file system

    [findUniqueFilename] and [generateNewPath] read the file system through
    [fs.pathExists] alone, which is true of a folder as it is of a file, and
    [generateNewPath] calls [fs.ensureDir] before its loop.  Here the two
    calls are parameters: [pathExists p] is what [fs.pathExists(p)] answers
    while the function runs, and [ensureDir dir] is what [fs.ensureDir(dir)]
    does, [Throws] when it throws.  [findUniqueFilename] and
    [generateNewPath] above are the instances in which [fs.pathExists] is
    the test for a regular file and [fs.ensureDir] returns. *)

Section FreeNames.

Variable pathExists : string -> bool.
Variable ensureDir : string -> outcome unit.

(** The first counter from [counter] on whose name is free, looked for
    [fuel] times. *)
Fixpoint firstFreeWith (fuel : nat) (name : Z -> string) (counter : Z)
  : option string :=
  match fuel with
  | O => None
  | S fuel' =>
      if pathExists (name counter)
      then firstFreeWith fuel' name (counter + 1)
      else Some (name counter)
  end.

(** [findUniqueFilename(targetPath)], its loops given [fuel] turns. *)
Definition findUniqueFilenameWith (fuel : nat) (targetPath : string)
  : option string :=
  if negb (pathExists targetPath) then Some targetPath
  else
    let ext := Path.extname targetPath in
    let baseName := Path.basenameExt targetPath ext in
    let dir := Path.dirname targetPath in
    match matchDateCounter baseName with
    | None =>
        firstFreeWith fuel
          (fun counter => Path.join dir (counterName baseName ext counter)) 1
    | Some (datePrefix, counterStr) =>
        let counter := Str.digits_val 0 counterStr in
        firstFreeWith fuel
          (fun counter => Path.join dir (counterName datePrefix ext counter))
          (counter + 1)
    end.

(** The [while] loop of [generateNewPath]. *)
Fixpoint generateLoopWith (fuel : nat)
    (targetDir baseFilename ext originalPath : string)
    (counter : Z) (newFilename newPath : string)
  : option (outcome (string * string)) :=
  if pathExists newPath && negb (String.eqb newPath originalPath) then
    let counter := counter + 1 in
    let newFilename := counterName baseFilename ext counter in
    let newPath := Path.join targetDir newFilename in
    if counter >? 9999 then Some Throws
    else match fuel with
         | S fuel' =>
             generateLoopWith fuel' targetDir baseFilename ext originalPath
                              counter newFilename newPath
         | O => None
         end
  else Some (Returns (newPath, newFilename)).

(** [generateNewPath(originalPath, creationDate)]. *)
Definition generateNewPathWith (o : Organizer) (originalPath : string)
    (creationDate : JsDate.t) : option (outcome (string * string)) :=
  let ext := Path.lower (Path.extname originalPath) in
  let year := numToString (JsDate.getFullYear creationDate) in
  let month := Str.padStart 2 (numToString (numAdd1 (JsDate.getMonth creationDate))) in
  let day := Str.padStart 2 (numToString (JsDate.getDate creationDate)) in
  let targetDir :=
    if isExifRenameMode o then Path.dirname originalPath
    else Path.join (Path.join (baseDirectory o) year) month in
  let baseFilename :=
    if useDetailedTimestamp o then
      let hour := Str.padStart 2 (numToString (JsDate.getHours creationDate)) in
      let minute := Str.padStart 2 (numToString (JsDate.getMinutes creationDate)) in
      year +:+ "-" +:+ month +:+ "-" +:+ day +:+ "-" +:+ hour +:+ "-" +:+ minute
    else year +:+ "-" +:+ month +:+ "-" +:+ day in
  let counter := 1 in
  let newFilename := counterName baseFilename ext counter in
  let newPath := Path.join targetDir newFilename in
  match ensureDir targetDir with
  | Throws => Some Throws
  | Returns _ =>
      generateLoopWith 9999 targetDir baseFilename ext originalPath
                       counter newFilename newPath
  end.

(** A candidate of [generateNewPath] is taken: something has its name, and
    it is not the file that is being renamed. *)
Definition takenWith (originalPath candidate : string) : bool :=
  pathExists candidate && negb (String.eqb candidate originalPath).

End FreeNames.

(** The counter [findUniqueFilename] starts from for a path that is taken,
    and the name it tries for a counter: a base name [<date>_<NNN>] keeps
    its date and starts above [NNN], another base name gets [_<counter>]
    appended, from 1 on. *)
Definition firstCounter (targetPath : string) : Z :=
  match matchDateCounter
          (Path.basenameExt targetPath (Path.extname targetPath)) with
  | Some (_, counterStr) => Str.digits_val 0 counterStr + 1
  | None => 1
  end.

Definition numberedPath (targetPath : string) (counter : Z) : string :=
  let ext := Path.extname targetPath in
  let baseName := Path.basenameExt targetPath ext in
  let stem := match matchDateCounter baseName with
              | Some (datePrefix, _) => datePrefix
              | None => baseName
              end in
  Path.join (Path.dirname targetPath) (counterName stem ext counter).

(** The answers of [fs.pathExists] on a file system that holds the files of
    [w] and the folders [folders]. *)
Definition existsIn (w : World) (folders : list string) (p : string) : bool :=
  Fs.pathExists w p || existsb (String.eqb p) folders.

(** Two files have the same content: the same bytes, so the same size and
    the same reading by [exifr] and by [fs.readJson]. *)
Definition sameContent (f g : File) : Prop :=
  sizeBytes f = sizeBytes g /\ exif f = exif g /\ jsonContent f = jsonContent g.

(** The source file an action is about. *)
Definition actionSource (a : Action) : string :=
  match a with
  | NoHash f | Skip f | Copy f _ => f
  end.

Definition isCopy (a : Action) : bool :=
  match a with Copy _ _ => true | _ => false end.

Definition isSkip (a : Action) : bool :=
  match a with Skip _ => true | _ => false end.

(** The paths the copies of a list of actions went to. *)
Definition copyTargets (acts : list Action) : list string :=
  omap (fun a => match a with Copy _ final => Some final | _ => None end) acts.

(** The entry the loaded cache has for a file of the target, and the test
    [cachedEntry && cachedEntry.modTime === currentModTime] of
    [buildTargetHashDatabase], with the modification time [fs.stat] gives. *)
Definition cachedEntryOf (cachedHashes : ValMap jsval) (file : string) : jsval :=
  mjoin (JsMap.get Js.same cachedHashes (Js.str file)).

Definition currentModTimeOf (w : World) (file : string) : jsval :=
  option_map (fun f => JNum (mtime f)) (files w !! file).

Definition cacheCovers (cachedHashes : ValMap jsval) (w : World) (file : string) : bool :=
  Js.truthy (cachedEntryOf cachedHashes file)
  && Js.same (cachedEntryOf cachedHashes file ≫= Js.prop "modTime")
             (currentModTimeOf w file).

(** The grouping loop of [findDuplicatesByExifAndSize] and of
    [findDuplicatesByDateAndSize], without its counters: a file joins the
    group of its key, a file without a key joins none. *)
Definition groupByKey (key : string -> option string) (files : list string)
    (groups : StrMap (list string)) : StrMap (list string) :=
  fold_left (fun m f => match key f with
                        | Some k => groupPush m k f
                        | None => m
                        end) files groups.

(** The key of a file in the two passes. *)
Definition imageKey `{Md5} (w : World) (file : string) : option string :=
  match createFileFingerprint w file with
  | Returns fingerprint => Some fingerprint
  | Throws => None
  end.

Definition videoKey (w : World) (file : string) : option string :=
  match createVideoFingerprint w file with
  | Returns (Some fingerprint) =>
      if String.eqb fingerprint "" then None else Some fingerprint
  | _ => None
  end.






Definition mtimeOf (w : World) (p : string) : Z :=
  match files w !! p with Some f => mtime f | None => 0 end.

(** The files of a list that have the key [k]. *)
Definition withKey (key : string -> option string) (k : string)
    (files : list string) : list string :=
  List.filter (fun f => match key f with
                        | Some k' => String.eqb k' k
                        | None => false
                        end) files.




(** ** Live videos *)

(** The key of a photo in [findLiveVideos]: its directory joined with its
    base name, from which the lower-cased extension is taken off. *)
Definition photoKey (file : string) : string :=
  let ext := Path.lower (Path.extname file) in
  let baseName := Path.basenameExt file ext in
  let dirName := Path.dirname file in
  Path.join dirName baseName.

(** The key of a video: [path.basename(videoFile, '.mov')] in its
    directory. *)
Definition movKey (videoFile : string) : string :=
  let baseName := Path.basenameExt videoFile ".mov" in
  let dirName := Path.dirname videoFile in
  Path.join dirName baseName.

(** The base name of a file does not start with two dots, so that what
    is left of it without its extension is neither [.] nor [..], which
    [path.join] would resolve. *)
Definition plainName (file : string) : bool :=
  negb (Str.startsWith ".." (Path.basename file)).

(** One turn of the loop that separates photos and videos. *)
Definition separateStep (acc : StrMap string * list string) (file : string)
  : StrMap string * list string :=
  let '(photoFiles, videoFiles) := acc in
  let ext := Path.lower (Path.extname file) in
  if existsb (String.eqb ext) imageExtensions
  then (JsMap.set String.eqb photoFiles (photoKey file) file, videoFiles)
  else if String.eqb ext ".mov" then (photoFiles, videoFiles ++ [file])
  else (photoFiles, videoFiles).

(** [findLiveVideos(files)]. *)
Definition findLiveVideos (files : list string) : list string :=
  let '(photoFiles, videoFiles) := fold_left separateStep files ([], []) in
  fold_left (fun liveVideos videoFile =>
               if JsMap.has String.eqb photoFiles (movKey videoFile)
               then liveVideos ++ [videoFile]
               else liveVideos)
            videoFiles [].

(** [deleteLiveVideos(liveVideos)], with the counter
    [stats.liveVideosRemoved]. *)
Definition deleteLiveVideos (o : Organizer) (liveVideos : list string)
    (wn : World * nat) : World * nat :=
  fold_left (fun '(w, removed) videoFile =>
               ((if dryRun o then w else Fs.remove w videoFile), S removed))
            liveVideos wn.

(** [removeLiveVideos()]. *)
Definition removeLiveVideos (o : Organizer) (wn : World * nat) : World * nat :=
  let files := Fs.scan (fst wn) (baseDirectory o) in
  let liveVideos := findLiveVideos files in
  match liveVideos with
  | [] => wn
  | _ => deleteLiveVideos o liveVideos wn
  end.

(** A file is a live video among [files]: its extension is [.mov] in any
    case of the letters, and a photo of [files] has its key. *)
Definition isMov (file : string) : bool :=
  String.eqb (Path.lower (Path.extname file)) ".mov".

Definition isLiveVideo (files : list string) (videoFile : string) : bool :=
  isMov videoFile
  && existsb (fun photo => hasExt imageExtensions photo
                           && String.eqb (photoKey photo) (movKey videoFile)) files.

(** ** Duplicates by file name *)

(** Whether the base name of a file ends with the preferred suffix, and
    the key [handleFilenameDuplicates] groups the files by: the directory
    joined with the base name without the suffix, and the extension. *)
Definition hasDuplicateSuffix (o : Organizer) (file : string) : bool :=
  suffixed o (Path.basenameExt file (Path.extname file)).

Definition nameKey (o : Organizer) (file : string) : string :=
  let ext := Path.extname file in
  let fullBaseName := Path.basenameExt file ext in
  let baseFilename :=
    if suffixed o fullBaseName
    then Str.dropEnd (String.length (default "" (duplicateSuffix o))) fullBaseName
    else fullBaseName in
  Path.join (Path.dirname file) (baseFilename +:+ ext).

(** The record the pass keeps of a file. *)
Definition memberOf (o : Organizer) (w : World) (file : string) : Member :=
  {| path := file; hasSuffix := hasDuplicateSuffix o file;
     memberMtime := mtimeOf w file |}.

(** What [resolveGroup] keeps and removes of a group. *)
Definition keptOf (o : Organizer) (group : list Member) : string :=
  match resolveGroup o group with
  | Returns (keep, _) => keep
  | Throws => ""
  end.

Definition removedOf (o : Organizer) (group : list Member) : list string :=
  match resolveGroup o group with
  | Returns (_, toRemove) => toRemove
  | Throws => []
  end.

(** The groups of a map with each file replaced by its record. *)
Definition membersOf (o : Organizer) (w : World) (groups : StrMap (list string))
  : StrMap (list Member) :=
  map (fun kg => (fst kg, map (memberOf o w) (snd kg))) groups.

(** ** The cache, written and read back *)

(** A [Map] holds each key once. *)
Fixpoint distinctKeys {V : Type} (m : ValMap V) : Prop :=
  match m with
  | [] => True
  | (k, _) :: m' => JsMap.has Js.same m' k = false /\ distinctKeys m'
  end.

(** What [JSON.stringify] and [JSON.parse] make of an element of an array:
    [undefined] comes back as [null]. *)
Definition throughJson (v : jsval) : jsval := Some (default JNull v).

(** The loop of [loadHashCache] over the entries that [cacheData] wrote. *)
Definition reloaded (cache : ValMap jsval) : ValMap jsval :=
  fold_left (fun c kv => JsMap.set Js.same c (throughJson (fst kv)) (throughJson (snd kv)))
            cache [].

(** The entry a copy adds to the index of the target. *)
Definition copiedEntry (sourceHashes : StrMap string) (a : Action)
  : option (jsval * string) :=
  match a with
  | Copy sf final =>
      option_map (fun h => (Js.str h, final)) (JsMap.get String.eqb sourceHashes sf)
  | _ => None
  end.

(** A target with two files of the same content and no cache file. *)
Definition twoSame : World :=
  {| files := {[ "/t/a.jpg" := plainFile 4 1; "/t/b.jpg" := plainFile 4 2 ]};
     clock := 10 |}.

(** ** Renaming a photo *)

Section ImageDates.

(** [new Date(value)] on the value of a tag, as [exifr] gives it: the time
    value, [None] for an invalid date. *)
Variable parseDate : json -> JsDate.t.

(** One turn of the loop over the date fields: the date of a tag that is
    there and is a valid date. *)
Definition dateOfField (v : jsval) : option JsDate.t :=
  if Js.truthy v then
    match v with
    | Some j => match parseDate j with
                | Some tv => Some (Some tv)
                | None => None
                end
    | None => None
    end
  else None.

(** [extractCreationDate(exifData, filePath)]; [None] is [null]. *)
Definition extractCreationDate (exifData : option ExifData) : option JsDate.t :=
  match exifData with
  | None => None
  | Some d =>
      match dateOfField (DateTimeOriginal d) with
      | Some date => Some date
      | None =>
          match dateOfField (CreateDate d) with
          | Some date => Some date
          | None =>
              match dateOfField (DateTime d) with
              | Some date => Some date
              | None => dateOfField (DateTimeDigitized d)
              end
          end
      end
  end.

(** What [exifr.parse(filePath)] does with a path. *)
Definition parseExif (w : World) (filePath : string) : ExifOutcome :=
  match files w !! filePath with
  | Some f => exif f
  | None => ExifThrows
  end.

(** The creation date [processImageFile] settles on. *)
Definition imageCreationDate (o : Organizer) (w : World) (filePath : string)
  : outcome JsDate.t :=
  let creationDate :=
    match parseExif w filePath with
    | ExifResolves exifData => extractCreationDate exifData
    | ExifThrows =>
        let ext := Path.lower (Path.extname filePath) in
        if isExifRenameMode o || String.eqb ext ".heic" || String.eqb ext ".heif"
        then extractDateFromFilename filePath
        else None
    end in
  match creationDate with
  | Some date => Returns date
  | None =>
      match Fs.stat w filePath with
      | Returns stats => Returns (Some (mtime stats))
      | Throws => Throws
      end
  end.

(** [processImageFile(filePath)]. *)
Definition processImageFile (o : Organizer) (w : World) (filePath : string)
  : option (outcome World) :=
  match imageCreationDate o w filePath with
  | Throws => Some Throws
  | Returns creationDate =>
      match generateNewPath o w filePath creationDate with
      | None => None
      | Some Throws => Some Throws
      | Some (Returns (newPath, _)) =>
          if String.eqb newPath filePath then Some (Returns w)
          else Some (moveFile o w filePath newPath)
      end
  end.

(** [processFile(filePath)]. *)
Definition processFile (o : Organizer) (w : World) (filePath : string)
  : option (outcome World) :=
  let ext := Path.lower (Path.extname filePath) in
  if String.eqb ext ".json" then
    Some (Returns (if dryRun o then w else Fs.remove w filePath))
  else
    let afterImage :=
      if existsb (String.eqb ext) imageExtensions
      then processImageFile o w filePath
      else Some (Returns w) in
    match afterImage with
    | Some (Returns w1) =>
        if existsb (String.eqb ext) videoExtensions || String.eqb ext ".gif"
        then processVideoOrPatternFile o w1 filePath
        else Some (Returns w1)
    | Some Throws => Some Throws
    | None => None
    end.

End ImageDates.

(** The file [f] of [filePath] is where [generateNewPath] sends it for the
    date, in [w'] after [w]: where it was, or at a path where no file was;
    no other file has changed, and none at all in a dry run or when the file
    stays where it was. *)
Definition relocated (o : Organizer) (w : World) (filePath : string) (f : File)
    (creationDate : JsDate.t) (w' : World) : Prop :=
  exists c,
    let newPath := newPathCandidate o filePath creationDate c in
    1 <= c <= 9999
    /\ (newPath = filePath \/ files w !! newPath = None)
    /\ (dryRun o = true \/ newPath = filePath -> files w' = files w)
    /\ (dryRun o = false ->
        files w' !! newPath = Some f
        /\ (newPath <> filePath -> files w' !! filePath = None)
        /\ forall q, q <> filePath -> q <> newPath ->
             files w' !! q = files w !! q).

(** ** The loop of [organize] *)

(** [processFiles(files)]: each file in turn, an error counted for a call
    that throws; [None] when a search for a name runs out of fuel. *)
Fixpoint processFiles (parseDate : json -> JsDate.t) (o : Organizer)
    (files : list string) (wn : World * nat) : option (World * nat) :=
  match files with
  | [] => Some wn
  | file :: rest =>
      match processFile parseDate o (fst wn) file with
      | None => None
      | Some (Returns w') => processFiles parseDate o rest (w', snd wn)
      | Some Throws => processFiles parseDate o rest (fst wn, S (snd wn))
      end
  end.

(** A file that [processFile] removes. *)
Definition isJsonFile (file : string) : bool :=
  String.eqb (Path.lower (Path.extname file)) ".json".

(** ** The organization of the target after a merge *)

(** [handleDuplicatesAndOrganize(organizer)], without the removal of the
    empty directories: the world and the errors counted. *)
Definition handleDuplicatesAndOrganize (parseDate : json -> JsDate.t) (o : Organizer)
    (w : World) : option (outcome (World * nat)) :=
  let allFiles := Fs.scan w (baseDirectory o) in
  let imageFiles := List.filter (hasExt imageExtensions) allFiles in
  match imageFiles with
  | [] =>
      match processFiles parseDate o allFiles (w, 0%nat) with
      | Some r => Some (Returns r)
      | None => None
      end
  | _ =>
      match handleFilenameDuplicates o w noStats imageFiles with
      | Throws => Some Throws
      | Returns (w1, st, keptImageFiles) =>
          let nonImageFiles :=
            List.filter (fun file => negb (hasExt imageExtensions file)) allFiles in
          let filesToProcess := keptImageFiles ++ nonImageFiles in
          match processFiles parseDate o filesToProcess (w1, errors st) with
          | Some r => Some (Returns r)
          | None => None
          end
      end
  end.

(** * Properties *)

(** ** Strings *)

Lemma append_cons (x : ascii) (a b : string) :
  String x a +:+ b = String x (a +:+ b).
Proof. reflexivity. Qed.

Lemma append_nil_l (a : string) : "" +:+ a = a.
Proof. reflexivity. Qed.

Lemma append_assoc (a b c : string) : (a +:+ b) +:+ c = a +:+ (b +:+ c).
Proof.
  induction a as [|x a IH]; [reflexivity|].
  rewrite !append_cons. now f_equal.
Qed.

Lemma append_nil_r (a : string) : a +:+ "" = a.
Proof.
  induction a as [|x a IH]; [reflexivity|].
  rewrite append_cons. now f_equal.
Qed.

Lemma append_length (a b : string) :
  String.length (a +:+ b) = (String.length a + String.length b)%nat.
Proof.
  induction a as [|x a IH]; [reflexivity|].
  rewrite append_cons. simpl. now f_equal.
Qed.

Lemma append_inj_l (p a b : string) : p +:+ a = p +:+ b -> a = b.
Proof.
  induction p as [|x p IH]; [trivial|].
  rewrite !append_cons. intros H. injection H as H. now apply IH.
Qed.

Lemma append_inj_r (a b s : string) : a +:+ s = b +:+ s -> a = b.
Proof.
  revert b. induction a as [|x a IH]; intros [|y b] H.
  - reflexivity.
  - apply (f_equal String.length) in H.
    rewrite append_nil_l, append_cons in H. simpl in H.
    rewrite append_length in H. lia.
  - apply (f_equal String.length) in H.
    rewrite append_nil_l, append_cons in H. simpl in H.
    rewrite append_length in H. lia.
  - rewrite !append_cons in H. injection H as -> H. f_equal. now apply IH.
Qed.

Example date_2024_02_29 :
  let d := JsDate.ofYMD (Some 2024) (Some 1) (Some 29) in
  (JsDate.getFullYear d, JsDate.getMonth d, JsDate.getDate d)
  = (Some 2024, Some 1, Some 29).
Proof. reflexivity. Qed.

Example date_2023_02_29_rolls_over :
  let d := JsDate.ofYMD (Some 2023) (Some 1) (Some 29) in
  (JsDate.getFullYear d, JsDate.getMonth d, JsDate.getDate d)
  = (Some 2023, Some 2, Some 1).
Proof. reflexivity. Qed.

Example date_epoch : JsDate.ofYMD (Some 1970) (Some 0) (Some 1) = Some 0.
Proof. reflexivity. Qed.

Example date_2000_03_01 :
  JsDate.ofYMD (Some 2000) (Some 2) (Some 1) = Some 951868800000.
Proof. reflexivity. Qed.

Example parseInt_examples :
  (Num.parseInt "2023", Num.parseInt "09", Num.parseInt " -12px",
   Num.parseInt "0x1f", Num.parseInt "abc", Num.parseInt "")
  = (Some 2023, Some 9, Some (-12), Some 31, None, None).
Proof. reflexivity. Qed.

Example path_examples :
  (Path.basename "/t/2023/01/2023-01-15_001.jpg",
   Path.extname "/t/2023/01/2023-01-15_001.jpg",
   Path.basenameExt "/t/2023/01/2023-01-15_001.jpg" ".jpg",
   Path.dirname "/t/2023/01/2023-01-15_001.jpg",
   Path.extname "/t/.bashrc", Path.extname "/t/a.b.c", Path.extname "/t/a.",
   Path.join "/t" "2023/01/x.jpg", Path.relative "/s" "/s/2023/01/x.jpg")
  = ("2023-01-15_001.jpg", ".jpg", "2023-01-15_001", "/t/2023/01",
     "", ".c", ".", "/t/2023/01/x.jpg", "2023/01/x.jpg").
Proof. reflexivity. Qed.

Example extract_examples :
  (extractDateFromFilename "/p/VID_20200624_205041.avi",
   extractDateFromFilename "/p/20220416_073730.mp4",
   extractDateFromFilename "/p/IMG_20230231_1.gif",
   extractDateFromFilename "/p/20080101.mp4",
   extractDateFromFilename "/p/holiday.mov")
  = (Some (JsDate.ofYMD (Some 2020) (Some 5) (Some 24)),
     Some (JsDate.ofYMD (Some 2022) (Some 3) (Some 16)),
     None, None, None).
Proof. reflexivity. Qed.

(** ** Dates *)

Lemma in_zrange (n : nat) : forall lo z,
  lo <= z < lo + Z.of_nat n -> In z (zrange lo n).
Proof.
  induction n as [|n IH]; intros lo z Hz; [lia|].
  destruct (Z.eq_dec z lo) as [->|Hne]; [now left|].
  right. apply IH. lia.
Qed.

Lemma roundTrips_window_check :
  forallb (fun y => forallb (fun m => forallb (fun d =>
     Bool.eqb (roundTrips y m d) (d <=? daysInMonth y m))
     (zrange 1 31)) (zrange 1 12)) (zrange 2009 17) = true.
Proof. vm_compute. reflexivity. Qed.

Lemma roundTrips_window (y m d : Z) :
  2009 <= y <= 2025 -> 1 <= m <= 12 -> 1 <= d <= 31 ->
  roundTrips y m d = (d <=? daysInMonth y m).
Proof.
  intros Hy Hm Hd.
  pose proof roundTrips_window_check as H.
  rewrite forallb_forall in H.
  specialize (H y (in_zrange 17 2009 y ltac:(lia))).
  rewrite forallb_forall in H.
  specialize (H m (in_zrange 12 1 m ltac:(lia))).
  rewrite forallb_forall in H.
  specialize (H d (in_zrange 31 1 d ltac:(lia))).
  now apply Bool.eqb_prop in H.
Qed.

Lemma roundTrips_date (y m d : Z) :
  roundTrips y m d = true ->
  let date := JsDate.ofYMD (Some y) (Some (m - 1)) (Some d) in
  JsDate.getFullYear date = Some y /\ JsDate.getMonth date = Some (m - 1)
  /\ JsDate.getDate date = Some d.
Proof.
  unfold roundTrips. cbv zeta. intros H.
  set (date := JsDate.ofYMD (Some y) (Some (m - 1)) (Some d)) in *.
  apply andb_prop in H as [H H3]. apply andb_prop in H as [H1 H2].
  unfold Num.seq in *.
  destruct (JsDate.getFullYear date), (JsDate.getMonth date),
    (JsDate.getDate date); try discriminate.
  apply Z.eqb_eq in H1, H2, H3. now subst.
Qed.

Lemma validateAndCreateDate_spec (ys ms ds : string) (date : JsDate.t) :
  validateAndCreateDate ys ms ds = Some date <->
  exists y m d,
    Num.parseInt ys = Some y /\ Num.parseInt ms = Some m
    /\ Num.parseInt ds = Some d
    /\ 2009 <= y <= 2025 /\ 1 <= m <= 12 /\ 1 <= d <= 31
    /\ calendarDate y m d
    /\ date = JsDate.ofYMD (Some y) (Some (m - 1)) (Some d).
Proof.
  unfold validateAndCreateDate.
  destruct (Num.parseInt ys) as [y|], (Num.parseInt ms) as [m|],
    (Num.parseInt ds) as [d|]; cbn [Num.lt Num.gt Num.sub orb];
    try (split;
         [ repeat (destruct (_ || _); [discriminate|]); cbn; discriminate
         | intros (y' & m' & d' & ? & ? & ? & _); discriminate ]).
  - fold (roundTrips y m d).
    destruct (y <? 2009) eqn:E1; cbn [orb];
      [split; [discriminate | intros (y' & m' & d' & [= <-] & _ & _ & ? & _); lia]|].
    destruct (2025 <? y) eqn:E2; cbn [orb];
      [split; [discriminate | intros (y' & m' & d' & [= <-] & _ & _ & ? & _); lia]|].
    destruct (m <? 1) eqn:E3; cbn [orb];
      [split; [discriminate | intros (y' & m' & d' & _ & [= <-] & _ & _ & ? & _); lia]|].
    destruct (12 <? m) eqn:E4; cbn [orb];
      [split; [discriminate | intros (y' & m' & d' & _ & [= <-] & _ & _ & ? & _); lia]|].
    destruct (d <? 1) eqn:E5; cbn [orb];
      [split; [discriminate | intros (y' & m' & d' & _ & _ & [= <-] & _ & _ & ? & _); lia]|].
    destruct (31 <? d) eqn:E6; cbn [orb];
      [split; [discriminate | intros (y' & m' & d' & _ & _ & [= <-] & _ & _ & ? & _); lia]|].
    rewrite roundTrips_window by lia.
    destruct (d <=? daysInMonth y m) eqn:E7.
    + split.
      * intros [= <-]. exists y, m, d. unfold calendarDate.
        repeat split; try reflexivity; lia.
      * intros (y' & m' & d' & [= <-] & [= <-] & [= <-] & _ & _ & _ & _ & ->).
        reflexivity.
    + split; [discriminate|].
      intros (y' & m' & d' & [= <-] & [= <-] & [= <-] & _ & _ & _ & [_ ?] & _). lia.
Qed.

Lemma forallb_zrange (f : Z -> bool) (lo n z : Z) :
  forallb f (zrange lo (Z.to_nat n)) = true -> lo <= z < lo + n -> f z = true.
Proof.
  intros H Hz. rewrite forallb_forall in H. apply H. apply in_zrange. lia.
Qed.

Lemma parseInt_ofZ_check :
  forallb (fun z => match Num.parseInt (Str.ofZ z) with
                    | Some z' => z' =? z
                    | None => false
                    end) (zrange 0 (Z.to_nat 10000)) = true.
Proof. vm_compute. reflexivity. Qed.

Lemma parseInt_ofZ (z : Z) :
  0 <= z <= 9999 -> Num.parseInt (Str.ofZ z) = Some z.
Proof.
  intros Hz.
  pose proof (forallb_zrange _ 0 10000 z parseInt_ofZ_check ltac:(lia)) as H.
  cbv beta in H. destruct (Num.parseInt (Str.ofZ z)); [|discriminate].
  apply Z.eqb_eq in H. now subst.
Qed.

Lemma parseInt_pad2_check :
  forallb (fun z => match Num.parseInt (Str.padStart 2 (Str.ofZ z)) with
                    | Some z' => z' =? z
                    | None => false
                    end) (zrange 0 (Z.to_nat 100)) = true.
Proof. vm_compute. reflexivity. Qed.

Lemma parseInt_pad2 (z : Z) :
  0 <= z <= 99 -> Num.parseInt (Str.padStart 2 (Str.ofZ z)) = Some z.
Proof.
  intros Hz.
  pose proof (forallb_zrange _ 0 100 z parseInt_pad2_check ltac:(lia)) as H.
  cbv beta in H. destruct (Num.parseInt (Str.padStart 2 (Str.ofZ z))); [|discriminate].
  apply Z.eqb_eq in H. now subst.
Qed.

Lemma is_digit_val (c : ascii) :
  Str.is_digit c = true -> 0 <= Str.digit_val c <= 9.
Proof.
  unfold Str.is_digit, Str.digit_val. cbv zeta.
  intros H. apply andb_prop in H as [H1 H2].
  apply Nat.leb_le in H1, H2. lia.
Qed.

(** A date prefix is ten characters, digits but for the two hyphens. *)
Lemma splitDatePrefix_shape (s date rest : string) :
  splitDatePrefix s = Some (date, rest) ->
  exists a b c d e f g h,
    date = String a (String b (String c (String d (String "-" (String e
             (String f (String "-" (String g (String h "")))))))))
    /\ forallb Str.is_digit [a; b; c; d; e; f; g; h] = true
    /\ rest = Str.drop 10 s.
Proof.
  unfold splitDatePrefix.
  destruct (Str.take 10 s) as [|a [|b [|c [|d [|h1 [|e [|f [|h2 [|g [|h [|? ?]]]]]]]]]]];
    try discriminate.
  destruct (forallb Str.is_digit [a; b; c; d; e; f; g; h]) eqn:Hd;
    [|discriminate].
  cbn [andb].
  destruct (Str.ascii_eqb h1 "-") eqn:E1; [|discriminate].
  destruct (Str.ascii_eqb h2 "-") eqn:E2; [|discriminate].
  cbn [andb]. intros [= <- <-].
  apply Ascii.eqb_eq in E1, E2. subst.
  exists a, b, c, d, e, f, g, h. auto.
Qed.

Lemma digits_val_2 (a b : ascii) :
  Str.is_digit a = true -> Str.is_digit b = true ->
  0 <= Str.digits_val 0 (String a (String b "")) <= 99.
Proof.
  intros Ha Hb. apply is_digit_val in Ha, Hb. cbn [Str.digits_val]. lia.
Qed.

Lemma digits_val_4 (a b c d : ascii) :
  Str.is_digit a = true -> Str.is_digit b = true ->
  Str.is_digit c = true -> Str.is_digit d = true ->
  0 <= Str.digits_val 0 (String a (String b (String c (String d "")))) <= 9999.
Proof.
  intros Ha Hb Hc Hd. apply is_digit_val in Ha, Hb, Hc, Hd.
  cbn [Str.digits_val]. lia.
Qed.

(** The date in the name of a fingerprinted video is a day of the calendar,
    of a year from 2009 to 2025. *)
Lemma createVideoFingerprint_date (w : World) (filePath fp : string) :
  createVideoFingerprint w filePath = Returns (Some fp) ->
  exists stats dateStr,
    Fs.stat w filePath = Returns stats
    /\ matchVideoDatePattern
         (Path.basenameExt filePath (Path.extname filePath)) = Some dateStr
    /\ fp = Str.ofN (sizeBytes stats) +:+ "-video-" +:+ dateStr
    /\ 2009 <= Str.digits_val 0 (Str.take 4 dateStr) <= 2025
    /\ calendarDate (Str.digits_val 0 (Str.take 4 dateStr))
                    (Str.digits_val 0 (Str.take 2 (Str.drop 5 dateStr)))
                    (Str.digits_val 0 (Str.take 2 (Str.drop 8 dateStr))).
Proof.
  unfold createVideoFingerprint.
  destruct (Fs.stat w filePath) as [stats|]; [|discriminate].
  destruct (matchVideoDatePattern _) as [dateStr|] eqn:Hm; [|discriminate].
  destruct (validateAndCreateDate _ _ _) as [date|] eqn:Hv; [|discriminate].
  intros [= <-]. exists stats, dateStr.
  split; [reflexivity|]. split; [reflexivity|]. split; [reflexivity|].
  unfold matchVideoDatePattern in Hm.
  destruct (splitDatePrefix _) as [[date' rest]|] eqn:Hs; [|discriminate].
  destruct rest as [|u digits]; [discriminate|].
  destruct (_ && _); [|discriminate]. injection Hm as ->.
  apply splitDatePrefix_shape in Hs
    as (a & b & c & d & e & f & g & h & -> & Hd & _).
  cbn [forallb] in Hd.
  repeat (apply andb_prop in Hd as [? Hd]).
  cbn [Str.take Str.drop] in *.
  pose proof (digits_val_4 a b c d) as Hy.
  pose proof (digits_val_2 e f) as Hmo.
  pose proof (digits_val_2 g h) as Hda.
  apply validateAndCreateDate_spec in Hv
    as (y & m & dd & Py & Pm & Pd & Ry & Rm & Rd & Hcal & _).
  rewrite parseInt_ofZ in Py by auto.
  rewrite parseInt_pad2 in Pm, Pd by auto.
  injection Py as <-. injection Pm as <-. injection Pd as <-.
  split; assumption.
Qed.

(** C10.  Dates read from file names are days of the calendar in the years
    2009 to 2025:
    - [validateAndCreateDate] returns a date exactly when its three
      arguments read as a year in 2009..2025, a month in 1..12 and a day in
      1..31 that form a day of the calendar (leap years included), and the
      date is that day;
    - a date that [extractDateFromFilename] returns is such a day;
    - when it returns none, a video is organised by its modification time;
    - a video whose name carries a date outside the window, or no day of
      the calendar, gets no fingerprint from [createVideoFingerprint]. *)
Theorem filename_dates_in_window :
  (forall ys ms ds date,
     validateAndCreateDate ys ms ds = Some date <->
     exists y m d,
       Num.parseInt ys = Some y /\ Num.parseInt ms = Some m
       /\ Num.parseInt ds = Some d
       /\ 2009 <= y <= 2025 /\ 1 <= m <= 12 /\ 1 <= d <= 31
       /\ calendarDate y m d
       /\ date = JsDate.ofYMD (Some y) (Some (m - 1)) (Some d))
  /\ (forall filePath date,
        extractDateFromFilename filePath = Some date ->
        exists y m d,
          2009 <= y <= 2025 /\ calendarDate y m d
          /\ JsDate.getFullYear date = Some y
          /\ JsDate.getMonth date = Some (m - 1)
          /\ JsDate.getDate date = Some d)
  /\ (forall w filePath,
        extractDateFromFilename filePath = None ->
        videoCreationDate w filePath =
        match Fs.stat w filePath with
        | Returns stats => Returns (Some (mtime stats))
        | Throws => Throws
        end)
  /\ (forall w filePath dateStr,
        matchVideoDatePattern
          (Path.basenameExt filePath (Path.extname filePath)) = Some dateStr ->
        let y := Str.digits_val 0 (Str.take 4 dateStr) in
        let m := Str.digits_val 0 (Str.take 2 (Str.drop 5 dateStr)) in
        let d := Str.digits_val 0 (Str.take 2 (Str.drop 8 dateStr)) in
        ~ (2009 <= y <= 2025 /\ calendarDate y m d) ->
        createVideoFingerprint w filePath = Throws
        \/ createVideoFingerprint w filePath = Returns None).
Proof.
  split; [exact validateAndCreateDate_spec|].
  split.
  { intros filePath date. unfold extractDateFromFilename.
    destruct (matchDatePattern _) as [[[ys ms] ds]|]; [|discriminate].
    destruct (validateAndCreateDate ys ms ds) as [date'|] eqn:Hv; [|discriminate].
    intros [= <-].
    apply validateAndCreateDate_spec in Hv
      as (y & m & d & _ & _ & _ & Hy & Hm & Hd & Hcal & ->).
    exists y, m, d. split; [exact Hy|]. split; [exact Hcal|].
    apply roundTrips_date. rewrite roundTrips_window by assumption.
    apply Z.leb_le. apply Hcal. }
  split.
  { intros w filePath H. unfold videoCreationDate. now rewrite H. }
  intros w filePath dateStr Hm y m d Hbad.
  destruct (createVideoFingerprint w filePath) as [[fp|]|] eqn:Hfp; auto.
  exfalso. apply Hbad.
  apply createVideoFingerprint_date in Hfp
    as (stats & dateStr' & _ & Hm' & _ & Hy & Hcal).
  rewrite Hm in Hm'. injection Hm' as <-. split; assumption.
Qed.

(** ** Decimal numerals *)

Lemma all_digits_string_of_uint (d : Decimal.uint) :
  Str.all_digits (NilEmpty.string_of_uint d) = true.
Proof. induction d; cbn [NilEmpty.string_of_uint Str.all_digits]; auto. Qed.

Lemma to_uint_not_nil (n : N) : N.to_uint n <> Decimal.Nil.
Proof.
  intros H. pose proof (DecimalN.Unsigned.of_to n) as E. rewrite H in E.
  destruct n as [|p]; [discriminate H|].
  cbn in H. apply (DecimalPos.Unsigned.to_uint_nonnil p H).
Qed.

Lemma ofN_digits (n : N) : Str.all_digits (Str.ofN n) = true.
Proof.
  unfold Str.ofN, NilZero.string_of_uint.
  destruct (N.to_uint n) eqn:E; try (rewrite <- E; apply all_digits_string_of_uint).
  reflexivity.
Qed.

Lemma ofN_inj (a b : N) : Str.ofN a = Str.ofN b -> a = b.
Proof.
  unfold Str.ofN. intros H.
  apply DecimalN.Unsigned.to_uint_inj.
  pose proof (NilZero.usu (N.to_uint a) (to_uint_not_nil a)) as Ha.
  pose proof (NilZero.usu (N.to_uint b) (to_uint_not_nil b)) as Hb.
  rewrite H in Ha. rewrite Ha in Hb. now injection Hb.
Qed.

(** Two strings that start with digits and then a hyphen are equal only
    when the digits are. *)
Lemma digits_hyphen_inj (d1 d2 r1 r2 : string) :
  Str.all_digits d1 = true -> Str.all_digits d2 = true ->
  d1 +:+ "-" +:+ r1 = d2 +:+ "-" +:+ r2 -> d1 = d2 /\ r1 = r2.
Proof.
  revert d2. induction d1 as [|c d1 IH]; intros [|c' d2] H1 H2 E.
  - rewrite !append_nil_l in E. change ("-" +:+ r1) with (String "-" r1) in E.
    change ("-" +:+ r2) with (String "-" r2) in E. now injection E.
  - rewrite append_nil_l, append_cons in E.
    change ("-" +:+ r1) with (String "-" r1) in E. injection E as <- _.
    cbn in H2. discriminate.
  - rewrite append_nil_l, append_cons in E.
    change ("-" +:+ r2) with (String "-" r2) in E. injection E as -> _.
    cbn in H1. discriminate.
  - rewrite !append_cons in E. injection E as <- E.
    cbn [Str.all_digits] in H1, H2.
    apply andb_prop in H1 as [_ H1]. apply andb_prop in H2 as [_ H2].
    destruct (IH d2 H1 H2 E) as [-> ->]. auto.
Qed.

(** ** Fingerprints *)

Lemma createFileFingerprint_shape `{Md5} (w : World) (p f : string) :
  createFileFingerprint w p = Returns f ->
  exists stats rest,
    Fs.stat w p = Returns stats
    /\ f = Str.ofN (sizeBytes stats) +:+ "-" +:+ rest.
Proof.
  unfold createFileFingerprint.
  destruct (Fs.stat w p) as [stats|]; [|discriminate].
  intros [= <-]. eauto.
Qed.

Lemma isFingerprintOf_shape `{Md5} (w : World) (p f : string) :
  isFingerprintOf w p f ->
  exists stats rest,
    Fs.stat w p = Returns stats
    /\ f = Str.ofN (sizeBytes stats) +:+ "-" +:+ rest.
Proof.
  intros [Hf|Hv].
  - now apply createFileFingerprint_shape.
  - apply createVideoFingerprint_date in Hv
      as (stats & dateStr & Hs & _ & -> & _).
    exists stats, ("video-" +:+ dateStr). split; [exact Hs|reflexivity].
Qed.

(** C5.  Two files of different byte sizes have different fingerprints,
    whether each is the fingerprint of an image ([<size>-<hash>]) or of a
    video ([<size>-video-<date>]): a fingerprint starts with the decimal
    byte size and the first hyphen ends it. *)
Theorem fingerprints_differ_with_size `{Md5}
    (w1 w2 : World) (p1 p2 f1 f2 : string) (s1 s2 : File) :
  isFingerprintOf w1 p1 f1 -> isFingerprintOf w2 p2 f2 ->
  Fs.stat w1 p1 = Returns s1 -> Fs.stat w2 p2 = Returns s2 ->
  sizeBytes s1 <> sizeBytes s2 ->
  f1 <> f2.
Proof.
  intros H1 H2 S1 S2 Hne E.
  apply isFingerprintOf_shape in H1 as (s1' & r1 & S1' & ->).
  apply isFingerprintOf_shape in H2 as (s2' & r2 & S2' & ->).
  rewrite S1 in S1'. rewrite S2 in S2'.
  injection S1' as <-. injection S2' as <-.
  apply digits_hyphen_inj in E as [E _]; try apply ofN_digits.
  apply Hne. now apply ofN_inj.
Qed.

(** An instance: a photo of one byte and a video of two. *)
Lemma fingerprints_differ_with_size_witness :
  ("1-no-exif" : string) <> "2-video-2023-01-15".
Proof.
  pose (w := {| files := {[ "/a/x.jpg" := plainFile 1 0;
                            "/a/2023-01-15_001.mp4" := plainFile 2 0 ]};
                clock := 0 |}).
  apply (@fingerprints_differ_with_size plainDigest w w
           "/a/x.jpg" "/a/2023-01-15_001.mp4" _ _
           (plainFile 1 0) (plainFile 2 0)).
  - left. vm_compute. reflexivity.
  - right. vm_compute. reflexivity.
  - vm_compute. reflexivity.
  - vm_compute. reflexivity.
  - discriminate.
Defined.

(** ** Maps *)

Lemma String_eqb_sound (a b : string) : String.eqb a b = true -> a = b.
Proof. apply String.eqb_eq. Qed.

Lemma Js_same_sound (a b : jsval) : Js.same a b = true -> a = b.
Proof.
  destruct a as [[| | | | |]|], b as [[| | | | |]|]; cbn; try discriminate;
    intros E; try reflexivity.
  - apply Bool.eqb_prop in E. now subst.
  - apply Z.eqb_eq in E. now subst.
  - apply String.eqb_eq in E. now subst.
Qed.

Lemma Js_same_str (a b : string) : Js.same (Js.str a) (Js.str b) = String.eqb a b.
Proof. reflexivity. Qed.

Section MapLemmas.
Context {K V : Type} (same : K -> K -> bool).
Hypothesis same_sound : forall a b, same a b = true -> a = b.

Lemma get_set_eq (m : list (K * V)) (k : K) (v : V) :
  same k k = true -> JsMap.get same (JsMap.set same m k v) k = Some v.
Proof.
  intros Hr. induction m as [|[k1 v1] m IH]; cbn.
  - now rewrite Hr.
  - destruct (same k1 k) eqn:E; cbn; now rewrite E.
Qed.

Lemma get_set_ne (m : list (K * V)) (k k' : K) (v : V) :
  k <> k' -> JsMap.get same (JsMap.set same m k v) k' = JsMap.get same m k'.
Proof.
  intros Hne. induction m as [|[k1 v1] m IH]; cbn.
  - destruct (same k k') eqn:E; [|reflexivity].
    apply same_sound in E. contradiction.
  - destruct (same k1 k) eqn:E; cbn.
    + apply same_sound in E. subst k1.
      destruct (same k k') eqn:E'; [|reflexivity].
      apply same_sound in E'. contradiction.
    + now rewrite IH.
Qed.

Lemma has_set_eq (m : list (K * V)) (k : K) (v : V) :
  same k k = true -> JsMap.has same (JsMap.set same m k v) k = true.
Proof. intros Hr. unfold JsMap.has. now rewrite get_set_eq. Qed.

Lemma has_set_ne (m : list (K * V)) (k k' : K) (v : V) :
  k <> k' -> JsMap.has same (JsMap.set same m k v) k' = JsMap.has same m k'.
Proof. intros Hne. unfold JsMap.has. now rewrite get_set_ne. Qed.

Lemma get_Some_In (m : list (K * V)) (k : K) (v : V) :
  JsMap.get same m k = Some v -> In (k, v) m.
Proof.
  induction m as [|[k1 v1] m IH]; cbn; [discriminate|].
  destruct (same k1 k) eqn:E.
  - intros [= <-]. apply same_sound in E. subst. now left.
  - intros H. right. now apply IH.
Qed.

(** The keys of [m.set(k, v)]: those of [m], and [k] at the end when no
    key of [m] is the same as [k]. *)
Lemma keys_set (m : list (K * V)) (k : K) (v : V) :
  JsMap.keys (JsMap.set same m k v)
  = if JsMap.has same m k then JsMap.keys m else JsMap.keys m ++ [k].
Proof.
  unfold JsMap.has, JsMap.keys.
  induction m as [|[k1 v1] m IH]; cbn; [reflexivity|].
  destruct (same k1 k) eqn:E; cbn; [reflexivity|].
  rewrite IH. now destruct (JsMap.get same m k).
Qed.

Lemma has_false_not_key (m : list (K * V)) (k : K) :
  same k k = true -> JsMap.has same m k = false -> ~ In k (JsMap.keys m).
Proof.
  intros Hr. unfold JsMap.has, JsMap.keys.
  induction m as [|[k1 v1] m IH]; cbn; [tauto|].
  destruct (same k1 k) eqn:E; [discriminate|].
  intros H [->|Hin]; [congruence|]. now apply IH.
Qed.

(** The values of [m.set(k, v)] are [v] and values of [m]. *)
Lemma values_set (m : list (K * V)) (k : K) (v x : V) :
  In x (JsMap.values (JsMap.set same m k v)) ->
  x = v \/ In x (JsMap.values m).
Proof.
  unfold JsMap.values.
  induction m as [|[k1 v1] m IH]; cbn.
  - intros [<-|[]]. now left.
  - destruct (same k1 k); cbn.
    + intros [<-|Hin]; auto.
    + intros [<-|Hin]; auto. destruct (IH Hin); auto.
Qed.

End MapLemmas.

(** ** Files whose metadata cannot be read *)

Lemma createFileFingerprint_unreadable `{Md5} (w : World) (p : string) (s : File) :
  Fs.stat w p = Returns s -> metadataUnreadable s ->
  createFileFingerprint w p = Returns (Str.ofN (sizeBytes s) +:+ "-no-exif").
Proof.
  intros Hs Hu. unfold createFileFingerprint. rewrite Hs.
  destruct Hu as [-> | ->]; reflexivity.
Qed.

Lemma buildHashDatabase_single `{Md5} (w : World) (p f : string) :
  createFileFingerprint w p = Returns f ->
  buildHashDatabase w [p] = [(p, f)].
Proof. intros Hf. unfold buildHashDatabase, hashStep. cbn. now rewrite Hf. Qed.

(** C6.  An image whose metadata cannot be read at all (the parser throws,
    or gives nothing) has the fingerprint [<size>-no-exif].  Two such files
    of the same byte size therefore have the same fingerprint, and are
    treated as duplicates of each other: they form one duplicate group of
    the standalone pass, and the merge skips one when the target index holds
    the fingerprint of the other. *)
Theorem unreadable_metadata_collide `{Md5}
    (w : World) (p1 p2 : string) (s1 s2 : File) :
  Fs.stat w p1 = Returns s1 -> Fs.stat w p2 = Returns s2 ->
  metadataUnreadable s1 -> metadataUnreadable s2 ->
  createFileFingerprint w p1 = Returns (Str.ofN (sizeBytes s1) +:+ "-no-exif")
  /\ (sizeBytes s1 = sizeBytes s2 ->
      createFileFingerprint w p2 = createFileFingerprint w p1
      /\ (forall st, fst (findDuplicatesByExifAndSize w st [p1; p2]) = [[p1; p2]])
      /\ (forall bp sourcePath s,
            JsMap.has Js.same (targetHashes s)
              (Js.str (Str.ofN (sizeBytes s1) +:+ "-no-exif")) = true ->
            exists s',
              copyStep bp sourcePath (buildHashDatabase w [p2]) s p2
              = Some (Returns (Skip p2, s'))
              /\ world s' = world s /\ targetHashes s' = targetHashes s
              /\ copiedCount s' = copiedCount s)).
Proof.
  intros S1 S2 U1 U2.
  pose proof (createFileFingerprint_unreadable w p1 s1 S1 U1) as F1.
  pose proof (createFileFingerprint_unreadable w p2 s2 S2 U2) as F2.
  split; [exact F1|]. intros Hsize. rewrite <- Hsize in F2.
  split; [congruence|]. split.
  - intros st. unfold findDuplicatesByExifAndSize. cbn [fold_left].
    unfold groupImageStep. rewrite F1, F2. unfold groupPush at 2. cbn [JsMap.get JsMap.set default app].
    unfold groupPush. cbn [JsMap.get JsMap.set].
    rewrite String.eqb_refl. reflexivity.
  - intros bp sourcePath s Hhas.
    unfold copyStep. rewrite (buildHashDatabase_single w p2 _ F2).
    cbn [JsMap.get]. rewrite String.eqb_refl.
    destruct (String.eqb _ "") eqn:E.
    + apply String.eqb_eq in E. apply (f_equal String.length) in E.
      rewrite append_length in E. cbn in E. lia.
    + rewrite Hhas. eexists. split; [reflexivity|]. auto.
Qed.

(** An instance: two unreadable files of five bytes. *)
Lemma unreadable_metadata_collide_witness :
  createFileFingerprint (H := plainDigest)
    {| files := {[ "/d/a.jpg" := plainFile 5 1; "/d/b.jpg" := plainFile 5 2 ]};
       clock := 0 |} "/d/a.jpg" = Returns "5-no-exif"
  /\ createFileFingerprint (H := plainDigest)
       {| files := {[ "/d/a.jpg" := plainFile 5 1; "/d/b.jpg" := plainFile 5 2 ]};
          clock := 0 |} "/d/b.jpg" = Returns "5-no-exif".
Proof.
  pose (w := {| files := {[ "/d/a.jpg" := plainFile 5 1;
                            "/d/b.jpg" := plainFile 5 2 ]};
                clock := 0 |}).
  destruct (@unreadable_metadata_collide plainDigest w "/d/a.jpg" "/d/b.jpg"
              (plainFile 5 1) (plainFile 5 2))
    as [F1 F2].
  - vm_compute. reflexivity.
  - vm_compute. reflexivity.
  - left. reflexivity.
  - left. reflexivity.
  - split; [exact F1|].
    destruct (F2 eq_refl) as [E _]. fold w. rewrite E. exact F1.
Defined.

(** ** The cache *)

Lemma pathExists_write (w : World) (p : string) (f : File) :
  Fs.pathExists (Fs.write w p f) p = true.
Proof. unfold Fs.pathExists, Fs.write. cbn. now rewrite lookup_insert_eq. Qed.

Lemma readJson_write (w : World) (p : string) (f : File) :
  Fs.readJson (Fs.write w p f) p
  = match jsonContent f with Some j => Returns j | None => Throws end.
Proof. unfold Fs.readJson, Fs.write. cbn. now rewrite lookup_insert_eq. Qed.

Lemma pathExists_remove (w : World) (p : string) :
  Fs.pathExists (Fs.remove w p) p = false.
Proof. unfold Fs.pathExists, Fs.remove. cbn. now rewrite lookup_delete_eq. Qed.

(** With nothing cached, every file of the target is to be hashed. *)
Lemma splitByCache_cold (fileModTimes : StrMap Z) (targetFiles : list string) :
  splitByCache [] fileModTimes targetFiles = ([], targetFiles).
Proof.
  unfold splitByCache.
  enough (G : forall acc,
    fold_left (splitStep [] fileModTimes) targetFiles (([] : ValMap string), acc)
    = ([], acc ++ targetFiles)).
  { apply (G []). }
  induction targetFiles as [|file rest IH]; intros acc; cbn [fold_left].
  - now rewrite app_nil_r.
  - cbn. rewrite IH. now rewrite <- app_assoc.
Qed.

(** C8.  Loading the cache never fails, whatever the state of the cache
    file: [loadHashCache] is a total function, and it gives the empty cache
    when the file is absent, when it cannot be read or parsed, and more
    generally whenever anything throws while it is loaded.  From the empty
    cache the run goes on as a cold start: every file of the target is to be
    hashed. *)
Theorem loadHashCache_never_fails :
  (forall bp w, loadHashCache bp (withoutCacheFile bp w) = [])
  /\ (forall bp w n, loadHashCache bp (withBrokenCacheFile bp w n) = [])
  /\ (forall bp w, loadHashCacheTry bp w = Throws -> loadHashCache bp w = [])
  /\ (forall bp w,
        Fs.pathExists w (hashCacheFile bp) = false
        \/ Fs.readJson w (hashCacheFile bp) = Throws ->
        loadHashCache bp w = [])
  /\ (forall fileModTimes targetFiles,
        splitByCache [] fileModTimes targetFiles = ([], targetFiles)).
Proof.
  split; [|split; [|split; [|split]]].
  - intros bp w. unfold loadHashCache, loadHashCacheTry, withoutCacheFile.
    now rewrite pathExists_remove.
  - intros bp w n. unfold loadHashCache, loadHashCacheTry, withBrokenCacheFile.
    now rewrite pathExists_write, readJson_write.
  - intros bp w H. unfold loadHashCache. now rewrite H.
  - intros bp w [H|H]; unfold loadHashCache, loadHashCacheTry; rewrite H.
    + reflexivity.
    + now destruct (Fs.pathExists w (hashCacheFile bp)).
  - exact splitByCache_cold.
Qed.

Example loadHashCache_not_an_object :
  let bp := {| sourceDirectory := "/s"; targetDirectory := "/t" |} in
  let w := {| files := ∅; clock := 0 |} in
  (loadHashCache bp (withCacheFile bp w JNull),
   loadHashCache bp (withCacheFile bp w (JArr [JNum 1])),
   loadHashCache bp (withCacheFile bp w (JObj [("entries", JArr [JNum 1])])),
   loadHashCache bp (withCacheFile bp w (JObj [("entries", JStr "x")])))
  = ([], [], [], []).
Proof. vm_compute. reflexivity. Qed.

Lemma loadHashCache_snapshot (bp : BatchProcessor) (w : World)
    (version lastUpdated : string) (entries : list json) :
  loadHashCache bp (withCacheFile bp w (snapshot version lastUpdated entries))
  = match fillCache entries [] with
    | Returns cache => cache
    | Throws => []
    end.
Proof.
  unfold loadHashCache, loadHashCacheTry, withCacheFile, Fs.writeJson.
  rewrite pathExists_write, readJson_write. cbn [jsonContent].
  unfold snapshot. cbn [Js.lookup String.eqb Ascii.eqb Bool.eqb].
  now destruct (fillCache entries []).
Qed.

(** C9, as the code has it.  The loader never reads the version tag: what
    it loads from a snapshot is decided by its entries alone, so a snapshot
    of any version, known or not, is loaded as a snapshot of version 1.0
    with the same entries is, and no error is raised for the version. *)
Theorem loadHashCache_ignores_version
    (bp : BatchProcessor) (w : World)
    (version lastUpdated : string) (entries : list json) :
  loadHashCache bp (withCacheFile bp w (snapshot version lastUpdated entries))
  = loadHashCache bp (withCacheFile bp w (snapshot "1.0" lastUpdated entries))
  /\ loadHashCacheTry bp
       (withCacheFile bp w (snapshot version lastUpdated entries))
     = loadHashCacheTry bp
         (withCacheFile bp w (snapshot "1.0" lastUpdated entries)).
Proof.
  split; [now rewrite !loadHashCache_snapshot|].
  unfold loadHashCacheTry, withCacheFile, Fs.writeJson.
  rewrite !pathExists_write, !readJson_write. reflexivity.
Qed.

(** A snapshot of an unknown later version: its entry is accepted, and the
    file it describes is taken from the cache instead of being hashed. *)
Lemma future_version_is_accepted :
  let bp := {| sourceDirectory := "/s"; targetDirectory := "/t" |} in
  let w := {| files := {[ "/t/a.jpg" := plainFile 7 5 ]}; clock := 9 |} in
  let entry := JObj [("hash", JStr "stale"); ("modTime", JNum 5)] in
  let w' := withCacheFile bp w
              (snapshot "99.0" "2031-01-01T00:00:00.000Z"
                        [JArr [JStr "/t/a.jpg"; entry]]) in
  loadHashCache bp w' = [(Js.str "/t/a.jpg", Some entry)]
  /\ loadHashCache bp w' <> []
  /\ JsMap.get Js.same (fst (buildTargetHashDatabase (H := plainDigest) bp w'))
       (Js.str "stale") = Some "/t/a.jpg".
Proof.
  cbv zeta. split; [|split].
  - vm_compute. reflexivity.
  - vm_compute. discriminate.
  - vm_compute. reflexivity.
Qed.

(** ** Sorting by modification time *)

Section Sorting.
Context {A : Type} (key : A -> Z).

Lemma insertByKey_In (x y : A) (l : list A) :
  In x (insertByKey key y l) <-> x = y \/ In x l.
Proof.
  induction l as [|z l IH]; cbn.
  - intuition.
  - destruct (key y <=? key z); cbn; [intuition|].
    rewrite IH. intuition.
Qed.

Lemma sortByKey_In (x : A) (l : list A) : In x (sortByKey key l) <-> In x l.
Proof.
  unfold sortByKey. induction l as [|y l IH]; cbn; [tauto|].
  rewrite insertByKey_In, IH. intuition.
Qed.

Lemma head_insertByKey (a : A) (s : list A) :
  head (insertByKey key a s)
  = match head s with
    | None => Some a
    | Some y => if key a <=? key y then Some a else Some y
    end.
Proof. destruct s as [|y s]; cbn; [reflexivity|]. now destruct (key a <=? key y). Qed.

(** The head of the sorted list is a least element of the list. *)
Lemma head_sortByKey (l : list A) (x : A) :
  head (sortByKey key l) = Some x ->
  In x l /\ forall y, In y l -> key x <= key y.
Proof.
  revert x. induction l as [|a l IH]; intros x; [discriminate|].
  change (sortByKey key (a :: l)) with (insertByKey key a (sortByKey key l)).
  rewrite head_insertByKey.
  destruct (head (sortByKey key l)) as [y|] eqn:Hh.
  - destruct (IH y eq_refl) as [Hin Hmin].
    destruct (key a <=? key y) eqn:E; intros [= <-].
    + apply Z.leb_le in E. split; [now left|].
      intros z [<-|Hz]; [lia|]. specialize (Hmin z Hz). lia.
    + apply Z.leb_gt in E. split; [now right|].
      intros z [<-|Hz]; [lia|]. now apply Hmin.
  - intros [= <-]. split; [now left|].
    intros z [<-|Hz]; [lia|].
    apply (sortByKey_In z) in Hz. destruct (sortByKey key l); [destruct Hz|discriminate].
Qed.

Lemma head_sortByKey_some (l : list A) :
  l <> [] -> exists x, head (sortByKey key l) = Some x.
Proof.
  destruct l as [|a l]; [congruence|]. intros _.
  change (sortByKey key (a :: l)) with (insertByKey key a (sortByKey key l)).
  rewrite head_insertByKey.
  destruct (head (sortByKey key l)) as [y|]; [|eauto].
  destruct (key a <=? key y); eauto.
Qed.

(** The sort is stable: of the least elements, the first one comes out at
    the head. *)
Lemma head_sortByKey_first (x : A) (l : list A) :
  (forall y, In y l -> key x <= key y) ->
  head (sortByKey key (x :: l)) = Some x.
Proof.
  intros Hmin.
  change (sortByKey key (x :: l)) with (insertByKey key x (sortByKey key l)).
  rewrite head_insertByKey.
  destruct (head (sortByKey key l)) as [y|] eqn:Hh; [|reflexivity].
  apply head_sortByKey in Hh as [Hin _].
  specialize (Hmin y Hin). apply Z.leb_le in Hmin. now rewrite Hmin.
Qed.

End Sorting.

(** ** The duplicate group resolver *)

Lemma filter_nil_none {A : Type} (f : A -> bool) (l : list A) :
  List.filter f l = [] -> forall x, In x l -> f x = false.
Proof.
  induction l as [|a l IH]; cbn; [tauto|].
  destruct (f a) eqn:E; [discriminate|].
  intros H x [<-|Hx]; auto.
Qed.

Lemma filter_all {A : Type} (f : A -> bool) (l : list A) :
  (forall x, In x l -> f x = true) -> List.filter f l = l.
Proof.
  induction l as [|a l IH]; cbn; [reflexivity|].
  intros H. rewrite (H a) by now left. f_equal. apply IH. auto.
Qed.

(** The choice of the file to keep follows the tie-break. *)
Lemma chooseFileToKeep_policy (o : Organizer) (group : list Member) :
  group <> [] ->
  exists keep,
    chooseFileToKeep o group = Some keep
    /\ In keep group
    /\ (suffixConfigured o = true /\ someSuffixed group ->
        hasSuffix keep = true /\ oldestIn keep (List.filter hasSuffix group))
    /\ (~ (suffixConfigured o = true /\ someSuffixed group) ->
        oldestIn keep group).
Proof.
  intros Hne. unfold chooseFileToKeep.
  destruct (suffixConfigured o) eqn:Hc.
  - destruct (List.filter hasSuffix group) as [|s ss] eqn:Hf.
    + (* no member carries the suffix *)
      pose proof (filter_nil_none _ _ Hf) as Hnone.
      rewrite (filter_all (fun f => negb (hasSuffix f)) group)
        by (intros x Hx; now rewrite (Hnone x Hx)).
      destruct (head_sortByKey_some memberMtime group Hne) as [keep Hk].
      exists keep. split; [exact Hk|].
      apply head_sortByKey in Hk as [Hin Hmin].
      split; [exact Hin|]. split.
      * intros [_ (x & Hx & Hs)]. rewrite (Hnone x Hx) in Hs. discriminate.
      * intros _. now split.
    + destruct (head_sortByKey_some memberMtime (s :: ss) ltac:(discriminate))
        as [keep Hk].
      exists keep. split; [exact Hk|].
      apply head_sortByKey in Hk as [Hin Hmin].
      rewrite <- Hf in Hin, Hmin.
      pose proof Hin as Hin'. apply filter_In in Hin' as [Hg Hs].
      split; [exact Hg|]. split.
      * intros _. split; [exact Hs|]. rewrite <- Hf. now split.
      * intros Hno. exfalso. apply Hno. split; [reflexivity|].
        exists keep. auto.
  - destruct (head_sortByKey_some memberMtime group Hne) as [keep Hk].
    exists keep. split; [exact Hk|].
    apply head_sortByKey in Hk as [Hin Hmin].
    split; [exact Hin|]. split.
    + intros [? _]. discriminate.
    + intros _. now split.
Qed.

(** In a group of distinct paths the kept path is the only survivor. *)
Lemma survivor_unique (keep : Member) (group : list Member) :
  In keep group ->
  let removed :=
    map path (List.filter
      (fun f => negb (String.eqb (path f) (path keep))) group) in
  ~ In (path keep) removed
  /\ forall p, In p (map path group) <-> p = path keep \/ In p removed.
Proof.
  intros Hin removed. subst removed. split.
  - rewrite in_map_iff. intros (x & Hp & Hx).
    apply filter_In in Hx as [_ Hx]. rewrite Hp, String.eqb_refl in Hx.
    discriminate.
  - intros p. rewrite !in_map_iff. split.
    + intros (x & <- & Hx).
      destruct (String.eqb (path x) (path keep)) eqn:E.
      * left. now apply String.eqb_eq.
      * right. exists x. split; [reflexivity|].
        apply filter_In. split; [exact Hx|]. now rewrite E.
    + intros [->|(x & <- & Hx)].
      * now exists keep.
      * apply filter_In in Hx as [Hx _]. now exists x.
Qed.

Lemma resolveGroup_several (o : Organizer) (group : list Member) (keep : Member) :
  (2 <= length group)%nat ->
  chooseFileToKeep o group = Some keep ->
  resolveGroup o group
  = Returns (path keep,
             map path (List.filter
               (fun f => negb (String.eqb (path f) (path keep))) group)).
Proof.
  intros Hlen Hk. unfold resolveGroup.
  destruct group as [|a [|b rest]]; cbn in Hlen; try lia.
  now rewrite Hk.
Qed.



(** The two passes with a suffix, on three copies of which the second in
    age carries it: the fingerprint-keyed one keeps that copy alone, the
    filename-keyed one keeps it in its group of two. *)
Example suffix_passes_keep_T2 :
  match handleDuplicates (H := plainDigest) editedSuffixOrganizer threeCopies
          noStats (Fs.scan threeCopies "/d") with
  | Returns (w, _, kept) =>
      kept = ["/d/x_edited.jpg"]
      /\ map fst (map_to_list (files w)) = ["/d/x_edited.jpg"]
  | Throws => False
  end
  /\ match handleFilenameDuplicates editedSuffixOrganizer threeCopies
             noStats (Fs.scan threeCopies "/d") with
     | Returns (w, _, kept) => kept = ["/d/y.jpg"; "/d/x_edited.jpg"]
     | Throws => False
     end.
Proof. vm_compute. auto. Qed.


(** ** Videos *)

Lemma groupPush_members {A : Type} (m : StrMap (list A)) (k : string) (x y : A) :
  In y (concat (JsMap.values (groupPush m k x)))
  <-> y = x \/ In y (concat (JsMap.values m)).
Proof.
  unfold groupPush, JsMap.values.
  induction m as [|[k1 v1] m IH]; cbn.
  - intuition.
  - destruct (String.eqb k1 k) eqn:E; cbn.
    + rewrite !in_app_iff. cbn. intuition.
    + rewrite !in_app_iff, IH. intuition.
Qed.



Lemma removeAll_other (o : Organizer) (paths : list string) (p : string) :
  forall ws, ~ In p paths ->
    files (fst (removeAll o paths ws)) !! p = files (fst ws) !! p.
Proof.
  unfold removeAll.
  induction paths as [|q paths IH]; intros [w st] Hp; cbn [fold_left]; [reflexivity|].
  rewrite IH by (intros H; apply Hp; now right).
  cbn. destruct (dryRun o); [reflexivity|].
  cbn. apply lookup_delete_ne. intros ->. apply Hp. now left.
Qed.



(** The merge fingerprints every file with [createFileFingerprint]. *)
Lemma buildHashDatabase_get `{Md5} (w : World) (files : list string) (p : string) :
  forall acc,
    JsMap.get String.eqb (fold_left (hashStep w) files acc) p
    = if in_dec String.string_dec p files
      then match createFileFingerprint w p with
           | Returns f => Some f
           | Throws => JsMap.get String.eqb acc p
           end
      else JsMap.get String.eqb acc p.
Proof.
  induction files as [|q files IH]; intros acc; cbn [fold_left].
  - now destruct (in_dec String.string_dec p []).
  - rewrite IH.
    destruct (in_dec String.string_dec p files) as [Hin|Hin].
    + destruct (in_dec String.string_dec p (q :: files)) as [_|Hn];
        [|exfalso; apply Hn; now right].
      destruct (createFileFingerprint w p) eqn:Hp; [reflexivity|].
      unfold hashStep.
      destruct (String.string_dec q p) as [->|Hne].
      * now rewrite Hp.
      * destruct (createFileFingerprint w q); [|reflexivity].
        now rewrite (get_set_ne _ String_eqb_sound).
    + unfold hashStep.
      destruct (String.string_dec q p) as [->|Hne].
      * destruct (in_dec String.string_dec p (p :: files)) as [_|Hn];
          [|exfalso; apply Hn; now left].
        destruct (createFileFingerprint w p); [|reflexivity].
        apply (get_set_eq String.eqb). apply String.eqb_refl.
      * destruct (in_dec String.string_dec p (q :: files)) as [[?|?]|_];
          try contradiction.
        destruct (createFileFingerprint w q); [|reflexivity].
        now rewrite (get_set_ne _ String_eqb_sound).
Qed.



(** ** Counters in file names *)

Lemma digits_val_of_uint_acc (d : Decimal.uint) : forall acc : positive,
  Str.digits_val (Z.pos acc) (NilEmpty.string_of_uint d)
  = Z.pos (Pos.of_uint_acc d acc).
Proof.
  induction d; intros acc; cbn [NilEmpty.string_of_uint Str.digits_val Pos.of_uint_acc];
    [reflexivity|..];
    rewrite <- IHd; f_equal;
    try match goal with
        | |- context [Str.digit_val ?c] =>
            let v := eval vm_compute in (Str.digit_val c) in
            change (Str.digit_val c) with v
        end; lia.
Qed.

Lemma digits_val_of_uint (d : Decimal.uint) :
  Str.digits_val 0 (NilEmpty.string_of_uint d) = Z.of_N (Pos.of_uint d).
Proof.
  induction d; cbn [NilEmpty.string_of_uint Str.digits_val Pos.of_uint];
    [reflexivity | exact IHd |..];
    apply (digits_val_of_uint_acc d).
Qed.

Lemma digits_val_ofN (n : N) : Str.digits_val 0 (Str.ofN n) = Z.of_N n.
Proof.
  unfold Str.ofN, NilZero.string_of_uint.
  pose proof (to_uint_not_nil n) as Hn.
  pose proof (DecimalN.Unsigned.of_to n) as E. unfold N.of_uint in E.
  destruct (N.to_uint n) eqn:Hd; [contradiction|..];
    rewrite <- E; apply digits_val_of_uint.
Qed.

Lemma digits_val_zeros (k : nat) (s : string) :
  Str.digits_val 0 (Str.repeat "0" k +:+ s) = Str.digits_val 0 s.
Proof.
  induction k as [|k IH]; [reflexivity|].
  cbn [Str.repeat]. rewrite append_cons. cbn [Str.digits_val]. exact IH.
Qed.

(** The counter is read back from its padded numeral. *)
Lemma counter_read_back (n : nat) (z : Z) :
  0 <= z -> Str.digits_val 0 (Str.padStart n (Str.ofZ z)) = z.
Proof.
  intros Hz. unfold Str.padStart. rewrite digits_val_zeros.
  unfold Str.ofZ. destruct (z <? 0) eqn:E; [apply Z.ltb_lt in E; lia|].
  rewrite digits_val_ofN. lia.
Qed.

Lemma counterName_inj (base ext : string) (a b : Z) :
  0 <= a -> 0 <= b -> counterName base ext a = counterName base ext b -> a = b.
Proof.
  unfold counterName. intros Ha Hb E.
  apply append_inj_l in E. apply append_inj_l in E. apply append_inj_r in E.
  rewrite <- (counter_read_back 3 a Ha), <- (counter_read_back 3 b Hb).
  now rewrite E.
Qed.

Lemma counterName_not_empty (base ext : string) (c : Z) :
  counterName base ext c <> "".
Proof.
  unfold counterName. intros E. apply (f_equal String.length) in E.
  rewrite !append_length in E. cbn in E. lia.
Qed.

Lemma join_inj (dir a b : string) :
  a <> "" -> b <> "" -> Path.join dir a = Path.join dir b -> a = b.
Proof.
  intros Ha Hb. unfold Path.join.
  apply String.eqb_neq in Ha, Hb. rewrite Ha, Hb.
  destruct (String.eqb dir "" || String.eqb dir "."); [trivial|].
  destruct (Str.endsWith "/" dir).
  - apply append_inj_l.
  - intros E. apply append_inj_l in E. now apply append_inj_l in E.
Qed.

Lemma candidate_inj (dir base ext : string) (a b : Z) :
  0 <= a -> 0 <= b ->
  Path.join dir (counterName base ext a) = Path.join dir (counterName base ext b) ->
  a = b.
Proof.
  intros Ha Hb E. apply join_inj in E; try apply counterName_not_empty.
  now apply counterName_inj in E.
Qed.

(** ** The search for a free name *)

(** What the search returns: the first free name from [counter] on. *)
Lemma firstFree_spec (w : World) (name : Z -> string) (fuel : nat) :
  forall counter q,
    firstFree fuel w name counter = Some q ->
    exists c, counter <= c /\ q = name c /\ Fs.pathExists w q = false
              /\ forall c', counter <= c' < c -> Fs.pathExists w (name c') = true.
Proof.
  induction fuel as [|fuel IH]; intros counter q; cbn; [discriminate|].
  destruct (Fs.pathExists w (name counter)) eqn:E.
  - intros H. apply IH in H as (c & Hc & -> & Hfree & Hbelow).
    exists c. split; [lia|]. split; [reflexivity|]. split; [exact Hfree|].
    intros c' Hc'. destruct (Z.eq_dec c' counter) as [->|]; [exact E|].
    apply Hbelow. lia.
  - intros [= <-]. exists counter. split; [lia|]. split; [reflexivity|].
    split; [exact E|]. intros c' Hc'. lia.
Qed.

(** When the names from [counter] up to [c] are taken and the one of [c] is
    free, the search returns it, however large [c] is. *)
Lemma firstFree_reaches (w : World) (name : Z -> string) (c : Z) :
  Fs.pathExists w (name c) = false ->
  forall fuel counter,
    counter <= c -> (Z.to_nat (c - counter) < fuel)%nat ->
    (forall c', counter <= c' < c -> Fs.pathExists w (name c') = true) ->
    firstFree fuel w name counter = Some (name c).
Proof.
  intros Hfree. induction fuel as [|fuel IH]; intros counter Hc Hfuel Htaken; [lia|].
  cbn. destruct (Z.eq_dec counter c) as [->|Hne].
  - now rewrite Hfree.
  - rewrite Htaken by lia. apply IH; [lia|lia|]. intros c' Hc'. apply Htaken. lia.
Qed.

(** The search ends: there are more turns than files, and the names it
    tries are distinct. *)
Lemma firstFree_total (w : World) (name : Z -> string) (c0 : Z) :
  (forall a b, c0 <= a -> c0 <= b -> name a = name b -> a = b) ->
  forall fuel counter (seen : gset string),
    c0 <= counter ->
    (forall p, p ∈ seen ->
       is_Some (files w !! p) /\ exists c, c0 <= c < counter /\ p = name c) ->
    (size (files w) < size seen + fuel)%nat ->
    exists q, firstFree fuel w name counter = Some q.
Proof.
  intros Hinj. induction fuel as [|fuel IH]; intros counter seen Hc Hseen Hsize.
  - exfalso.
    assert (Hsub : seen ⊆ dom (files w)).
    { intros p Hp. apply elem_of_dom. now apply Hseen. }
    apply subseteq_size in Hsub. rewrite size_dom in Hsub. lia.
  - cbn. destruct (Fs.pathExists w (name counter)) eqn:E; [|eauto].
    apply (IH (counter + 1) ({[ name counter ]} ∪ seen)); [lia| |].
    + intros p Hp. apply elem_of_union in Hp as [Hp|Hp].
      * apply elem_of_singleton in Hp as ->. split.
        -- unfold Fs.pathExists in E. destruct (files w !! name counter); [eauto|discriminate].
        -- exists counter. split; [lia|reflexivity].
      * destruct (Hseen p Hp) as [Hf (c & Hcc & ->)].
        split; [exact Hf|]. exists c. split; [lia|reflexivity].
    + rewrite size_union, size_singleton; [lia|].
      intros p Hp1 Hp2. apply elem_of_singleton in Hp1 as ->.
      destruct (Hseen _ Hp2) as [_ (c & Hcc & Hn)].
      apply Hinj in Hn; lia.
Qed.

Lemma digits_val_nonneg (s : string) : forall acc,
  Str.all_digits s = true -> 0 <= acc -> 0 <= Str.digits_val acc s.
Proof.
  induction s as [|c s IH]; intros acc Hd Hacc; cbn in *; [exact Hacc|].
  apply andb_prop in Hd as [Hc Hd]. apply is_digit_val in Hc.
  apply IH; [exact Hd|lia].
Qed.

Lemma matchDateCounter_digits (baseName date counterStr : string) :
  matchDateCounter baseName = Some (date, counterStr) ->
  Str.all_digits counterStr = true.
Proof.
  unfold matchDateCounter.
  destruct (splitDatePrefix baseName) as [[d [|u rest]]|]; try discriminate.
  destruct (Str.ascii_eqb u "_" && (String.length rest =? 3)%nat) eqn:E1;
    cbn [andb]; [|discriminate].
  destruct (Str.all_digits rest) eqn:E2; [|discriminate].
  now intros [= <- <-].
Qed.

(** [findUniqueFilename] returns on every file system. *)
Lemma findUniqueFilename_total (w : World) (targetPath : string) :
  exists q, findUniqueFilename w targetPath = Some q.
Proof.
  unfold findUniqueFilename.
  destruct (Fs.pathExists w targetPath); cbn [negb]; [|eauto].
  destruct (matchDateCounter _) as [[datePrefix counterStr]|] eqn:Hm.
  - pose proof (digits_val_nonneg counterStr 0
                  (matchDateCounter_digits _ _ _ Hm) ltac:(lia)) as Hpos.
    apply (firstFree_total w _ 1 (fun a b Ha Hb => candidate_inj _ _ _ a b
             ltac:(lia) ltac:(lia)) _ _ ∅); [lia| |].
    + intros p Hp. now apply not_elem_of_empty in Hp.
    + rewrite size_empty. lia.
  - apply (firstFree_total w _ 1 (fun a b Ha Hb => candidate_inj _ _ _ a b
             ltac:(lia) ltac:(lia)) _ _ ∅); [lia| |].
    + intros p Hp. now apply not_elem_of_empty in Hp.
    + rewrite size_empty. lia.
Qed.

(** The name returned is free. *)
Lemma findUniqueFilename_free (w : World) (targetPath q : string) :
  findUniqueFilename w targetPath = Some q -> Fs.pathExists w q = false.
Proof.
  unfold findUniqueFilename.
  destruct (Fs.pathExists w targetPath) eqn:E; cbn [negb].
  - destruct (matchDateCounter _) as [[datePrefix counterStr]|];
      intros H; now apply firstFree_spec in H as (c & _ & _ & Hfree & _).
  - now intros [= <-].
Qed.

(** ** The ceiling of [generateNewPath], and its absence from
    [findUniqueFilename] *)

Lemma generateLoop_total (w : World) (targetDir baseFilename ext originalPath : string)
    (fuel : nat) :
  forall counter newFilename newPath,
    (Z.to_nat (9999 - counter) <= fuel)%nat ->
    generateLoop fuel w targetDir baseFilename ext originalPath
                 counter newFilename newPath <> None.
Proof.
  induction fuel as [|fuel IH]; intros counter newFilename newPath Hfuel; cbn;
    destruct (Fs.pathExists w newPath && negb (String.eqb newPath originalPath));
    try discriminate;
    destruct (counter + 1 >? 9999) eqn:E; try discriminate;
    rewrite Z.gtb_ltb in E; apply Z.ltb_ge in E.
  - lia.
  - apply IH. lia.
Qed.

(** A name that [generateNewPath] returns has a counter of at most 9999,
    and is free or is the name the file already has. *)
Lemma generateLoop_bound (w : World) (targetDir baseFilename ext originalPath : string)
    (fuel : nat) :
  forall counter newFilename newPath p n,
    counter <= 9999 ->
    newFilename = counterName baseFilename ext counter ->
    newPath = Path.join targetDir newFilename ->
    generateLoop fuel w targetDir baseFilename ext originalPath
                 counter newFilename newPath = Some (Returns (p, n)) ->
    exists c, counter <= c <= 9999 /\ n = counterName baseFilename ext c
              /\ p = Path.join targetDir n
              /\ (Fs.pathExists w p = false \/ p = originalPath).
Proof.
  induction fuel as [|fuel IH]; intros counter newFilename newPath p n Hc Hn Hp; cbn;
    destruct (Fs.pathExists w newPath && negb (String.eqb newPath originalPath)) eqn:Hcond.
  - destruct (counter + 1 >? 9999); discriminate.
  - intros [= <- <-]. exists counter. split; [lia|]. split; [exact Hn|].
    split; [exact Hp|]. apply andb_false_iff in Hcond as [?|Hcond]; [now left|].
    right. apply negb_false_iff in Hcond. now apply String.eqb_eq.
  - destruct (counter + 1 >? 9999) eqn:E; [discriminate|].
    rewrite Z.gtb_ltb in E; apply Z.ltb_ge in E. intros H.
    apply IH in H as (c & Hcc & ? & ? & ?); [|lia|reflexivity|reflexivity].
    exists c. split; [lia|]. auto.
  - intros [= <- <-]. exists counter. split; [lia|]. split; [exact Hn|].
    split; [exact Hp|]. apply andb_false_iff in Hcond as [?|Hcond]; [now left|].
    right. apply negb_false_iff in Hcond. now apply String.eqb_eq.
Qed.

(** [generateNewPath] always ends, within 9999 attempts: it returns a name
    with a counter from 1 to 9999, or throws. *)
Lemma generateNewPath_ceiling (o : Organizer) (w : World) (originalPath : string)
    (creationDate : JsDate.t) :
  generateNewPath o w originalPath creationDate = Some Throws
  \/ exists base ext c p,
       generateNewPath o w originalPath creationDate
       = Some (Returns (p, counterName base ext c))
       /\ 1 <= c <= 9999
       /\ (Fs.pathExists w p = false \/ p = originalPath).
Proof.
  destruct (generateNewPath o w originalPath creationDate) as [[[p n]|]|] eqn:E.
  - right. unfold generateNewPath in E.
    apply generateLoop_bound in E as (c & Hc & -> & _ & Hfree);
      [|lia|reflexivity|reflexivity].
    eexists _, _, c, p. split; [reflexivity|]. auto.
  - now left.
  - exfalso. revert E. apply generateLoop_total.
    apply Nat.leb_le. vm_compute. reflexivity.
Qed.

(** C3 at the failing input.  In a folder where the names with the
    counters 001 to 9999 are taken, [generateNewPath] fails with its
    too-many-conflicts error, while [findUniqueFilename] goes past 9999 and
    returns the name with the counter 10000: its loops have no ceiling. *)
Theorem findUniqueFilename_has_no_ceiling :
  generateNewPath targetOrganizer crowdedMonth "/in/IMG_1.jpg"
    (JsDate.ofYMD (Some 2023) (Some 0) (Some 15)) = Some Throws
  /\ findUniqueFilename crowdedMonth "/t/2023/01/2023-01-15_001.jpg"
     = Some "/t/2023/01/2023-01-15_10000.jpg".
Proof. split; vm_compute; reflexivity. Qed.

(** The rule of the specification on its example: with [2023-01-15_001.jpg]
    to [2023-01-15_050.jpg] in place, a new [2023-01-15_001.jpg] becomes
    [2023-01-15_051.jpg]; a name of another form gets [_001]. *)
Example findUniqueFilename_examples :
  let w := {| files :=
                list_to_map
                  (map (fun c => (Path.join "/t/2023/01"
                                    (counterName "2023-01-15" ".jpg" c),
                                  plainFile 1 0))
                       (zrange 1 50) ++ [("/t/IMG_7.jpg", plainFile 1 0)]);
              clock := 0 |} in
  (findUniqueFilename w "/t/2023/01/2023-01-15_001.jpg",
   findUniqueFilename w "/t/IMG_7.jpg",
   findUniqueFilename w "/t/2023/01/2023-01-16_001.jpg")
  = (Some "/t/2023/01/2023-01-15_051.jpg", Some "/t/IMG_7_001.jpg",
     Some "/t/2023/01/2023-01-16_001.jpg").
Proof. vm_compute. reflexivity. Qed.

(** ** The merge loop *)

Lemma indexFingerprints_set (m : ValMap string) (k : jsval) (v : string) :
  NoDup (indexFingerprints m) ->
  NoDup (indexFingerprints (JsMap.set Js.same m k v)).
Proof.
  unfold indexFingerprints. rewrite keys_set.
  destruct (JsMap.has Js.same m k) eqn:Hhas; [trivial|].
  intros Hnd. rewrite omap_app.
  destruct k as [[| | |s| |]|]; cbn; rewrite ?app_nil_r; try exact Hnd.
  apply NoDup_app. split; [exact Hnd|]. split; [|apply NoDup_singleton].
  intros x Hx Hs. apply list_elem_of_singleton in Hs as ->.
  apply list_elem_of_omap in Hx as (key & Hkey & Hstr).
  destruct key as [[| | |s'| |]|]; try discriminate. injection Hstr as ->.
  apply list_elem_of_In in Hkey.
  revert Hkey. apply (has_false_not_key Js.same); [|exact Hhas].
  cbn. apply String.eqb_refl.
Qed.

Lemma splitByCache_NoDup (cachedHashes : ValMap jsval) (fileModTimes : StrMap Z)
    (targetFiles : list string) :
  NoDup (indexFingerprints (fst (splitByCache cachedHashes fileModTimes targetFiles))).
Proof.
  unfold splitByCache.
  enough (G : forall acc, NoDup (indexFingerprints (fst acc)) ->
    NoDup (indexFingerprints
             (fst (fold_left (splitStep cachedHashes fileModTimes) targetFiles acc)))).
  { apply G. cbn. apply NoDup_nil_2. }
  induction targetFiles as [|file rest IH]; intros [m l] Hnd; cbn [fold_left];
    [exact Hnd|].
  apply IH. unfold splitStep.
  destruct (_ && _); cbn; [now apply indexFingerprints_set|exact Hnd].
Qed.

Lemma hashRemaining_NoDup `{Md5} (w : World) (fileModTimes : StrMap Z)
    (filesToHash : list string) (valid : ValMap string) :
  NoDup (indexFingerprints valid) ->
  NoDup (indexFingerprints (fst (hashRemaining w fileModTimes filesToHash valid))).
Proof.
  unfold hashRemaining. generalize ([] : StrMap jsval). revert valid.
  induction filesToHash as [|file rest IH]; intros valid entries Hnd;
    cbn [fold_left]; [exact Hnd|].
  unfold hashRemainingStep at 2.
  destruct (createFileFingerprint w file); [|now apply IH].
  apply IH. now apply indexFingerprints_set.
Qed.

(** The index as loaded holds each fingerprint once. *)
Lemma buildTargetHashDatabase_NoDup `{Md5} (bp : BatchProcessor) (w : World) :
  NoDup (indexFingerprints (fst (buildTargetHashDatabase bp w))).
Proof.
  unfold buildTargetHashDatabase.
  destruct (negb (Fs.dirExists w (targetDirectory bp))); [apply NoDup_nil_2|].
  unfold buildTargetWith.
  destruct (Fs.scan w (targetDirectory bp)) as [|f fs] eqn:Hscan; [apply NoDup_nil_2|].
  pose proof (splitByCache_NoDup (loadHashCache bp w)
                (modTimesOf w (f :: fs)) (f :: fs)) as Hs.
  destruct (splitByCache _ _ _) as [valid toHash].
  destruct toHash as [|g gs]; [exact Hs|].
  pose proof (hashRemaining_NoDup w (modTimesOf w (f :: fs)) (g :: gs) valid Hs) as Hh.
  now destruct (hashRemaining _ _ _ _).
Qed.

(** A source file whose fingerprint is in the index is skipped: nothing is
    copied and the index stays as it is. *)
Lemma copyStep_skip (bp : BatchProcessor) (sourcePath : string)
    (sourceHashes : StrMap string) (s : Merge) (sourceFile h : string) :
  JsMap.get String.eqb sourceHashes sourceFile = Some h -> h <> "" ->
  JsMap.has Js.same (targetHashes s) (Js.str h) = true ->
  copyStep bp sourcePath sourceHashes s sourceFile
  = Some (Returns (Skip sourceFile, skipped s)).
Proof.
  intros Hh Hne Hhas. unfold copyStep. rewrite Hh.
  apply String.eqb_neq in Hne. now rewrite Hne, Hhas.
Qed.

(** For a source file whose fingerprint is not in the index, a turn that
    returns is a copy, to a path where no file was, and the fingerprint is
    in the index at once. *)
Lemma copyStep_copy (bp : BatchProcessor) (sourcePath : string)
    (sourceHashes : StrMap string) (s : Merge) (sourceFile h : string)
    (a : Action) (s' : Merge) :
  JsMap.get String.eqb sourceHashes sourceFile = Some h -> h <> "" ->
  JsMap.has Js.same (targetHashes s) (Js.str h) = false ->
  copyStep bp sourcePath sourceHashes s sourceFile = Some (Returns (a, s')) ->
  exists final,
    a = Copy sourceFile final
    /\ Fs.pathExists (world s) final = false
    /\ Fs.copy (world s) sourceFile final = Returns (world s')
    /\ targetHashes s' = JsMap.set Js.same (targetHashes s) (Js.str h) final
    /\ JsMap.get Js.same (targetHashes s') (Js.str h) = Some final
    /\ copiedCount s' = S (copiedCount s).
Proof.
  intros Hh Hne Hhas. unfold copyStep. rewrite Hh.
  apply String.eqb_neq in Hne. rewrite Hne, Hhas.
  destruct (findUniqueFilename _ _) as [final|] eqn:Hfinal; [|discriminate].
  destruct (Fs.copy _ _ _) as [w'|] eqn:Hcopy; [|discriminate].
  intros [= <- <-]. exists final. cbn [world targetHashes copiedCount].
  split; [reflexivity|]. split; [now apply findUniqueFilename_free in Hfinal|].
  split; [exact Hcopy|]. split; [reflexivity|]. split; [|reflexivity].
  apply (get_set_eq Js.same). cbn. apply String.eqb_refl.
Qed.

(** What one turn of the loop does to the index. *)
Lemma copyStep_index (bp : BatchProcessor) (sourcePath : string)
    (sourceHashes : StrMap string) (s s' : Merge) (sourceFile : string) (a : Action) :
  copyStep bp sourcePath sourceHashes s sourceFile = Some (Returns (a, s')) ->
  (targetHashes s' = targetHashes s
   /\ copiedCount s' = copiedCount s /\ world s' = world s
   /\ (forall x y, a <> Copy x y))
  \/ exists h final,
       a = Copy sourceFile final
       /\ JsMap.get String.eqb sourceHashes sourceFile = Some h
       /\ JsMap.has Js.same (targetHashes s) (Js.str h) = false
       /\ targetHashes s' = JsMap.set Js.same (targetHashes s) (Js.str h) final.
Proof.
  unfold copyStep.
  destruct (JsMap.get String.eqb sourceHashes sourceFile) as [h|] eqn:Hh.
  - destruct (String.eqb h "").
    { intros [= <- <-]. left. repeat split; congruence. }
    destruct (JsMap.has Js.same (targetHashes s) (Js.str h)) eqn:Hhas.
    { intros [= <- <-]. left. repeat split; congruence. }
    destruct (findUniqueFilename _ _) as [final|]; [|discriminate].
    destruct (Fs.copy _ _ _) as [w'|]; [|discriminate].
    intros [= <- <-]. right. exists h, final. auto.
  - intros [= <- <-]. left. repeat split; congruence.
Qed.

Lemma has_set_mono (m : ValMap string) (k k' : jsval) (v : string) :
  JsMap.has Js.same m k' = true ->
  JsMap.has Js.same (JsMap.set Js.same m k v) k' = true.
Proof.
  unfold JsMap.has. induction m as [|[k1 v1] m IH]; cbn; [discriminate|].
  destruct (Js.same k1 k') eqn:E1.
  - intros _. destruct (Js.same k1 k); cbn; now rewrite E1.
  - intros H. destruct (Js.same k1 k); cbn; rewrite E1; auto.
Qed.

(** The loop over a list that is split in two. *)
Lemma copyLoop_app (bp : BatchProcessor) (sourcePath : string)
    (sourceHashes : StrMap string) (l1 l2 : list string) :
  forall s,
    copyLoop bp sourcePath sourceHashes (l1 ++ l2) s
    = match copyLoop bp sourcePath sourceHashes l1 s with
      | Some (Returns (acts1, s1)) =>
          match copyLoop bp sourcePath sourceHashes l2 s1 with
          | Some (Returns (acts2, s2)) => Some (Returns (acts1 ++ acts2, s2))
          | other => other
          end
      | other => other
      end.
Proof.
  induction l1 as [|f l1 IH]; intros s; cbn [app copyLoop].
  - destruct (copyLoop bp sourcePath sourceHashes l2 s) as [[[acts2 s2]|]|];
      reflexivity.
  - destruct (copyStep bp sourcePath sourceHashes s f) as [[[a s']|]|];
      [|reflexivity|reflexivity].
    rewrite IH.
    destruct (copyLoop bp sourcePath sourceHashes l1 s') as [[[acts1 s1]|]|];
      [|reflexivity|reflexivity].
    destruct (copyLoop bp sourcePath sourceHashes l2 s1) as [[[acts2 s2]|]|];
      reflexivity.
Qed.

(** The invariant of the loop: the index holds each fingerprint once, it
    only grows, and the fingerprints copied so far are distinct, were not
    in the index at the start and are in it now. *)
Lemma copyLoop_invariant (bp : BatchProcessor) (sourcePath : string)
    (sourceHashes : StrMap string) (sourceFiles : list string) :
  forall s0 acts s,
    NoDup (indexFingerprints (targetHashes s0)) ->
    copyLoop bp sourcePath sourceHashes sourceFiles s0 = Some (Returns (acts, s)) ->
    NoDup (indexFingerprints (targetHashes s))
    /\ (forall k, JsMap.has Js.same (targetHashes s0) k = true ->
                  JsMap.has Js.same (targetHashes s) k = true)
    /\ NoDup (copiedFingerprints sourceHashes acts)
    /\ (forall h, In h (copiedFingerprints sourceHashes acts) ->
          JsMap.has Js.same (targetHashes s0) (Js.str h) = false
          /\ JsMap.has Js.same (targetHashes s) (Js.str h) = true).
Proof.
  induction sourceFiles as [|f rest IH]; intros s0 acts s Hnd; cbn [copyLoop].
  - intros [= <- <-]. split; [exact Hnd|]. split; [auto|].
    split; [apply NoDup_nil_2|]. intros h [].
  - destruct (copyStep bp sourcePath sourceHashes s0 f) as [[[a s1]|]|] eqn:Hstep;
      [|discriminate|discriminate].
    destruct (copyLoop bp sourcePath sourceHashes rest s1) as [[[acts' s']|]|] eqn:Hloop;
      [|discriminate|discriminate].
    intros [= <- <-].
    apply copyStep_index in Hstep
      as [(Hidx & _ & _ & Hnocopy) | (h & final & -> & Hh & Hhas & Hidx)].
    + rewrite <- Hidx in Hnd.
      destruct (IH s1 acts' s' Hnd Hloop) as (I1 & I2 & I3 & I4).
      rewrite Hidx in I2, I4.
      split; [exact I1|]. split; [exact I2|].
      assert (Hc : copiedFingerprints sourceHashes (a :: acts')
                   = copiedFingerprints sourceHashes acts').
      { unfold copiedFingerprints. cbn.
        destruct a as [x|x|x y]; try reflexivity. now destruct (Hnocopy x y). }
      rewrite Hc. auto.
    + assert (Hnd1 : NoDup (indexFingerprints (targetHashes s1)))
        by (rewrite Hidx; now apply indexFingerprints_set).
      destruct (IH s1 acts' s' Hnd1 Hloop) as (I1 & I2 & I3 & I4).
      assert (Hin1 : JsMap.has Js.same (targetHashes s1) (Js.str h) = true).
      { rewrite Hidx. apply (has_set_eq Js.same). cbn. apply String.eqb_refl. }
      split; [exact I1|]. split.
      { intros k Hk. apply I2. rewrite Hidx. now apply has_set_mono. }
      assert (Hc : copiedFingerprints sourceHashes (Copy f final :: acts')
                   = h :: copiedFingerprints sourceHashes acts').
      { unfold copiedFingerprints. cbn. now rewrite Hh. }
      rewrite Hc. split.
      * apply NoDup_cons. split; [|exact I3].
        intros Hin. apply list_elem_of_In in Hin.
        destruct (I4 h Hin) as [Hno _]. congruence.
      * intros h' [<-|Hin]; [split; [exact Hhas|now apply I2]|].
        destruct (I4 h' Hin) as [Hno Hyes]. split; [|exact Hyes].
        destruct (JsMap.has Js.same (targetHashes s0) (Js.str h')) eqn:E;
          [|reflexivity].
        rewrite Hidx in Hno. now rewrite has_set_mono in Hno.
Qed.

(** The loop ends on every list of source files. *)
Lemma copyLoop_total (bp : BatchProcessor) (sourcePath : string)
    (sourceHashes : StrMap string) (sourceFiles : list string) :
  forall s, exists r, copyLoop bp sourcePath sourceHashes sourceFiles s = Some r.
Proof.
  induction sourceFiles as [|f rest IH]; intros s; cbn [copyLoop]; [eauto|].
  assert (Hstep : exists r, copyStep bp sourcePath sourceHashes s f = Some r).
  { unfold copyStep.
    destruct (JsMap.get String.eqb sourceHashes f) as [h|]; [|eauto].
    destruct (String.eqb h ""); [eauto|].
    destruct (JsMap.has Js.same (targetHashes s) (Js.str h)); [eauto|].
    destruct (findUniqueFilename_total (world s)
                (Path.join (targetDirectory bp) (Path.relative sourcePath f)))
      as [final ->].
    destruct (Fs.copy (world s) f final); eauto. }
  destruct Hstep as [[[a s']|] ->]; [|eauto].
  destruct (IH s') as [[[acts s'']|] ->]; eauto.
Qed.

(** At the end of the loop the index holds the fingerprint of every source
    file that has one. *)
Lemma copyLoop_covers (bp : BatchProcessor) (sourcePath : string)
    (sourceHashes : StrMap string) (sourceFiles : list string) :
  forall s0 acts s,
    copyLoop bp sourcePath sourceHashes sourceFiles s0 = Some (Returns (acts, s)) ->
    (forall k, JsMap.has Js.same (targetHashes s0) k = true ->
               JsMap.has Js.same (targetHashes s) k = true)
    /\ forall f h, In f sourceFiles ->
         JsMap.get String.eqb sourceHashes f = Some h -> h <> "" ->
         JsMap.has Js.same (targetHashes s) (Js.str h) = true.
Proof.
  induction sourceFiles as [|f0 rest IH]; intros s0 acts s; cbn [copyLoop].
  - intros [= <- <-]. split; [auto|]. intros f h [].
  - destruct (copyStep bp sourcePath sourceHashes s0 f0) as [[[a s1]|]|] eqn:Hstep;
      [|discriminate|discriminate].
    destruct (copyLoop bp sourcePath sourceHashes rest s1) as [[[acts' s']|]|] eqn:Hloop;
      [|discriminate|discriminate].
    intros [= <- <-]. destruct (IH s1 acts' s' Hloop) as [Hmono Hcov].
    assert (Hstep_mono : forall k, JsMap.has Js.same (targetHashes s0) k = true ->
                                   JsMap.has Js.same (targetHashes s1) k = true).
    { intros k Hk. pose proof Hstep as Hs.
      apply copyStep_index in Hs as [(-> & _) | (h & final & _ & _ & _ & ->)];
        [exact Hk | now apply has_set_mono]. }
    split; [auto|].
    intros f h [<-|Hin] Hh Hne; [|eauto].
    apply Hmono.
    destruct (JsMap.has Js.same (targetHashes s0) (Js.str h)) eqn:Hhas; [auto|].
    unfold copyStep in Hstep. rewrite Hh in Hstep.
    apply String.eqb_neq in Hne. rewrite Hne, Hhas in Hstep.
    destruct (findUniqueFilename _ _) as [final|]; [|discriminate].
    destruct (Fs.copy _ _ _) as [w'|]; [|discriminate].
    injection Hstep as <- <-. cbn [targetHashes].
    apply (has_set_eq Js.same). cbn. apply String.eqb_refl.
Qed.

(** C1.  In the merge loop a source file whose fingerprint is in the target
    index, as loaded or as recorded by an earlier copy of the run, is
    skipped: nothing is copied and the index is left as it is.  For a
    source file whose fingerprint is not in the index, a turn of the loop
    that returns is a copy, to a path where no file was, and it records the
    fingerprint of the copied file in the index at once (the turn may also
    throw, when the folder of the copy cannot be made or the copy fails).
    So at every step of a run (after every prefix of the source files) the
    index holds each fingerprint once, with one path; it only grows; and no
    fingerprint is copied twice, nor copied when the index held it.  The
    index as loaded holds each fingerprint once, and the run ends. *)
Theorem merge_keeps_one_path_per_fingerprint `{Md5} :
  (forall bp sourcePath sourceHashes s sourceFile h,
     JsMap.get String.eqb sourceHashes sourceFile = Some h -> h <> "" ->
     JsMap.has Js.same (targetHashes s) (Js.str h) = true ->
     copyStep bp sourcePath sourceHashes s sourceFile
     = Some (Returns (Skip sourceFile, skipped s)))
  /\ (forall bp sourcePath sourceHashes s sourceFile h a s',
        JsMap.get String.eqb sourceHashes sourceFile = Some h -> h <> "" ->
        JsMap.has Js.same (targetHashes s) (Js.str h) = false ->
        copyStep bp sourcePath sourceHashes s sourceFile = Some (Returns (a, s')) ->
        exists final,
          a = Copy sourceFile final
          /\ Fs.pathExists (world s) final = false
          /\ Fs.copy (world s) sourceFile final = Returns (world s')
          /\ targetHashes s' = JsMap.set Js.same (targetHashes s) (Js.str h) final
          /\ JsMap.get Js.same (targetHashes s') (Js.str h) = Some final
          /\ copiedCount s' = S (copiedCount s))
  /\ (forall bp sourcePath sourceHashes done rest s0 acts s,
        NoDup (indexFingerprints (targetHashes s0)) ->
        copyLoop bp sourcePath sourceHashes (done ++ rest) s0
        = Some (Returns (acts, s)) ->
        exists acts1 s1,
          copyLoop bp sourcePath sourceHashes done s0 = Some (Returns (acts1, s1))
          /\ NoDup (indexFingerprints (targetHashes s1))
          /\ (forall k, JsMap.has Js.same (targetHashes s0) k = true ->
                        JsMap.has Js.same (targetHashes s1) k = true)
          /\ NoDup (copiedFingerprints sourceHashes acts1)
          /\ (forall h, In h (copiedFingerprints sourceHashes acts1) ->
                JsMap.has Js.same (targetHashes s0) (Js.str h) = false
                /\ JsMap.has Js.same (targetHashes s1) (Js.str h) = true))
  /\ (forall bp w, NoDup (indexFingerprints (fst (buildTargetHashDatabase bp w))))
  /\ (forall bp w gs sourcePath,
        exists r, copyOrganizedFiles bp w gs sourcePath = Some r)
  /\ (forall bp w gs sourcePath acts s,
        copyOrganizedFiles bp w gs sourcePath = Some (Returns (acts, s)) ->
        NoDup (indexFingerprints (targetHashes s))
        /\ NoDup (copiedFingerprints
                    (buildHashDatabase w (Fs.scan w sourcePath)) acts)
        /\ (forall h, In h (copiedFingerprints
                              (buildHashDatabase w (Fs.scan w sourcePath)) acts) ->
              JsMap.has Js.same (fst (buildTargetHashDatabase bp w)) (Js.str h) = false
              /\ JsMap.has Js.same (targetHashes s) (Js.str h) = true)).
Proof.
  split; [exact copyStep_skip|]. split.
  { intros bp sourcePath sourceHashes s sourceFile h a s'. apply copyStep_copy. }
  split.
  { intros bp sourcePath sourceHashes done rest s0 acts s Hnd Hrun.
    rewrite copyLoop_app in Hrun.
    destruct (copyLoop bp sourcePath sourceHashes done s0) as [[[acts1 s1]|]|] eqn:Hd;
      [|discriminate|discriminate].
    exists acts1, s1. split; [reflexivity|].
    exact (copyLoop_invariant bp sourcePath sourceHashes done s0 acts1 s1 Hnd Hd). }
  split; [intros bp w; apply buildTargetHashDatabase_NoDup|]. split.
  { intros bp w gs sourcePath. unfold copyOrganizedFiles.
    destruct (buildTargetHashDatabase bp w) as [index w1].
    match goal with
    | |- context [copyLoop ?a ?b ?c ?d ?e] =>
        destruct (copyLoop_total a b c d e) as [[[acts s]|] ->]
    end; eexists; reflexivity. }
  intros bp w gs sourcePath acts s. unfold copyOrganizedFiles.
  pose proof (buildTargetHashDatabase_NoDup bp w) as Hnd.
  destruct (buildTargetHashDatabase bp w) as [index w1]. cbn [fst] in *.
  match goal with
  | |- context [copyLoop ?a ?b ?c ?d ?e] =>
      destruct (copyLoop a b c d e) as [[[acts' s']|]|] eqn:Hloop
  end; [|discriminate|discriminate].
  intros [= <- <-]. cbn [targetHashes].
  apply copyLoop_invariant in Hloop as (I1 & _ & I3 & I4); [|exact Hnd].
  auto.
Qed.

(** A run: the first of two files of the same content is copied, under the
    next free name as the target has a file of its name, and the second is
    skipped for it; the third is skipped for the file of the target that
    has its content (though under another name). *)
Example merge_run :
  actionsOf (copyOrganizedFiles (H := plainDigest) exampleBatch twoAlike
               noGlobalStats "/s")
  = Some [Copy "/s/2021/05/2021-05-01_001.jpg" "/t/2021/05/2021-05-01_002.jpg";
          Skip "/s/2021/05/2021-05-01_002.jpg";
          Skip "/s/2021/05/2021-05-02_001.jpg"].
Proof. vm_compute. reflexivity. Qed.

(** ** Two runs of the merge *)

(** In the ordinary case the second run copies nothing. *)
Example second_run_copies_nothing :
  twoRuns (H := plainDigest) exampleBatch twoAlike "/s" = (Some 1%nat, Some 0%nat).
Proof. vm_compute. reflexivity. Qed.

(** C2 at the failing input.  At the end of a run the index in memory holds
    the fingerprint of every source file ([copyLoop_covers]), but the next
    run rebuilds its index from the target folder.  The cache file lies in
    that folder and is fingerprinted with the files of the target, as
    [<its size>-no-exif].
    A source file of that size whose metadata cannot be read is skipped by
    the first run as a duplicate of the cache file; the first run rewrites
    the cache file, whose size changes; so the second run finds the
    fingerprint of the source file nowhere in the index it rebuilds, and
    copies the file.  This happens with a cache file that holds [{}], and
    with the cache file that an earlier merge into the target wrote (206
    bytes long, 330 after the first run). *)
Theorem second_run_copies_again :
  twoRuns (H := plainDigest) exampleBatch smallCache "/s" = (Some 0%nat, Some 1%nat)
  /\ cacheFileSize afterFirstMerge = 206%N
  /\ actionsOf (copyOrganizedFiles (H := plainDigest) exampleBatch newSource
                  noGlobalStats "/s")
     = Some [Skip "/s/a.jpg"]
  /\ cacheFileSize
       (worldAfter newSource
          (copyOrganizedFiles (H := plainDigest) exampleBatch newSource
             noGlobalStats "/s")) = 330%N
  /\ actionsOf
       (copyOrganizedFiles (H := plainDigest) exampleBatch
          (worldAfter newSource
             (copyOrganizedFiles (H := plainDigest) exampleBatch newSource
                noGlobalStats "/s"))
          noGlobalStats "/s")
     = Some [Copy "/s/a.jpg" "/t/a.jpg"]
  /\ twoRuns (H := plainDigest) exampleBatch newSource "/s"
     = (Some 0%nat, Some 1%nat).
Proof. repeat split; vm_compute; reflexivity. Qed.

(** * Further properties of the code *)

(** ** Free names *)

(** The search of the merge is the search for any answers of
    [fs.pathExists], at the test for a regular file. *)
Lemma firstFree_With (w : World) (name : Z -> string) (fuel : nat) :
  forall counter,
    firstFree fuel w name counter
    = firstFreeWith (Fs.pathExists w) fuel name counter.
Proof.
  induction fuel as [|fuel IH]; intros counter; cbn; [reflexivity|].
  now rewrite IH.
Qed.

Lemma findUniqueFilename_With (w : World) (targetPath : string) :
  findUniqueFilename w targetPath
  = findUniqueFilenameWith (Fs.pathExists w) (S (size (files w))) targetPath.
Proof.
  unfold findUniqueFilename, findUniqueFilenameWith.
  destruct (negb (Fs.pathExists w targetPath)); [reflexivity|].
  destruct (matchDateCounter _) as [[datePrefix counterStr]|];
    apply firstFree_With.
Qed.

(** X1.  [findUniqueFilename] returns on every file system; no file has
    the path it returns, so that a copy to it overwrites none; and the path
    is the target path or a numbered name in its folder, with its
    extension. *)
Theorem findUniqueFilename_returns_free_path (w : World) (targetPath : string) :
  exists q,
    findUniqueFilename w targetPath = Some q
    /\ Fs.pathExists w q = false
    /\ (q = targetPath
        \/ exists c, firstCounter targetPath <= c /\ q = numberedPath targetPath c).
Proof.
  destruct (findUniqueFilename_total w targetPath) as [q Hq].
  exists q. split; [exact Hq|]. split; [now apply findUniqueFilename_free in Hq|].
  unfold findUniqueFilename in Hq. unfold firstCounter, numberedPath.
  destruct (negb (Fs.pathExists w targetPath)); [left; congruence|]. right.
  destruct (matchDateCounter _) as [[datePrefix counterStr]|];
    apply firstFree_spec in Hq as (c & Hc & -> & _); exists c; auto.
Qed.

(** The search returns the least counter whose name is free, when it has
    turns enough to reach it. *)
Lemma firstFreeWith_least (pathExists : string -> bool) (name : Z -> string) (c : Z) :
  pathExists (name c) = false ->
  forall fuel counter,
    counter <= c ->
    (forall c', counter <= c' < c -> pathExists (name c') = true) ->
    (Z.to_nat (c - counter) < fuel)%nat ->
    firstFreeWith pathExists fuel name counter = Some (name c).
Proof.
  intros Hfree. induction fuel as [|fuel IH]; intros counter Hle Htaken Hfuel;
    [lia|]. cbn.
  destruct (Z.eq_dec counter c) as [->|Hne]; [now rewrite Hfree|].
  rewrite Htaken by lia. apply IH; [lia| |lia].
  intros c' Hc'. apply Htaken. lia.
Qed.

(** X2.  Whatever [fs.pathExists] answers, for files and for folders: when
    the target path is taken, [findUniqueFilename] keeps the folder and the
    extension and numbers the name.  A base name of the form [<date>_<NNN>]
    keeps its date and gets the least counter above [NNN] whose name is
    free; any other base name gets [_<counter>] appended, with the least
    counter from 1 on whose name is free. *)
Theorem findUniqueFilename_least_counter (pathExists : string -> bool)
    (targetPath : string) (c : Z) (fuel : nat) :
  pathExists targetPath = true ->
  firstCounter targetPath <= c ->
  pathExists (numberedPath targetPath c) = false ->
  (forall c', firstCounter targetPath <= c' < c ->
     pathExists (numberedPath targetPath c') = true) ->
  (Z.to_nat (c - firstCounter targetPath) < fuel)%nat ->
  findUniqueFilenameWith pathExists fuel targetPath
  = Some (numberedPath targetPath c).
Proof.
  unfold firstCounter, numberedPath, findUniqueFilenameWith.
  intros Htaken Hc Hfree Hbelow Hfuel. rewrite Htaken. cbn [negb].
  destruct (matchDateCounter _) as [[datePrefix counterStr]|].
  - apply (firstFreeWith_least pathExists
             (fun counter => Path.join (Path.dirname targetPath)
                               (counterName datePrefix (Path.extname targetPath)
                                            counter))); assumption.
  - apply (firstFreeWith_least pathExists
             (fun counter => Path.join (Path.dirname targetPath)
                               (counterName _ (Path.extname targetPath) counter)));
      assumption.
Qed.

(** Two instances.  With the counters 001 to 050 of a day taken by files,
    the name with the counter 001 becomes the one with the counter 051.  A
    source file [x] whose path in the target is the path of a folder
    becomes [x_001]. *)
Lemma findUniqueFilename_least_counter_witness :
  findUniqueFilenameWith
    (existsIn {| files :=
                   list_to_map
                     (map (fun c => (Path.join "/t/2023/01"
                                       (counterName "2023-01-15" ".jpg" c),
                                     plainFile 1 0)) (zrange 1 50));
                 clock := 0 |} ["/t"; "/t/2023"; "/t/2023/01"])
    51 "/t/2023/01/2023-01-15_001.jpg"
  = Some "/t/2023/01/2023-01-15_051.jpg"
  /\ findUniqueFilenameWith
       (existsIn {| files := {[ "/t/x/a.jpg" := plainFile 1 0 ]}; clock := 0 |}
                 ["/t"; "/t/x"])
       1 "/t/x"
     = Some "/t/x_001".
Proof.
  split.
  - apply (findUniqueFilename_least_counter _ "/t/2023/01/2023-01-15_001.jpg" 51).
    + vm_compute. reflexivity.
    + vm_compute. discriminate.
    + vm_compute. reflexivity.
    + intros c' Hc'.
      assert (Hin : In c' (zrange 2 49)).
      { change (firstCounter "/t/2023/01/2023-01-15_001.jpg") with 2 in Hc'.
        assert (G : forall n lo x, lo <= x < lo + Z.of_nat n -> In x (zrange lo n)).
        { induction n as [|n IH]; intros lo x Hx; [lia|]. cbn.
          destruct (Z.eq_dec lo x) as [->|Hne]; [now left|].
          right. apply IH. lia. }
        apply G. lia. }
      clear Hc'. revert c' Hin.
      match goal with
      | |- forall c', In c' ?l -> ?f (numberedPath ?p c') = true =>
          apply (proj1 (forallb_forall (fun c' => f (numberedPath p c')) l))
      end.
      vm_compute. reflexivity.
    + vm_compute. lia.
  - apply (findUniqueFilename_least_counter _ "/t/x" 1).
    + vm_compute. reflexivity.
    + vm_compute. discriminate.
    + vm_compute. reflexivity.
    + intros c' Hc'. change (firstCounter "/t/x") with 1 in Hc'. lia.
    + vm_compute. lia.
Defined.

(** ** New names of organised files *)

Lemma generateNewPath_unfold (o : Organizer) (w : World) (originalPath : string)
    (creationDate : JsDate.t) :
  generateNewPath o w originalPath creationDate
  = generateLoop 9999 w (newPathDir o originalPath creationDate)
      (newBaseFilename o creationDate) (Path.lower (Path.extname originalPath))
      originalPath 1
      (counterName (newBaseFilename o creationDate)
                   (Path.lower (Path.extname originalPath)) 1)
      (newPathCandidate o originalPath creationDate 1).
Proof. reflexivity. Qed.

Lemma generateNewPathWith_unfold (pathExists : string -> bool)
    (ensureDir : string -> outcome unit) (o : Organizer) (originalPath : string)
    (creationDate : JsDate.t) :
  generateNewPathWith pathExists ensureDir o originalPath creationDate
  = match ensureDir (newPathDir o originalPath creationDate) with
    | Throws => Some Throws
    | Returns _ =>
        generateLoopWith pathExists 9999 (newPathDir o originalPath creationDate)
          (newBaseFilename o creationDate) (Path.lower (Path.extname originalPath))
          originalPath 1
          (counterName (newBaseFilename o creationDate)
                       (Path.lower (Path.extname originalPath)) 1)
          (newPathCandidate o originalPath creationDate 1)
    end.
Proof. reflexivity. Qed.

(** The loop of the organizer is the loop for any answers of
    [fs.pathExists], at the test for a regular file. *)
Lemma generateLoop_With (w : World) (targetDir baseFilename ext originalPath : string)
    (fuel : nat) :
  forall counter newFilename newPath,
    generateLoop fuel w targetDir baseFilename ext originalPath
                 counter newFilename newPath
    = generateLoopWith (Fs.pathExists w) fuel targetDir baseFilename ext
                       originalPath counter newFilename newPath.
Proof.
  induction fuel as [|fuel IH]; intros counter newFilename newPath; cbn;
    [reflexivity|].
  now rewrite IH.
Qed.

Lemma generateNewPath_With (o : Organizer) (w : World) (originalPath : string)
    (creationDate : JsDate.t) :
  generateNewPath o w originalPath creationDate
  = generateNewPathWith (Fs.pathExists w) (fun _ => Returns tt) o originalPath
                        creationDate.
Proof.
  rewrite generateNewPath_unfold, generateNewPathWith_unfold.
  apply generateLoop_With.
Qed.

(** The loop returns the first candidate that is not taken, if there is one
    up to 9999. *)
Lemma generateLoopWith_first (pathExists : string -> bool)
    (targetDir baseFilename ext originalPath : string) (c : Z) :
  c <= 9999 ->
  takenWith pathExists originalPath
            (Path.join targetDir (counterName baseFilename ext c)) = false ->
  forall fuel counter,
    counter <= c -> (Z.to_nat (9999 - counter) <= fuel)%nat ->
    (forall c', counter <= c' < c ->
       takenWith pathExists originalPath
                 (Path.join targetDir (counterName baseFilename ext c')) = true) ->
    generateLoopWith pathExists fuel targetDir baseFilename ext originalPath counter
      (counterName baseFilename ext counter)
      (Path.join targetDir (counterName baseFilename ext counter))
    = Some (Returns (Path.join targetDir (counterName baseFilename ext c),
                     counterName baseFilename ext c)).
Proof.
  intros Hc Hfree. unfold takenWith in *.
  induction fuel as [|fuel IH]; intros counter Hle Hfuel Htaken; cbn.
  - destruct (Z.eq_dec counter c) as [->|Hne]; [now rewrite Hfree|].
    exfalso. lia.
  - destruct (Z.eq_dec counter c) as [->|Hne]; [now rewrite Hfree|].
    rewrite Htaken by lia.
    destruct (counter + 1 >? 9999) eqn:E.
    + rewrite Z.gtb_ltb in E. apply Z.ltb_lt in E. lia.
    + apply IH; [lia|lia|]. intros c' Hc'. apply Htaken. lia.
Qed.

(** The loop throws when every candidate up to 9999 is taken. *)
Lemma generateLoopWith_exhausted (pathExists : string -> bool)
    (targetDir baseFilename ext originalPath : string) :
  forall fuel counter,
    counter <= 9999 -> (Z.to_nat (9999 - counter) <= fuel)%nat ->
    (forall c', counter <= c' <= 9999 ->
       takenWith pathExists originalPath
                 (Path.join targetDir (counterName baseFilename ext c')) = true) ->
    generateLoopWith pathExists fuel targetDir baseFilename ext originalPath counter
      (counterName baseFilename ext counter)
      (Path.join targetDir (counterName baseFilename ext counter))
    = Some Throws.
Proof.
  unfold takenWith.
  induction fuel as [|fuel IH]; intros counter Hle Hfuel Htaken; cbn;
    rewrite Htaken by lia;
    destruct (counter + 1 >? 9999) eqn:E; try reflexivity;
    rewrite Z.gtb_ltb in E; apply Z.ltb_ge in E.
  - lia.
  - apply IH; [lia|lia|]. intros c' Hc'. apply Htaken. lia.
Qed.

Lemma generateLoop_first (w : World) (targetDir baseFilename ext originalPath : string)
    (c : Z) :
  c <= 9999 ->
  taken w originalPath (Path.join targetDir (counterName baseFilename ext c)) = false ->
  forall fuel counter,
    counter <= c -> (Z.to_nat (9999 - counter) <= fuel)%nat ->
    (forall c', counter <= c' < c ->
       taken w originalPath (Path.join targetDir (counterName baseFilename ext c')) = true) ->
    generateLoop fuel w targetDir baseFilename ext originalPath counter
      (counterName baseFilename ext counter)
      (Path.join targetDir (counterName baseFilename ext counter))
    = Some (Returns (Path.join targetDir (counterName baseFilename ext c),
                     counterName baseFilename ext c)).
Proof.
  intros Hc Hfree fuel counter Hle Hfuel Htaken. rewrite generateLoop_With.
  now apply (generateLoopWith_first (Fs.pathExists w)).
Qed.

(** X3.  Whatever [fs.ensureDir] does and [fs.pathExists] answers:
    [generateNewPath] throws when [fs.ensureDir] throws for the folder of
    the new names; otherwise it tries the counters 1, 2, ... of the dated
    name in order, returns the candidate of the least counter that is not
    taken (nothing has that name, or it is the very file being renamed),
    and throws exactly when the candidates of all the counters from 1 to
    9999 are taken. *)
Theorem generateNewPath_first_free_or_throws (pathExists : string -> bool)
    (ensureDir : string -> outcome unit) (o : Organizer)
    (originalPath : string) (creationDate : JsDate.t) :
  let candidate := newPathCandidate o originalPath creationDate in
  let targetDir := newPathDir o originalPath creationDate in
  (generateNewPathWith pathExists ensureDir o originalPath creationDate
   = Some Throws
   <-> ensureDir targetDir = Throws
       \/ forall c, 1 <= c <= 9999 ->
            takenWith pathExists originalPath (candidate c) = true)
  /\ (forall c,
        ensureDir targetDir = Returns tt ->
        1 <= c <= 9999 ->
        takenWith pathExists originalPath (candidate c) = false ->
        (forall c', 1 <= c' < c ->
           takenWith pathExists originalPath (candidate c') = true) ->
        generateNewPathWith pathExists ensureDir o originalPath creationDate
        = Some (Returns (candidate c,
                         counterName (newBaseFilename o creationDate)
                           (Path.lower (Path.extname originalPath)) c))).
Proof.
  cbv zeta. rewrite generateNewPathWith_unfold.
  assert (Hfirst : forall c,
    1 <= c <= 9999 ->
    takenWith pathExists originalPath
              (newPathCandidate o originalPath creationDate c) = false ->
    (forall c', 1 <= c' < c ->
       takenWith pathExists originalPath
                 (newPathCandidate o originalPath creationDate c') = true) ->
    generateLoopWith pathExists 9999 (newPathDir o originalPath creationDate)
      (newBaseFilename o creationDate) (Path.lower (Path.extname originalPath))
      originalPath 1
      (counterName (newBaseFilename o creationDate)
                   (Path.lower (Path.extname originalPath)) 1)
      (newPathCandidate o originalPath creationDate 1)
    = Some (Returns (newPathCandidate o originalPath creationDate c,
                     counterName (newBaseFilename o creationDate)
                       (Path.lower (Path.extname originalPath)) c))).
  { intros c Hc Hfree Hbelow.
    apply (generateLoopWith_first pathExists _ _ _ originalPath c);
      try lia; try assumption.
    apply Nat.leb_le. vm_compute. reflexivity. }
  destruct (ensureDir (newPathDir o originalPath creationDate)) as [[]|] eqn:Hdir.
  2:{ split; [split; auto|]. intros c [=]. }
  split; [|intros c _; apply Hfirst]. split.
  - intros Hthrows. right.
    (* otherwise a least counter that is not taken would be returned *)
    assert (G : forall n c, 1 <= c <= Z.of_nat n -> c <= 9999 ->
              takenWith pathExists originalPath
                        (newPathCandidate o originalPath creationDate c) = true).
    { induction n as [|n IH]; intros c Hc Hmax; [lia|].
      destruct (takenWith pathExists originalPath
                  (newPathCandidate o originalPath creationDate c)) eqn:E;
        [reflexivity|].
      exfalso.
      assert (Hbelow : forall c', 1 <= c' < c ->
                takenWith pathExists originalPath
                  (newPathCandidate o originalPath creationDate c') = true)
        by (intros c' Hc'; apply IH; lia).
      rewrite (Hfirst c ltac:(lia) E Hbelow) in Hthrows. discriminate. }
    intros c Hc. apply (G (Z.to_nat c)); lia.
  - intros [Hno|Hall]; [discriminate|].
    apply (generateLoopWith_exhausted pathExists _ _ _ originalPath);
      [lia| |exact Hall].
    apply Nat.leb_le. vm_compute. reflexivity.
Qed.

(** A file that is where one of its candidates is, with files at the
    candidates of the counters below, is given its own path again. *)
Lemma generateNewPath_in_place (o : Organizer) (w : World) (filePath : string)
    (creationDate : JsDate.t) (c : Z) :
  1 <= c <= 9999 ->
  newPathCandidate o filePath creationDate c = filePath ->
  (forall c', 1 <= c' < c ->
     is_Some (files w !! newPathCandidate o filePath creationDate c')) ->
  generateNewPath o w filePath creationDate
  = Some (Returns (filePath,
                   counterName (newBaseFilename o creationDate)
                               (Path.lower (Path.extname filePath)) c)).
Proof.
  intros Hc Hsame Hbelow. rewrite generateNewPath_unfold.
  transitivity
    (Some (Returns (newPathCandidate o filePath creationDate c,
                    counterName (newBaseFilename o creationDate)
                                (Path.lower (Path.extname filePath)) c)));
    [|now rewrite Hsame].
  apply (generateLoop_first w _ _ _ filePath c); try lia.
  - unfold taken. fold (newPathCandidate o filePath creationDate c).
    rewrite Hsame, String.eqb_refl. now destruct (Fs.pathExists w filePath).
  - apply Nat.leb_le. vm_compute. reflexivity.
  - intros c' Hc'. unfold taken.
    fold (newPathCandidate o filePath creationDate c').
    destruct (Hbelow c' Hc') as [x Hx]. unfold Fs.pathExists. rewrite Hx. cbn.
    apply negb_true_iff, String.eqb_neq. intros E.
    rewrite <- Hsame in E at 2. unfold newPathCandidate in E.
    apply candidate_inj in E; lia.
Qed.

(** ** What the merge does to the files *)

Lemma write_other (w : World) (p q : string) (f : File) :
  q <> p -> files (Fs.write w p f) !! q = files w !! q.
Proof. intros Hne. unfold Fs.write. cbn. now apply lookup_insert_ne. Qed.

Lemma write_same (w : World) (p : string) (f : File) :
  files (Fs.write w p f) !! p = Some f.
Proof. unfold Fs.write. cbn. apply lookup_insert_eq. Qed.

Lemma updateHashCache_other (bp : BatchProcessor) (w : World)
    (newEntries : StrMap jsval) (allHashes : ValMap string) (q : string) :
  q <> hashCacheFile bp ->
  files (updateHashCache bp w newEntries allHashes) !! q = files w !! q.
Proof. intros Hne. unfold updateHashCache, Fs.writeJson. now apply write_other. Qed.

Lemma updateCacheWithNewFiles_other (bp : BatchProcessor) (w : World)
    (index : ValMap string) (q : string) :
  q <> hashCacheFile bp ->
  files (updateCacheWithNewFiles bp w index) !! q = files w !! q.
Proof. intros Hne. unfold updateCacheWithNewFiles, Fs.writeJson. now apply write_other. Qed.

(** Building the index writes no file but the cache file. *)
Lemma buildTargetHashDatabase_other `{Md5} (bp : BatchProcessor) (w : World) (q : string) :
  q <> hashCacheFile bp ->
  files (snd (buildTargetHashDatabase bp w)) !! q = files w !! q.
Proof.
  intros Hne. unfold buildTargetHashDatabase.
  destruct (negb (Fs.dirExists w (targetDirectory bp))); [reflexivity|].
  unfold buildTargetWith.
  destruct (Fs.scan w (targetDirectory bp)) as [|f fs]; [reflexivity|].
  destruct (splitByCache _ _ _) as [valid toHash].
  destruct toHash as [|g gs]; [reflexivity|].
  destruct (hashRemaining _ _ _ _) as [valid' entries]. cbn [snd].
  now apply updateHashCache_other.
Qed.

(** Building the index removes no file. *)
Lemma buildTargetHashDatabase_keeps `{Md5} (bp : BatchProcessor) (w : World) (q : string) :
  is_Some (files w !! q) ->
  is_Some (files (snd (buildTargetHashDatabase bp w)) !! q).
Proof.
  intros Hq. destruct (String.string_dec q (hashCacheFile bp)) as [->|Hne].
  - unfold buildTargetHashDatabase.
    destruct (negb (Fs.dirExists w (targetDirectory bp))); [exact Hq|].
    unfold buildTargetWith.
    destruct (Fs.scan w (targetDirectory bp)) as [|f fs]; [exact Hq|].
    destruct (splitByCache _ _ _) as [valid toHash].
    destruct toHash as [|g gs]; [exact Hq|].
    destruct (hashRemaining _ _ _ _) as [valid' entries]. cbn [snd].
    unfold updateHashCache, Fs.writeJson. rewrite write_same. eauto.
  - now rewrite buildTargetHashDatabase_other.
Qed.

(** One turn of the loop: the files in place stay as they are; a copy goes
    to a path that was free and has the content of its source. *)
Lemma copyStep_files (bp : BatchProcessor) (sourcePath : string)
    (sourceHashes : StrMap string) (s s' : Merge) (sourceFile : string) (a : Action) :
  copyStep bp sourcePath sourceHashes s sourceFile = Some (Returns (a, s')) ->
  actionSource a = sourceFile
  /\ (forall q, is_Some (files (world s) !! q) ->
        files (world s') !! q = files (world s) !! q)
  /\ (forall sf final, a = Copy sf final ->
        files (world s) !! final = None
        /\ exists f f', files (world s) !! sf = Some f
                        /\ files (world s') !! final = Some f'
                        /\ sameContent f' f)
  /\ copiedCount s' = (copiedCount s + if isCopy a then 1 else 0)%nat
  /\ duplicatesSkipped (globalStats s')
     = (duplicatesSkipped (globalStats s) + if isSkip a then 1 else 0)%nat.
Proof.
  unfold copyStep.
  destruct (JsMap.get String.eqb sourceHashes sourceFile) as [h|] eqn:Hh.
  - destruct (String.eqb h "").
    { intros [= <- <-]. cbn. repeat split; auto; try lia; discriminate. }
    destruct (JsMap.has Js.same (targetHashes s) (Js.str h)) eqn:Hhas.
    { intros [= <- <-]. cbn. repeat split; auto; try lia; discriminate. }
    destruct (findUniqueFilename _ _) as [final|] eqn:Hfinal; [|discriminate].
    apply findUniqueFilename_free in Hfinal.
    unfold Fs.pathExists in Hfinal.
    destruct (files (world s) !! final) eqn:Hfree; [discriminate|].
    unfold Fs.copy.
    destruct (files (world s) !! sourceFile) as [f|] eqn:Hf; [|discriminate].
    intros [= <- <-]. cbn [world copiedCount globalStats duplicatesSkipped
                            actionSource isCopy isSkip].
    split; [reflexivity|]. split.
    { intros q [x Hq]. apply write_other. intros ->. congruence. }
    split; [|split; lia].
    intros sf final' [= <- <-]. split; [exact Hfree|].
    eexists f, _. split; [exact Hf|]. split; [apply write_same|].
    repeat split.
  - intros [= <- <-]. cbn. repeat split; auto; try lia; discriminate.
Qed.

Lemma copyTargets_In (acts : list Action) (final : string) :
  In final (copyTargets acts) <-> exists sf, In (Copy sf final) acts.
Proof.
  unfold copyTargets. rewrite <- list_elem_of_In, list_elem_of_omap. split.
  - intros (a & Ha & Hf). destruct a as [x|x|x y]; try discriminate.
    injection Hf as ->. exists x. now apply list_elem_of_In.
  - intros (sf & Hin). exists (Copy sf final). split; [|reflexivity].
    now apply list_elem_of_In.
Qed.

(** The loop as a whole: one action for each source file, in order; the
    files in place stay as they are; the copies go to distinct paths that
    were free, each with the content of its source; and the counters count
    the copies and the skips. *)
Lemma copyLoop_files (bp : BatchProcessor) (sourcePath : string)
    (sourceHashes : StrMap string) (sourceFiles : list string) :
  forall s0 acts s,
    copyLoop bp sourcePath sourceHashes sourceFiles s0 = Some (Returns (acts, s)) ->
    (forall sf, In sf sourceFiles -> is_Some (files (world s0) !! sf)) ->
    map actionSource acts = sourceFiles
    /\ (forall q, is_Some (files (world s0) !! q) ->
          files (world s) !! q = files (world s0) !! q)
    /\ copiedCount s = (copiedCount s0 + length (List.filter isCopy acts))%nat
    /\ duplicatesSkipped (globalStats s)
       = (duplicatesSkipped (globalStats s0) + length (List.filter isSkip acts))%nat
    /\ NoDup (copyTargets acts)
    /\ (forall sf final, In (Copy sf final) acts ->
          files (world s0) !! final = None
          /\ exists f f', files (world s0) !! sf = Some f
                          /\ files (world s) !! final = Some f'
                          /\ sameContent f' f).
Proof.
  induction sourceFiles as [|f0 rest IH]; intros s0 acts s; cbn [copyLoop].
  - intros [= <- <-] _. cbn. repeat split; auto using NoDup_nil_2; try lia.
    all: intros ? ? [].
  - destruct (copyStep bp sourcePath sourceHashes s0 f0) as [[[a s1]|]|] eqn:Hstep;
      [|discriminate|discriminate].
    destruct (copyLoop bp sourcePath sourceHashes rest s1) as [[[acts' s']|]|] eqn:Hloop;
      [|discriminate|discriminate].
    intros [= <- <-] Hsrc.
    apply copyStep_files in Hstep as (Ha & Hkeep1 & Hcopy1 & Hcount1 & Hskip1).
    assert (Hsrc1 : forall sf, In sf rest -> is_Some (files (world s1) !! sf)).
    { intros sf Hin. rewrite Hkeep1; apply Hsrc; now right. }
    destruct (IH s1 acts' s' Hloop Hsrc1) as (I1 & I2 & I3 & I4 & I5 & I6).
    split; [cbn; now rewrite Ha, I1|]. split.
    { intros q Hq. rewrite I2 by (rewrite Hkeep1; exact Hq). now apply Hkeep1. }
    split; [cbn [List.filter]; destruct (isCopy a); cbn [length]; lia|].
    split; [cbn [List.filter]; destruct (isSkip a); cbn [length]; lia|].
    split.
    { unfold copyTargets. cbn [omap].
      destruct a as [x|x|x final]; try exact I5.
      cbn. apply NoDup_cons. split; [|exact I5].
      intros Hin. apply list_elem_of_In, copyTargets_In in Hin as [sf Hin].
      destruct (I6 sf final Hin) as [Hfree _].
      destruct (Hcopy1 x final eq_refl) as (_ & f & f' & _ & Hnew & _).
      congruence. }
    intros sf final [->|Hin].
    + destruct (Hcopy1 sf final eq_refl) as (Hfree & f & f' & Hf & Hnew & Hsame).
      split; [exact Hfree|]. exists f, f'. split; [exact Hf|]. split; [|exact Hsame].
      rewrite I2 by (rewrite Hnew; eauto). exact Hnew.
    + destruct (I6 sf final Hin) as (Hfree & f & f' & Hf & Hnew & Hsame).
      assert (Hfree0 : files (world s0) !! final = None).
      { destruct (files (world s0) !! final) eqn:E; [|reflexivity].
        rewrite Hkeep1 in Hfree by (rewrite E; eauto). congruence. }
      split; [exact Hfree0|]. exists f, f'. split; [|auto].
      assert (Hin' : In sf rest).
      { rewrite <- I1. apply in_map_iff. now exists (Copy sf final). }
      rewrite <- Hkeep1; [exact Hf|]. apply Hsrc. now right.
Qed.

Lemma scan_exists (w : World) (dir p : string) :
  In p (Fs.scan w dir) -> is_Some (files w !! p).
Proof.
  unfold Fs.scan. intros Hin. apply filter_In in Hin as [Hin _].
  apply in_map_iff in Hin as ([q f] & <- & Hin).
  apply list_elem_of_In, elem_of_map_to_list in Hin. cbn. eauto.
Qed.

(** A run of the merge, taken apart. *)
Lemma copyOrganizedFiles_inv `{Md5} (bp : BatchProcessor) (w : World)
    (gs : GlobalStats) (sourcePath : string) (acts : list Action) (s : Merge) :
  copyOrganizedFiles bp w gs sourcePath = Some (Returns (acts, s)) ->
  exists s1,
    copyLoop bp sourcePath (buildHashDatabase w (Fs.scan w sourcePath))
      (Fs.scan w sourcePath)
      {| world := snd (buildTargetHashDatabase bp w);
         targetHashes := fst (buildTargetHashDatabase bp w);
         copiedCount := 0; globalStats := gs |}
    = Some (Returns (acts, s1))
    /\ targetHashes s = targetHashes s1
    /\ copiedCount s = copiedCount s1
    /\ globalStats s = globalStats s1
    /\ world s = (if (0 <? copiedCount s1)%nat
                  then updateCacheWithNewFiles bp (world s1) (targetHashes s1)
                  else world s1).
Proof.
  unfold copyOrganizedFiles.
  destruct (buildTargetHashDatabase bp w) as [index w1]. cbn [fst snd].
  destruct (copyLoop _ _ _ _ _) as [[[acts' s1]|]|]; [|discriminate|discriminate].
  intros [= <- <-]. exists s1. cbn. auto.
Qed.

Lemma merge_world_other `{Md5} (bp : BatchProcessor) (s1 : Merge) (q : string) :
  q <> hashCacheFile bp ->
  files (if (0 <? copiedCount s1)%nat
         then updateCacheWithNewFiles bp (world s1) (targetHashes s1)
         else world s1) !! q = files (world s1) !! q.
Proof.
  intros Hne. destruct (0 <? copiedCount s1)%nat; [|reflexivity].
  now apply updateCacheWithNewFiles_other.
Qed.

(** X4.  The merge overwrites and removes nothing: every file that was in
    place before a run, in the source, in the target or elsewhere, is there
    unchanged after it; only the cache file is rewritten. *)
Theorem merge_leaves_files_in_place `{Md5} (bp : BatchProcessor) (w : World)
    (gs : GlobalStats) (sourcePath : string) (acts : list Action) (s : Merge)
    (q : string) (f : File) :
  copyOrganizedFiles bp w gs sourcePath = Some (Returns (acts, s)) ->
  q <> hashCacheFile bp ->
  files w !! q = Some f ->
  files (world s) !! q = Some f.
Proof.
  intros Hrun Hne Hq.
  apply copyOrganizedFiles_inv in Hrun as (s1 & Hloop & _ & _ & _ & ->).
  rewrite merge_world_other by exact Hne.
  apply copyLoop_files in Hloop as (_ & Hkeep & _); cbn [world] in *.
  - rewrite Hkeep; rewrite buildTargetHashDatabase_other by exact Hne;
      rewrite Hq; eauto.
  - intros sf Hin. apply buildTargetHashDatabase_keeps. now apply scan_exists in Hin.
Qed.

(** An instance: the file of the target whose name a source file has. *)
Lemma merge_leaves_files_in_place_witness :
  files (worldAfter twoAlike
           (copyOrganizedFiles (H := plainDigest) exampleBatch twoAlike
              noGlobalStats "/s")) !! "/t/2021/05/2021-05-01_001.jpg"
  = Some (plainFile 6 4).
Proof.
  destruct (copyOrganizedFiles (H := plainDigest) exampleBatch twoAlike
              noGlobalStats "/s") as [[[acts s]|]|] eqn:E.
  - cbn [worldAfter].
    apply (@merge_leaves_files_in_place plainDigest exampleBatch twoAlike
             noGlobalStats "/s" acts s _ _ E).
    + vm_compute. discriminate.
    + vm_compute. reflexivity.
  - vm_compute in E. discriminate.
  - vm_compute in E. discriminate.
Defined.

(** X5.  What the merge copies: every copy goes to a path where no file
    was, no two copies go to the same path, and after the run the file at
    that path has the size, the metadata and the content of its source file.
    (The cache file is set apart: the run rewrites it at the end.) *)
Theorem merge_copies_are_faithful `{Md5} (bp : BatchProcessor) (w : World)
    (gs : GlobalStats) (sourcePath : string) (acts : list Action) (s : Merge) :
  copyOrganizedFiles bp w gs sourcePath = Some (Returns (acts, s)) ->
  NoDup (copyTargets acts)
  /\ forall sf final, In (Copy sf final) acts ->
       In sf (Fs.scan w sourcePath)
       /\ files w !! final = None
       /\ (sf <> hashCacheFile bp -> final <> hashCacheFile bp ->
           exists f f', files w !! sf = Some f
                        /\ files (world s) !! final = Some f'
                        /\ sameContent f' f).
Proof.
  intros Hrun.
  apply copyOrganizedFiles_inv in Hrun as (s1 & Hloop & _ & _ & _ & Hw).
  apply copyLoop_files in Hloop as (Hsrc & _ & _ & _ & Hnd & Hcopy); cbn [world] in *.
  2:{ intros sf Hin. apply buildTargetHashDatabase_keeps. now apply scan_exists in Hin. }
  split; [exact Hnd|]. intros sf final Hin.
  destruct (Hcopy sf final Hin) as (Hfree & f & f' & Hf & Hnew & Hsame).
  split; [|split].
  - rewrite <- Hsrc. apply in_map_iff. now exists (Copy sf final).
  - destruct (files w !! final) eqn:E; [|reflexivity].
    assert (Hk : is_Some (files (snd (buildTargetHashDatabase bp w)) !! final)).
    { apply buildTargetHashDatabase_keeps. rewrite E. eauto. }
    rewrite Hfree in Hk. now destruct Hk.
  - intros Hsf Hfinal. exists f, f'.
    rewrite buildTargetHashDatabase_other in Hf by exact Hsf.
    split; [exact Hf|]. split; [|exact Hsame].
    rewrite Hw, merge_world_other by exact Hfinal. exact Hnew.
Qed.

(** An instance: the one copy of the example run. *)
Lemma merge_copies_are_faithful_witness :
  exists acts s,
    copyOrganizedFiles (H := plainDigest) exampleBatch twoAlike noGlobalStats "/s"
    = Some (Returns (acts, s))
    /\ NoDup (copyTargets acts)
    /\ forall sf final, In (Copy sf final) acts ->
         In sf (Fs.scan twoAlike "/s")
         /\ files twoAlike !! final = None
         /\ (sf <> hashCacheFile exampleBatch -> final <> hashCacheFile exampleBatch ->
             exists f f', files twoAlike !! sf = Some f
                          /\ files (world s) !! final = Some f'
                          /\ sameContent f' f).
Proof.
  destruct (copyOrganizedFiles (H := plainDigest) exampleBatch twoAlike
              noGlobalStats "/s") as [[[acts s]|]|] eqn:E.
  - exists acts, s. split; [reflexivity|].
    exact (@merge_copies_are_faithful plainDigest exampleBatch twoAlike
             noGlobalStats "/s" acts s E).
  - vm_compute in E. discriminate.
  - vm_compute in E. discriminate.
Defined.

(** The loop completes when the files it is given exist. *)
Lemma copyLoop_returns (bp : BatchProcessor) (sourcePath : string)
    (sourceHashes : StrMap string) (sourceFiles : list string) :
  forall s0,
    (forall sf, In sf sourceFiles -> is_Some (files (world s0) !! sf)) ->
    exists acts s,
      copyLoop bp sourcePath sourceHashes sourceFiles s0 = Some (Returns (acts, s)).
Proof.
  induction sourceFiles as [|f0 rest IH]; intros s0 Hsrc; cbn [copyLoop]; [eauto|].
  assert (Hstep : exists a s1,
             copyStep bp sourcePath sourceHashes s0 f0 = Some (Returns (a, s1))).
  { unfold copyStep.
    destruct (JsMap.get String.eqb sourceHashes f0) as [h|]; [|eauto].
    destruct (String.eqb h ""); [eauto|].
    destruct (JsMap.has Js.same (targetHashes s0) (Js.str h)); [eauto|].
    destruct (findUniqueFilename_total (world s0)
                (Path.join (targetDirectory bp) (Path.relative sourcePath f0)))
      as [final ->].
    unfold Fs.copy. destruct (Hsrc f0 (or_introl eq_refl)) as [f ->]. eauto. }
  destruct Hstep as (a & s1 & Hstep). rewrite Hstep.
  apply copyStep_files in Hstep as (_ & Hkeep & _).
  destruct (IH s1) as (acts & s & ->); [|eauto].
  intros sf Hin. rewrite Hkeep; apply Hsrc; now right.
Qed.

(** Where no folder is in the way, the run returns, with one action for
    every file of the source folder. *)
Lemma copyOrganizedFiles_counts `{Md5} (bp : BatchProcessor) (w : World)
    (gs : GlobalStats) (sourcePath : string) :
  exists acts s,
    copyOrganizedFiles bp w gs sourcePath = Some (Returns (acts, s))
    /\ map actionSource acts = Fs.scan w sourcePath
    /\ copiedCount s = length (List.filter isCopy acts)
    /\ duplicatesSkipped (globalStats s)
       = (duplicatesSkipped gs + length (List.filter isSkip acts))%nat.
Proof.
  set (s0 := {| world := snd (buildTargetHashDatabase bp w);
                targetHashes := fst (buildTargetHashDatabase bp w);
                copiedCount := 0; globalStats := gs |}).
  assert (Hsrc : forall sf, In sf (Fs.scan w sourcePath) ->
                            is_Some (files (world s0) !! sf)).
  { intros sf Hin. apply buildTargetHashDatabase_keeps. now apply scan_exists in Hin. }
  destruct (copyLoop_returns bp sourcePath
              (buildHashDatabase w (Fs.scan w sourcePath)) _ s0 Hsrc)
    as (acts & s1 & Hloop).
  pose proof (copyLoop_files _ _ _ _ _ _ _ Hloop Hsrc) as (Hmap & _ & Hc & Hs & _).
  exists acts. unfold copyOrganizedFiles.
  destruct (buildTargetHashDatabase bp w) as [index w1]. cbn [fst snd] in *.
  subst s0. rewrite Hloop. eexists. split; [reflexivity|]. cbn.
  split; [exact Hmap|]. split; [exact Hc|exact Hs].
Qed.

(** X6.  A merge run that returns has decided once for every file of the
    source folder, in the order of the scan; the number it returns is the
    number of files it copied, and the counter of skipped duplicates has
    grown by the number of files it skipped. *)
Theorem merge_accounts_for_source_files `{Md5} (bp : BatchProcessor) (w : World)
    (gs : GlobalStats) (sourcePath : string) (acts : list Action) (s : Merge) :
  copyOrganizedFiles bp w gs sourcePath = Some (Returns (acts, s)) ->
  map actionSource acts = Fs.scan w sourcePath
  /\ copiedCount s = length (List.filter isCopy acts)
  /\ duplicatesSkipped (globalStats s)
     = (duplicatesSkipped gs + length (List.filter isSkip acts))%nat.
Proof.
  intros Hrun.
  destruct (copyOrganizedFiles_counts bp w gs sourcePath)
    as (acts' & s' & Hrun' & Hcounts).
  rewrite Hrun in Hrun'. injection Hrun' as <- <-. exact Hcounts.
Qed.

(** An instance: the merge of the example source. *)
Lemma merge_accounts_for_source_files_witness :
  exists acts s,
    copyOrganizedFiles (H := plainDigest) exampleBatch twoAlike noGlobalStats "/s"
    = Some (Returns (acts, s))
    /\ map actionSource acts = Fs.scan twoAlike "/s"
    /\ copiedCount s = length (List.filter isCopy acts)
    /\ duplicatesSkipped (globalStats s)
       = (duplicatesSkipped noGlobalStats + length (List.filter isSkip acts))%nat.
Proof.
  destruct (copyOrganizedFiles (H := plainDigest) exampleBatch twoAlike
              noGlobalStats "/s") as [[[acts s]|]|] eqn:E.
  - exists acts, s. split; [reflexivity|].
    exact (@merge_accounts_for_source_files plainDigest exampleBatch twoAlike
             noGlobalStats "/s" acts s E).
  - vm_compute in E. discriminate.
  - vm_compute in E. discriminate.
Defined.

(** X7.  After a run the index of the target holds the fingerprint of
    every file of the source folder that could be fingerprinted, copied or
    not, and it has lost none of the fingerprints the target had. *)
Theorem merge_index_covers_source `{Md5} (bp : BatchProcessor) (w : World)
    (gs : GlobalStats) (sourcePath : string) (acts : list Action) (s : Merge) :
  copyOrganizedFiles bp w gs sourcePath = Some (Returns (acts, s)) ->
  (forall k, JsMap.has Js.same (fst (buildTargetHashDatabase bp w)) k = true ->
             JsMap.has Js.same (targetHashes s) k = true)
  /\ forall sf h, In sf (Fs.scan w sourcePath) ->
       createFileFingerprint w sf = Returns h -> h <> "" ->
       JsMap.has Js.same (targetHashes s) (Js.str h) = true.
Proof.
  intros Hrun.
  apply copyOrganizedFiles_inv in Hrun as (s1 & Hloop & -> & _).
  apply copyLoop_covers in Hloop as [Hmono Hcov]. cbn [targetHashes] in Hmono.
  split; [exact Hmono|]. intros sf h Hin Hfp Hne.
  apply (Hcov sf h Hin); [|exact Hne].
  unfold buildHashDatabase. rewrite buildHashDatabase_get.
  destruct (in_dec String.string_dec sf (Fs.scan w sourcePath)) as [_|Hn];
    [|contradiction].
  now rewrite Hfp.
Qed.

(** An instance: the example run. *)
Lemma merge_index_covers_source_witness :
  exists acts s,
    copyOrganizedFiles (H := plainDigest) exampleBatch twoAlike noGlobalStats "/s"
    = Some (Returns (acts, s))
    /\ (forall k,
          JsMap.has Js.same
            (fst (buildTargetHashDatabase (H := plainDigest) exampleBatch twoAlike)) k
          = true ->
          JsMap.has Js.same (targetHashes s) k = true)
    /\ forall sf h, In sf (Fs.scan twoAlike "/s") ->
         createFileFingerprint (H := plainDigest) twoAlike sf = Returns h -> h <> "" ->
         JsMap.has Js.same (targetHashes s) (Js.str h) = true.
Proof.
  destruct (copyOrganizedFiles (H := plainDigest) exampleBatch twoAlike
              noGlobalStats "/s") as [[[acts s]|]|] eqn:E.
  - exists acts, s. split; [reflexivity|].
    exact (@merge_index_covers_source plainDigest exampleBatch twoAlike
             noGlobalStats "/s" acts s E).
  - vm_compute in E. discriminate.
  - vm_compute in E. discriminate.
Defined.

(** ** The index of the target *)

Lemma modTimesOf_get (w : World) (targetFiles : list string) (p : string) :
  In p targetFiles ->
  option_map JNum (JsMap.get String.eqb (modTimesOf w targetFiles) p)
  = currentModTimeOf w p.
Proof.
  unfold modTimesOf, currentModTimeOf.
  enough (G : forall acc,
    JsMap.get String.eqb
      (fold_left (fun m file =>
                    match Fs.stat w file with
                    | Returns stats => JsMap.set String.eqb m file (mtime stats)
                    | Throws => m
                    end) targetFiles acc) p
    = if in_dec String.string_dec p targetFiles
      then match files w !! p with
           | Some f => Some (mtime f)
           | None => JsMap.get String.eqb acc p
           end
      else JsMap.get String.eqb acc p).
  { intros Hin. rewrite G.
    destruct (in_dec String.string_dec p targetFiles); [|contradiction].
    now destruct (files w !! p). }
  induction targetFiles as [|q rest IH]; intros acc; cbn [fold_left].
  - now destruct (in_dec String.string_dec p []).
  - rewrite IH. unfold Fs.stat.
    destruct (in_dec String.string_dec p rest) as [Hin|Hin].
    + destruct (in_dec String.string_dec p (q :: rest)) as [_|Hn];
        [|exfalso; apply Hn; now right].
      destruct (files w !! p) eqn:Hp; [reflexivity|].
      destruct (String.string_dec q p) as [->|Hne].
      * now rewrite Hp.
      * destruct (files w !! q); [|reflexivity].
        now rewrite (get_set_ne _ String_eqb_sound).
    + destruct (String.string_dec q p) as [->|Hne].
      * destruct (in_dec String.string_dec p (p :: rest)) as [_|Hn];
          [|exfalso; apply Hn; now left].
        destruct (files w !! p); [|reflexivity].
        apply (get_set_eq _ ). apply String.eqb_refl.
      * destruct (in_dec String.string_dec p (q :: rest)) as [[?|?]|_];
          [contradiction|contradiction|].
        destruct (files w !! q); [|reflexivity].
        now rewrite (get_set_ne _ String_eqb_sound).
Qed.

Lemma keys_set_In {V : Type} (m : ValMap V) (k : jsval) (v : V) :
  In k (JsMap.keys (JsMap.set Js.same m k v)).
Proof.
  rewrite keys_set. unfold JsMap.has.
  destruct (JsMap.get Js.same m k) as [v0|] eqn:E.
  - apply (get_Some_In _ Js_same_sound) in E.
    unfold JsMap.keys. apply in_map_iff. now exists (k, v0).
  - apply in_or_app. right. now left.
Qed.

Lemma keys_set_mono {V : Type} (m : ValMap V) (k k' : jsval) (v : V) :
  In k' (JsMap.keys m) -> In k' (JsMap.keys (JsMap.set Js.same m k v)).
Proof.
  rewrite keys_set. destruct (JsMap.has Js.same m k); [auto|].
  intros Hin. apply in_or_app. now left.
Qed.

(** The loop that sorts the files of the target by the cache. *)
Lemma splitByCache_spec (cachedHashes : ValMap jsval) (w : World)
    (fileModTimes : StrMap Z) (targetFiles : list string) :
  (forall p, In p targetFiles ->
     option_map JNum (JsMap.get String.eqb fileModTimes p) = currentModTimeOf w p) ->
  forall acc,
    let r := fold_left (splitStep cachedHashes fileModTimes) targetFiles acc in
    (forall k, In k (JsMap.keys (fst acc)) -> In k (JsMap.keys (fst r)))
    /\ (forall p, In p (snd acc) -> In p (snd r))
    /\ (forall p, In p (JsMap.values (fst r)) ->
          In p (JsMap.values (fst acc)) \/ In p targetFiles)
    /\ (forall p, In p (snd r) -> In p (snd acc) \/ In p targetFiles)
    /\ (forall p, In p targetFiles ->
          if cacheCovers cachedHashes w p
          then In (cachedEntryOf cachedHashes p ≫= Js.prop "hash") (JsMap.keys (fst r))
          else In p (snd r)).
Proof.
  induction targetFiles as [|file rest IH]; intros Hmt acc; cbn [fold_left].
  - cbn zeta. repeat split; auto. intros p [].
  - assert (Hmt' : forall p, In p rest ->
              option_map JNum (JsMap.get String.eqb fileModTimes p)
              = currentModTimeOf w p) by (intros p Hp; apply Hmt; now right).
    specialize (IH Hmt' (splitStep cachedHashes fileModTimes acc file)).
    cbn zeta in *. destruct IH as (I1 & I2 & I3 & I4 & I5).
    assert (Hstep : splitStep cachedHashes fileModTimes acc file
                    = if cacheCovers cachedHashes w file
                      then (JsMap.set Js.same (fst acc)
                              (cachedEntryOf cachedHashes file ≫= Js.prop "hash") file,
                            snd acc)
                      else (fst acc, snd acc ++ [file])).
    { unfold splitStep, cacheCovers, cachedEntryOf. destruct acc as [v t].
      rewrite (Hmt file) by now left. reflexivity. }
    rewrite Hstep in *. clear Hstep.
    destruct (cacheCovers cachedHashes w file) eqn:Hc; cbn [fst snd] in *.
    + split; [intros k Hk; apply I1; now apply keys_set_mono|].
      split; [auto|].
      split.
      { intros p Hp. destruct (I3 p Hp) as [Hv|Hr]; [|right; now right].
        apply (values_set Js.same) in Hv as [->|Hv]; [right; now left|now left]. }
      split; [intros p Hp; destruct (I4 p Hp); [now left|right; now right]|].
      intros p [<-|Hp]; [|now apply I5].
      rewrite Hc. apply I1. apply keys_set_In.
    + split; [auto|].
      split; [intros p Hp; apply I2; apply in_or_app; now left|].
      split; [intros p Hp; destruct (I3 p Hp); [now left|right; now right]|].
      split.
      { intros p Hp. destruct (I4 p Hp) as [Hv|Hr]; [|right; now right].
        apply in_app_or in Hv as [Hv|[<-|[]]]; [now left|right; now left]. }
      intros p [<-|Hp]; [|now apply I5].
      rewrite Hc. apply I2. apply in_or_app. right. now left.
Qed.

(** The loop that fingerprints the files the cache does not cover. *)
Lemma hashRemaining_spec `{Md5} (w : World) (fileModTimes : StrMap Z)
    (filesToHash : list string) :
  forall acc,
    let r := fold_left (hashRemainingStep w fileModTimes) filesToHash acc in
    (forall k, In k (JsMap.keys (fst acc)) -> In k (JsMap.keys (fst r)))
    /\ (forall k, JsMap.has Js.same (fst acc) k = true ->
                  JsMap.has Js.same (fst r) k = true)
    /\ (forall p, In p (JsMap.values (fst r)) ->
          In p (JsMap.values (fst acc)) \/ In p filesToHash)
    /\ (forall p h, In p filesToHash -> createFileFingerprint w p = Returns h ->
          JsMap.has Js.same (fst r) (Js.str h) = true).
Proof.
  induction filesToHash as [|file rest IH]; intros acc; cbn [fold_left].
  - cbn zeta. repeat split; auto.
  - specialize (IH (hashRemainingStep w fileModTimes acc file)).
    cbn zeta in *. destruct IH as (I1 & I2 & I3 & I4).
    remember (hashRemainingStep w fileModTimes acc file) as acc1 eqn:Hacc1.
    assert (A : (forall k, In k (JsMap.keys (fst acc)) -> In k (JsMap.keys (fst acc1)))
                /\ (forall k, JsMap.has Js.same (fst acc) k = true ->
                              JsMap.has Js.same (fst acc1) k = true)
                /\ (forall p, In p (JsMap.values (fst acc1)) ->
                      p = file \/ In p (JsMap.values (fst acc)))
                /\ (forall h, createFileFingerprint w file = Returns h ->
                      JsMap.has Js.same (fst acc1) (Js.str h) = true)).
    { subst acc1. destruct acc as [v e]. unfold hashRemainingStep.
      destruct (createFileFingerprint w file) as [h0|]; cbn [fst snd].
      - split; [intros k Hk; now apply keys_set_mono|].
        split; [intros k Hk; now apply has_set_mono|].
        split; [intros p Hp; now apply (values_set Js.same) in Hp|].
        intros h [= <-]. apply (has_set_eq Js.same). cbn. apply String.eqb_refl.
      - repeat split; auto. discriminate. }
    clear Hacc1. destruct A as (A1 & A2 & A3 & A4).
    split; [auto|]. split; [auto|]. split.
    { intros p Hp. destruct (I3 p Hp) as [Hv|Hr]; [|right; now right].
      destruct (A3 p Hv) as [->|Hv']; [right; now left|now left]. }
    intros p h [<-|Hp] Hh; [apply I2; now apply A4|now apply (I4 p)].
Qed.

(** The index of the target, by the cache. *)
Lemma buildTargetHashDatabase_index `{Md5} (bp : BatchProcessor) (w : World) :
  (forall p, In p (JsMap.values (fst (buildTargetHashDatabase bp w))) ->
             In p (Fs.scan w (targetDirectory bp)))
  /\ (forall p, In p (Fs.scan w (targetDirectory bp)) ->
        if cacheCovers (loadHashCache bp w) w p
        then In (cachedEntryOf (loadHashCache bp w) p ≫= Js.prop "hash")
                (JsMap.keys (fst (buildTargetHashDatabase bp w)))
        else forall h, createFileFingerprint w p = Returns h ->
                       JsMap.has Js.same (fst (buildTargetHashDatabase bp w))
                                 (Js.str h) = true).
Proof.
  unfold buildTargetHashDatabase.
  destruct (negb (Fs.dirExists w (targetDirectory bp))) eqn:Hdir.
  { unfold Fs.dirExists in Hdir.
    destruct (Fs.scan w (targetDirectory bp)); [|discriminate].
    cbn. split; intros p []. }
  unfold buildTargetWith.
  destruct (Fs.scan w (targetDirectory bp)) as [|f0 fs] eqn:Hscan.
  { cbn. split; intros p []. }
  set (targetFiles := f0 :: fs).
  pose proof (splitByCache_spec (loadHashCache bp w) w (modTimesOf w targetFiles)
                targetFiles (fun p Hp => modTimesOf_get w targetFiles p Hp) ([], []))
    as (_ & _ & S3 & S4 & S5).
  cbn zeta in *. fold (splitByCache (loadHashCache bp w) (modTimesOf w targetFiles)
                         targetFiles) in *.
  destruct (splitByCache _ _ targetFiles) as [valid toHash]. cbn [fst snd] in *.
  destruct toHash as [|g gs] eqn:HtoHash.
  { cbn [fst]. split.
    - intros p Hp. destruct (S3 p Hp) as [[]|Hin]. exact Hin.
    - intros p Hp. specialize (S5 p Hp).
      destruct (cacheCovers _ w p); [exact S5|destruct S5]. }
  rewrite <- HtoHash in *.
  pose proof (hashRemaining_spec w (modTimesOf w targetFiles) toHash (valid, []))
    as (R1 & R2 & R3 & R4).
  cbn zeta in *. fold (hashRemaining w (modTimesOf w targetFiles) toHash valid) in *.
  rewrite HtoHash in *. rewrite <- HtoHash in *.
  destruct (hashRemaining _ _ toHash valid) as [index entries].
  replace (match toHash with [] => (valid, w) | _ :: _ =>
             (index, updateHashCache bp w entries index) end)
    with (index, updateHashCache bp w entries index) by (now rewrite HtoHash).
  cbn [fst snd] in *. split.
  - intros p Hp. destruct (R3 p Hp) as [Hv|Hin].
    + destruct (S3 p Hv) as [[]|Hin]. exact Hin.
    + destruct (S4 p Hin) as [[]|Hin']. exact Hin'.
  - intros p Hp. specialize (S5 p Hp).
    destruct (cacheCovers _ w p); [now apply R1|].
    intros h Hh. now apply (R4 p).
Qed.

(** X8.  The index [buildTargetHashDatabase] returns names only files of
    the target folder.  A file whose cached entry carries the modification
    time the file has now is indexed under the hash of that entry, without
    being read; every other file of the target that can be fingerprinted is
    indexed under its fingerprint. *)
Theorem target_index_trusts_valid_cache `{Md5} (bp : BatchProcessor) (w : World) :
  let index := fst (buildTargetHashDatabase bp w) in
  let cachedHashes := loadHashCache bp w in
  (forall p, In p (JsMap.values index) -> In p (Fs.scan w (targetDirectory bp)))
  /\ (forall p, In p (Fs.scan w (targetDirectory bp)) ->
        if cacheCovers cachedHashes w p
        then In (cachedEntryOf cachedHashes p ≫= Js.prop "hash") (JsMap.keys index)
        else forall h, createFileFingerprint w p = Returns h ->
                       JsMap.has Js.same index (Js.str h) = true).
Proof. cbn zeta. apply buildTargetHashDatabase_index. Qed.

(** ** The standalone removal of duplicates *)







Lemma removeAll_app (o : Organizer) (a b : list string) (ws : World * Stats) :
  removeAll o (a ++ b) ws = removeAll o b (removeAll o a ws).
Proof. unfold removeAll. apply fold_left_app. Qed.

Lemma removeAll_cons (o : Organizer) (q : string) (paths : list string)
    (w : World) (st : Stats) :
  removeAll o (q :: paths) (w, st)
  = removeAll o paths ((if dryRun o then w else Fs.remove w q), countRemoved st).
Proof. reflexivity. Qed.

Lemma removeAll_removed (o : Organizer) (paths : list string) (p : string) :
  dryRun o = false ->
  forall ws, In p paths -> files (fst (removeAll o paths ws)) !! p = None.
Proof.
  intros Hdry.
  induction paths as [|q paths IH]; intros [w st]; [intros []|].
  rewrite removeAll_cons. intros Hin.
  destruct (in_dec String.string_dec p paths) as [Hp|Hp]; [now apply IH|].
  destruct Hin as [->|Hin]; [|contradiction].
  rewrite removeAll_other by exact Hp. rewrite Hdry. cbn.
  apply lookup_delete_eq.
Qed.

Lemma removeAll_dry (o : Organizer) (paths : list string) :
  dryRun o = true -> forall ws, fst (removeAll o paths ws) = fst ws.
Proof.
  intros Hdry.
  induction paths as [|q paths IH]; intros [w st]; [reflexivity|].
  rewrite removeAll_cons, IH. cbn. now rewrite Hdry.
Qed.



Lemma NoDup_keys_get {V : Type} (m : StrMap V) (k : string) (v : V) :
  NoDup (JsMap.keys m) -> In (k, v) m -> JsMap.get String.eqb m k = Some v.
Proof.
  unfold JsMap.keys.
  induction m as [|[k1 v1] m IH]; cbn; [intros _ []|].
  intros Hnd [[= -> ->]|Hin]; [now rewrite String.eqb_refl|].
  apply NoDup_cons in Hnd as [Hk1 Hnd].
  destruct (String.eqb k1 k) eqn:E; [|now apply IH].
  apply String.eqb_eq in E. subst k1. exfalso. apply Hk1.
  apply list_elem_of_In, in_map_iff. now exists (k, v).
Qed.

Lemma NoDup_keys_set {V : Type} (m : StrMap V) (k : string) (v : V) :
  NoDup (JsMap.keys m) -> NoDup (JsMap.keys (JsMap.set String.eqb m k v)).
Proof.
  intros Hnd. rewrite keys_set.
  destruct (JsMap.has String.eqb m k) eqn:E; [exact Hnd|].
  apply NoDup_app. split; [exact Hnd|]. split; [|apply NoDup_singleton].
  intros x Hx Hk. apply list_elem_of_singleton in Hk. subst x.
  apply (has_false_not_key String.eqb m k (String.eqb_refl k) E).
  now apply list_elem_of_In.
Qed.

Lemma groupPush_NoDup (m : StrMap (list string)) (k x : string) :
  NoDup (concat (JsMap.values m)) ->
  ~ In x (concat (JsMap.values m)) ->
  NoDup (concat (JsMap.values (groupPush m k x))).
Proof.
  induction m as [|[k1 v1] m IH].
  - intros _ _. cbn. apply NoDup_singleton.
  - intros Hnd Hx.
    pose proof (groupPush_members m k x) as Hmem.
    unfold groupPush, JsMap.values in *. cbn in *.
    destruct (String.eqb k1 k) eqn:E; cbn.
    + assert (Hperm : Permutation ((v1 ++ [x]) ++ concat (map snd m))
                                  (x :: (v1 ++ concat (map snd m)))).
      { rewrite <- app_assoc. cbn. symmetry. apply Permutation_middle. }
      rewrite Hperm. apply NoDup_cons. split; [|exact Hnd].
      intros Hin. apply Hx. now apply list_elem_of_In.
    + apply NoDup_app in Hnd as (Hv1 & Hdisj & Hrest).
      apply NoDup_app. split; [exact Hv1|]. split.
      * intros y Hy Hin. apply list_elem_of_In, Hmem in Hin as [->|Hin].
        -- apply Hx, in_or_app. left. now apply list_elem_of_In.
        -- apply (Hdisj y Hy). now apply list_elem_of_In.
      * apply IH; [exact Hrest|]. intros Hin. apply Hx, in_or_app. now right.
Qed.


Section Grouping.
Context (key : string -> option string).

Lemma groupByKey_cons (f : string) (files : list string) (m : StrMap (list string)) :
  groupByKey key (f :: files) m
  = groupByKey key files (match key f with
                          | Some k => groupPush m k f
                          | None => m
                          end).
Proof. reflexivity. Qed.

Lemma groupByKey_keys (files : list string) :
  forall m, NoDup (JsMap.keys m) -> NoDup (JsMap.keys (groupByKey key files m)).
Proof.
  induction files as [|f files IH]; intros m Hnd; [exact Hnd|].
  rewrite groupByKey_cons. apply IH.
  destruct (key f); [|exact Hnd]. now apply NoDup_keys_set.
Qed.

(** The group of a key holds the files of that key, in the order of the
    list. *)
Lemma groupByKey_get (k : string) (files : list string) :
  forall m,
    JsMap.get String.eqb (groupByKey key files m) k
    = match withKey key k files with
      | [] => JsMap.get String.eqb m k
      | l => Some (default [] (JsMap.get String.eqb m k) ++ l)
      end.
Proof.
  induction files as [|f files IH]; intros m; [reflexivity|].
  rewrite groupByKey_cons, IH. unfold withKey. cbn [List.filter].
  fold (withKey key k files).
  destruct (key f) as [k'|]; [|reflexivity].
  destruct (String.eqb k' k) eqn:E.
  - apply String.eqb_eq in E. subst k'. unfold groupPush.
    rewrite (get_set_eq String.eqb) by apply String.eqb_refl.
    destruct (withKey key k files); [reflexivity|].
    cbn [from_option id]. now rewrite <- app_assoc.
  - unfold groupPush.
    rewrite (get_set_ne String.eqb String_eqb_sound)
      by (intros ->; now rewrite String.eqb_refl in E).
    reflexivity.
Qed.

Lemma groupByKey_NoDup (files : list string) :
  forall m,
    NoDup files ->
    (forall x, In x files -> ~ In x (concat (JsMap.values m))) ->
    NoDup (concat (JsMap.values m)) ->
    NoDup (concat (JsMap.values (groupByKey key files m))).
Proof.
  induction files as [|f files IH]; intros m Hnd Hfresh Hm; [exact Hm|].
  rewrite groupByKey_cons. apply NoDup_cons in Hnd as [Hf Hnd].
  destruct (key f) as [k|].
  - apply IH; [exact Hnd| |].
    + intros x Hx Hin. apply groupPush_members in Hin as [->|Hin].
      * apply Hf. now apply list_elem_of_In.
      * apply (Hfresh x); [now right|exact Hin].
    + apply groupPush_NoDup; [exact Hm|]. apply Hfresh. now left.
  - apply IH; [exact Hnd| |exact Hm].
    intros x Hx. apply Hfresh. now right.
Qed.

(** The groups are the classes of the files by key. *)
Lemma groupByKey_groups (files : list string) (g : list string) :
  In g (JsMap.values (groupByKey key files []))
  <-> exists k, g = withKey key k files /\ g <> [].
Proof.
  split.
  - intros Hin. apply in_map_iff in Hin as ([k g'] & Hg & Hin). cbn in Hg. subst g'.
    apply NoDup_keys_get in Hin; [|apply groupByKey_keys, NoDup_nil_2].
    rewrite groupByKey_get in Hin. exists k. cbn in Hin.
    destruct (withKey key k files) as [|x l]; [discriminate|].
    injection Hin as <-. split; [reflexivity|discriminate].
  - intros (k & -> & Hne).
    assert (Hget : JsMap.get String.eqb (groupByKey key files []) k
                   = Some (withKey key k files)).
    { rewrite groupByKey_get. cbn. now destruct (withKey key k files). }
    apply (get_Some_In String.eqb String_eqb_sound) in Hget.
    apply in_map_iff. now exists (k, withKey key k files).
Qed.

End Grouping.

Lemma findDuplicatesByExifAndSize_groups `{Md5} (w : World) (st : Stats)
    (imageFiles : list string) :
  fst (findDuplicatesByExifAndSize w st imageFiles)
  = duplicateGroupsOf (groupByKey (imageKey w) imageFiles []).
Proof.
  unfold findDuplicatesByExifAndSize.
  enough (G : forall m st0,
    fst (fold_left (groupImageStep w) imageFiles (m, st0))
    = groupByKey (imageKey w) imageFiles m).
  { specialize (G [] st). destruct (fold_left _ _ _) as [m' st']. cbn in *. now subst. }
  induction imageFiles as [|f rest IH]; intros m st0; [reflexivity|].
  rewrite groupByKey_cons. cbn [fold_left]. unfold groupImageStep at 2, imageKey.
  destruct (createFileFingerprint w f); apply IH.
Qed.

Lemma findDuplicatesByDateAndSize_groups (w : World) (st : Stats)
    (videoFiles : list string) :
  fst (findDuplicatesByDateAndSize w st videoFiles)
  = duplicateGroupsOf (groupByKey (videoKey w) videoFiles []).
Proof.
  unfold findDuplicatesByDateAndSize.
  enough (G : forall m st0,
    fst (fold_left (groupVideoStep w) videoFiles (m, st0))
    = groupByKey (videoKey w) videoFiles m).
  { specialize (G [] st). destruct (fold_left _ _ _) as [m' st']. cbn in *. now subst. }
  induction videoFiles as [|f rest IH]; intros m st0; [reflexivity|].
  rewrite groupByKey_cons. cbn [fold_left]. unfold groupVideoStep at 2, videoKey.
  destruct (createVideoFingerprint w f) as [[fp|]|]; [|apply IH|apply IH].
  destruct (String.eqb fp ""); apply IH.
Qed.

(** X9.  The duplicate groups of the standalone pass are the classes of
    two or more of the analysed files with the same fingerprint, each in
    the order of the scan: the image fingerprint for images, and for videos
    the video fingerprint, a video without one being in no group. *)
Theorem duplicate_groups_are_fingerprint_classes `{Md5} (w : World) (st : Stats)
    (analysed : list string) (g : list string) :
  (In g (fst (findDuplicatesByExifAndSize w st analysed))
   <-> exists fingerprint,
         g = withKey (imageKey w) fingerprint analysed /\ (2 <= length g)%nat)
  /\ (In g (fst (findDuplicatesByDateAndSize w st analysed))
      <-> exists fingerprint,
            g = withKey (videoKey w) fingerprint analysed /\ (2 <= length g)%nat).
Proof.
  rewrite findDuplicatesByExifAndSize_groups, findDuplicatesByDateAndSize_groups.
  unfold duplicateGroupsOf.
  split; rewrite filter_In, groupByKey_groups; split.
  - intros [(k & -> & _) Hlen]. exists k. split; [reflexivity|].
    now apply Nat.ltb_lt in Hlen.
  - intros (k & -> & Hlen). split; [|now apply Nat.ltb_lt].
    exists k. split; [reflexivity|]. intros E. rewrite E in Hlen. cbn in Hlen. lia.
  - intros [(k & -> & _) Hlen]. exists k. split; [reflexivity|].
    now apply Nat.ltb_lt in Hlen.
  - intros (k & -> & Hlen). split; [|now apply Nat.ltb_lt].
    exists k. split; [reflexivity|]. intros E. rewrite E in Hlen. cbn in Hlen. lia.
Qed.

Lemma NoDup_List_filter {A : Type} (f : A -> bool) (l : list A) :
  NoDup l -> NoDup (List.filter f l).
Proof.
  induction l as [|x l IH]; intros Hnd; [exact Hnd|].
  apply NoDup_cons in Hnd as [Hx Hnd]. cbn.
  destruct (f x); [|now apply IH].
  apply NoDup_cons. split; [|now apply IH].
  intros Hin. apply Hx. apply list_elem_of_In in Hin. apply filter_In in Hin as [Hin _].
  now apply list_elem_of_In.
Qed.

Lemma scan_NoDup (w : World) (dir : string) : NoDup (Fs.scan w dir).
Proof. unfold Fs.scan. apply NoDup_List_filter, NoDup_fst_map_to_list. Qed.




Lemma withKey_In (key : string -> option string) (k : string)
    (files : list string) (p : string) :
  In p (withKey key k files) <-> In p files /\ key p = Some k.
Proof.
  unfold withKey. rewrite filter_In. split; intros [Hin Hk]; split; try exact Hin.
  - destruct (key p) as [k'|]; [|discriminate]. apply String.eqb_eq in Hk. now subst.
  - rewrite Hk. apply String.eqb_refl.
Qed.














(** ** Renaming a video or a file with a date in its name *)

(** The new path and the move, for a file that is there. *)
Lemma relocate_safe (o : Organizer) (w : World) (filePath : string) (f : File)
    (creationDate : JsDate.t) :
  files w !! filePath = Some f ->
  match generateNewPath o w filePath creationDate with
  | Some (Returns (newPath, _)) =>
      exists w',
        (if String.eqb newPath filePath then Some (Returns w)
         else Some (moveFile o w filePath newPath)) = Some (Returns w')
        /\ relocated o w filePath f creationDate w'
  | Some Throws => True
  | None => False
  end.
Proof.
  intros Hf.
  destruct (generateNewPath o w filePath creationDate) as [[[newPath newFilename]|]|]
    eqn:Hgen; [|exact I|].
  - rewrite generateNewPath_unfold in Hgen.
    apply generateLoop_bound in Hgen as (c & Hc & Hn & Hp & Hfree);
      [|lia|reflexivity|reflexivity].
    assert (HnewPath : newPath = newPathCandidate o filePath creationDate c).
    { rewrite Hp, Hn. reflexivity. }
    clear Hp Hn.
    assert (Hfree' : newPath = filePath \/ files w !! newPath = None).
    { destruct Hfree as [Hfree|Hfree]; [right|now left].
      unfold Fs.pathExists in Hfree. now destruct (files w !! newPath). }
    unfold relocated.
    destruct (String.eqb newPath filePath) eqn:E.
    + apply String.eqb_eq in E. exists w. split; [reflexivity|].
      exists c. cbn zeta. rewrite <- HnewPath.
      split; [exact Hc|]. split; [now left|].
      split; [reflexivity|]. intros _. rewrite E.
      split; [exact Hf|]. split; [congruence|reflexivity].
    + assert (Hne : newPath <> filePath)
        by (intros E'; rewrite E', String.eqb_refl in E; discriminate).
      destruct Hfree' as [|Hnone]; [contradiction|].
      unfold moveFile. destruct (dryRun o) eqn:Hdry.
      * exists w. split; [reflexivity|]. exists c. cbn zeta. rewrite <- HnewPath.
        split; [exact Hc|]. split; [now right|]. split; [reflexivity|discriminate].
      * rewrite Hf. unfold Fs.pathExists. rewrite Hnone.
        eexists. split; [reflexivity|]. exists c. cbn zeta. rewrite <- HnewPath.
        split; [exact Hc|]. split; [now right|].
        split; [intros [|]; [discriminate|contradiction]|]. intros _. cbn.
        split; [apply lookup_insert_eq|].
        split; [intros _; rewrite lookup_insert_ne by exact Hne;
                apply lookup_delete_eq|].
        intros q Hq1 Hq2. rewrite lookup_insert_ne by congruence.
        now apply lookup_delete_ne.
  - rewrite generateNewPath_unfold in Hgen.
    revert Hgen. apply generateLoop_total. apply Nat.leb_le. vm_compute. reflexivity.
Qed.

(** What a call of [generateNewPath] and the move after it make of a file
    that is there, when they return. *)
Lemma relocate_returns (o : Organizer) (w : World) (filePath : string) (f : File)
    (creationDate : JsDate.t) (w' : World) :
  files w !! filePath = Some f ->
  match generateNewPath o w filePath creationDate with
  | None => None
  | Some Throws => Some Throws
  | Some (Returns (newPath, _)) =>
      if String.eqb newPath filePath then Some (Returns w)
      else Some (moveFile o w filePath newPath)
  end = Some (Returns w') ->
  relocated o w filePath f creationDate w'.
Proof.
  intros Hf Hrun.
  pose proof (relocate_safe o w filePath f creationDate Hf) as Hmove.
  destruct (generateNewPath o w filePath creationDate) as [[[newPath newFilename]|]|];
    [|discriminate|discriminate].
  destruct Hmove as (w'' & Hw'' & Hrel). congruence.
Qed.

(** X12.  [processVideoOrPatternFile] on a file that exists: the date is
    the one of the file name, or else the modification time.  When the call
    returns, the file is at a path of the form [generateNewPath] builds,
    with a counter from 1 to 9999, either where it was or at a path where no
    file was; no other file is changed, and no file at all in a dry run.  A
    file that is at the candidate of a counter already, with files at the
    candidates of the counters below, is left where it is: the call returns
    and changes nothing. *)
Theorem processVideoOrPatternFile_never_overwrites (o : Organizer) (w : World)
    (filePath : string) (f : File) :
  files w !! filePath = Some f ->
  exists creationDate,
    videoCreationDate w filePath = Returns creationDate
    /\ (creationDate = Some (mtime f)
        \/ extractDateFromFilename filePath = Some creationDate)
    /\ (forall w',
          processVideoOrPatternFile o w filePath = Some (Returns w') ->
          relocated o w filePath f creationDate w')
    /\ (forall c,
          1 <= c <= 9999 ->
          newPathCandidate o filePath creationDate c = filePath ->
          (forall c', 1 <= c' < c ->
             is_Some (files w !! newPathCandidate o filePath creationDate c')) ->
          processVideoOrPatternFile o w filePath = Some (Returns w)).
Proof.
  intros Hf.
  assert (Hdate : exists creationDate,
            videoCreationDate w filePath = Returns creationDate
            /\ (creationDate = Some (mtime f)
                \/ extractDateFromFilename filePath = Some creationDate)).
  { unfold videoCreationDate, Fs.stat. rewrite Hf.
    destruct (extractDateFromFilename filePath) as [d|]; eauto. }
  destruct Hdate as (creationDate & Hdate & Hwhich).
  exists creationDate. split; [exact Hdate|]. split; [exact Hwhich|].
  unfold processVideoOrPatternFile. rewrite Hdate. split.
  - intros w'. now apply relocate_returns.
  - intros c Hc Hsame Hbelow.
    rewrite (generateNewPath_in_place o w filePath creationDate c Hc Hsame Hbelow).
    now rewrite String.eqb_refl.
Qed.

(** An instance: a video whose name carries no date, and that is where the
    candidate of the first counter for the day of its modification time
    is. *)
Lemma processVideoOrPatternFile_never_overwrites_witness :
  let w := {| files := {[ "/d/1970/01/1970-01-01_001.mp4" := plainFile 10 2 ]};
              clock := 10 |} in
  exists creationDate,
    videoCreationDate w "/d/1970/01/1970-01-01_001.mp4" = Returns creationDate
    /\ (creationDate = Some (mtime (plainFile 10 2))
        \/ extractDateFromFilename "/d/1970/01/1970-01-01_001.mp4" = Some creationDate)
    /\ (forall w',
          processVideoOrPatternFile editedSuffixOrganizer w
            "/d/1970/01/1970-01-01_001.mp4" = Some (Returns w') ->
          relocated editedSuffixOrganizer w "/d/1970/01/1970-01-01_001.mp4"
                    (plainFile 10 2) creationDate w')
    /\ (forall c,
          1 <= c <= 9999 ->
          newPathCandidate editedSuffixOrganizer "/d/1970/01/1970-01-01_001.mp4"
                           creationDate c
          = "/d/1970/01/1970-01-01_001.mp4" ->
          (forall c', 1 <= c' < c ->
             is_Some (files w !! newPathCandidate editedSuffixOrganizer
                                   "/d/1970/01/1970-01-01_001.mp4" creationDate c')) ->
          processVideoOrPatternFile editedSuffixOrganizer w
            "/d/1970/01/1970-01-01_001.mp4" = Some (Returns w)).
Proof.
  apply (processVideoOrPatternFile_never_overwrites editedSuffixOrganizer
           {| files := {[ "/d/1970/01/1970-01-01_001.mp4" := plainFile 10 2 ]};
              clock := 10 |}
           "/d/1970/01/1970-01-01_001.mp4" (plainFile 10 2)).
  vm_compute. reflexivity.
Defined.

(** A video that is where the organizer would put it stays there, and one
    that is not is moved to the folder of its month. *)
Example organized_video_stays :
  let w := {| files := {[ "/d/1970/01/1970-01-01_001.mp4" := plainFile 10 2;
                          "/d/clip.mp4" := plainFile 12 3 ]};
              clock := 10 |} in
  processVideoOrPatternFile editedSuffixOrganizer w "/d/1970/01/1970-01-01_001.mp4"
  = Some (Returns w)
  /\ option_map (fun r => match r with
                          | Returns w' => map fst (map_to_list (files w'))
                          | Throws => []
                          end)
       (processVideoOrPatternFile editedSuffixOrganizer w "/d/clip.mp4")
     = Some (map fst (map_to_list
                        (files {| files :=
                                    {[ "/d/1970/01/1970-01-01_001.mp4" := plainFile 10 2;
                                       "/d/1970/01/1970-01-01_002.mp4" := plainFile 12 3 ]};
                                  clock := 10 |}))).
Proof. vm_compute. split; reflexivity. Qed.

(** ** Live videos *)

Lemma isMov_not_image (file : string) :
  isMov file = true -> hasExt imageExtensions file = false.
Proof.
  unfold isMov, hasExt. intros E. apply String.eqb_eq in E. rewrite E. reflexivity.
Qed.

Lemma separate_spec (files : list string) :
  forall acc,
    let r := fold_left separateStep files acc in
    snd r = snd acc
            ++ List.filter (fun f => negb (hasExt imageExtensions f) && isMov f) files
    /\ forall k,
         JsMap.has String.eqb (fst r) k
         = JsMap.has String.eqb (fst acc) k
           || existsb (fun photo => hasExt imageExtensions photo
                                    && String.eqb (photoKey photo) k) files.
Proof.
  induction files as [|f files IH]; intros [photos videos]; cbn [fold_left].
  - cbn. rewrite app_nil_r. split; [reflexivity|]. intros k. now rewrite orb_false_r.
  - specialize (IH (separateStep (photos, videos) f)). cbn zeta in *.
    destruct IH as [IH1 IH2]. rewrite IH1. cbn [List.filter existsb].
    unfold separateStep in *. fold (hasExt imageExtensions f) in *. fold (isMov f) in *.
    destruct (hasExt imageExtensions f) eqn:Himg; cbn [fst snd negb andb orb] in *.
    + split; [reflexivity|]. intros k. rewrite IH2.
      destruct (String.eqb (photoKey f) k) eqn:Ek; cbn [orb].
      * apply String.eqb_eq in Ek. subst k.
        rewrite (has_set_eq String.eqb) by apply String.eqb_refl.
        now rewrite orb_true_r.
      * rewrite (has_set_ne String.eqb String_eqb_sound)
          by (intros E; rewrite E, String.eqb_refl in Ek; discriminate).
        reflexivity.
    + destruct (isMov f); cbn [fst snd].
      * split; [now rewrite <- app_assoc|]. intros k. now rewrite IH2.
      * split; [reflexivity|]. intros k. now rewrite IH2.
Qed.

Lemma pushIf_filter {A : Type} (keep : A -> bool) (l : list A) :
  forall acc,
    fold_left (fun r x => if keep x then r ++ [x] else r) l acc
    = acc ++ List.filter keep l.
Proof.
  induction l as [|x l IH]; intros acc; cbn; [now rewrite app_nil_r|].
  rewrite IH. destruct (keep x); [now rewrite <- app_assoc|reflexivity].
Qed.

Lemma filter_filter {A : Type} (f g : A -> bool) (l : list A) :
  List.filter g (List.filter f l) = List.filter (fun x => f x && g x) l.
Proof.
  induction l as [|x l IH]; [reflexivity|]. cbn.
  destruct (f x); cbn; [destruct (g x)|]; now rewrite IH.
Qed.

Lemma findLiveVideos_filter (files : list string) :
  findLiveVideos files = List.filter (isLiveVideo files) files.
Proof.
  unfold findLiveVideos.
  pose proof (separate_spec files ([], [])) as [Hv Hp]. cbn zeta in *.
  destruct (fold_left separateStep files ([], [])) as [photos videos].
  cbn [fst snd] in *. rewrite pushIf_filter, Hv. cbn [app].
  rewrite filter_filter. apply filter_ext. intros v.
  rewrite Hp. cbn [JsMap.has JsMap.get orb]. unfold isLiveVideo.
  destruct (isMov v) eqn:Em; cbn [andb];
      [rewrite (isMov_not_image v Em); reflexivity|now rewrite andb_false_r].
Qed.

Lemma findLiveVideos_members (files : list string) (v : string) :
  In v (findLiveVideos files) ->
  In v files /\ hasExt imageExtensions v = false /\ isMov v = true
  /\ exists photo, In photo files /\ hasExt imageExtensions photo = true
                   /\ photoKey photo = movKey v.
Proof.
  intros Hin. rewrite findLiveVideos_filter in Hin.
  apply filter_In in Hin as [Hin Hlive]. unfold isLiveVideo in Hlive.
  apply andb_true_iff in Hlive as [Em Hex].
  split; [exact Hin|]. split; [now apply isMov_not_image|]. split; [exact Em|].
  apply existsb_exists in Hex as (photo & Hp & Hk).
  apply andb_true_iff in Hk as [Himg Hk]. apply String.eqb_eq in Hk. eauto.
Qed.

(** X13.  On files whose base names do not start with two dots,
    [findLiveVideos] returns, in the order of the list, the files with the
    extension [.mov] (in any case of the letters) for which the list has a
    photo with the same key; in particular it returns no photo. *)
Theorem findLiveVideos_spec (files : list string) :
  (forall f, In f files -> plainName f = true) ->
  findLiveVideos files = List.filter (isLiveVideo files) files
  /\ forall v, In v (findLiveVideos files) ->
       In v files /\ hasExt imageExtensions v = false /\ isMov v = true
       /\ exists photo, In photo files /\ hasExt imageExtensions photo = true
                        /\ photoKey photo = movKey v.
Proof.
  intros _. split; [apply findLiveVideos_filter|apply findLiveVideos_members].
Qed.

(** An instance: a photo with its live video, and another video. *)
Lemma findLiveVideos_spec_witness :
  let files := ["/d/IMG_1.jpg"; "/d/IMG_1.mov"; "/d/IMG_2.mov"] in
  findLiveVideos files = List.filter (isLiveVideo files) files
  /\ forall v, In v (findLiveVideos files) ->
       In v files /\ hasExt imageExtensions v = false /\ isMov v = true
       /\ exists photo, In photo files /\ hasExt imageExtensions photo = true
                        /\ photoKey photo = movKey v.
Proof.
  apply (findLiveVideos_spec ["/d/IMG_1.jpg"; "/d/IMG_1.mov"; "/d/IMG_2.mov"]).
  apply forallb_forall. vm_compute. reflexivity.
Defined.

Lemma deleteLiveVideos_cons (o : Organizer) (v : string) (l : list string)
    (w : World) (n : nat) :
  deleteLiveVideos o (v :: l) (w, n)
  = deleteLiveVideos o l ((if dryRun o then w else Fs.remove w v), S n).
Proof. reflexivity. Qed.

Lemma deleteLiveVideos_spec (o : Organizer) (l : list string) :
  forall w n,
    snd (deleteLiveVideos o l (w, n)) = (n + length l)%nat
    /\ (dryRun o = true -> fst (deleteLiveVideos o l (w, n)) = w)
    /\ (forall p, ~ In p l ->
          files (fst (deleteLiveVideos o l (w, n))) !! p = files w !! p)
    /\ (dryRun o = false -> forall p, In p l ->
          files (fst (deleteLiveVideos o l (w, n))) !! p = None).
Proof.
  induction l as [|v l IH]; intros w n.
  - cbn. repeat split; auto. intros _ p [].
  - rewrite deleteLiveVideos_cons.
    destruct (IH (if dryRun o then w else Fs.remove w v) (S n)) as (I1 & I2 & I3 & I4).
    split; [rewrite I1; cbn; lia|]. split; [|split].
    + intros Hdry. rewrite I2 by exact Hdry. now rewrite Hdry.
    + intros p Hp. rewrite I3 by (intros H; apply Hp; now right).
      destruct (dryRun o); [reflexivity|]. cbn. apply lookup_delete_ne.
      intros ->. apply Hp. now left.
    + intros Hdry p Hp.
      destruct (in_dec String.string_dec p l) as [Hin|Hnin]; [now apply I4|].
      destruct Hp as [->|Hp]; [|contradiction].
      rewrite I3 by exact Hnin. rewrite Hdry. cbn. apply lookup_delete_eq.
Qed.

(** X14.  In a folder whose files have base names that do not start with
    two dots, [removeLiveVideos] removes the live videos of the folder and
    nothing else, so no photo; a dry run removes nothing; and the counter
    grows by the number of live videos in both cases. *)
Theorem removeLiveVideos_removes_live_videos_only (o : Organizer) (w : World) (n : nat) :
  (forall f, In f (Fs.scan w (baseDirectory o)) -> plainName f = true) ->
  let liveVideos := findLiveVideos (Fs.scan w (baseDirectory o)) in
  let w' := fst (removeLiveVideos o (w, n)) in
  snd (removeLiveVideos o (w, n)) = (n + length liveVideos)%nat
  /\ (dryRun o = true -> w' = w)
  /\ (forall p, ~ In p liveVideos -> files w' !! p = files w !! p)
  /\ (forall p, hasExt imageExtensions p = true -> files w' !! p = files w !! p)
  /\ (dryRun o = false -> forall p, In p liveVideos -> files w' !! p = None).
Proof.
  intros _. cbn zeta. unfold removeLiveVideos. cbn [fst].
  set (liveVideos := findLiveVideos (Fs.scan w (baseDirectory o))).
  assert (G : snd (deleteLiveVideos o liveVideos (w, n)) = (n + length liveVideos)%nat
              /\ (dryRun o = true -> fst (deleteLiveVideos o liveVideos (w, n)) = w)
              /\ (forall p, ~ In p liveVideos ->
                    files (fst (deleteLiveVideos o liveVideos (w, n))) !! p
                    = files w !! p)
              /\ (dryRun o = false -> forall p, In p liveVideos ->
                    files (fst (deleteLiveVideos o liveVideos (w, n))) !! p = None))
    by apply deleteLiveVideos_spec.
  assert (E : match liveVideos with
              | [] => (w, n)
              | _ :: _ => deleteLiveVideos o liveVideos (w, n)
              end = deleteLiveVideos o liveVideos (w, n))
    by now destruct liveVideos.
  rewrite E. destruct G as (G1 & G2 & G3 & G4).
  split; [exact G1|]. split; [exact G2|]. split; [exact G3|]. split; [|exact G4].
  intros p Himg. apply G3. intros Hin.
  apply findLiveVideos_members in Hin as (_ & Hno & _). congruence.
Qed.

(** An instance: a folder with a photo, its live video and another
    video. *)
Lemma removeLiveVideos_removes_live_videos_only_witness :
  let o := editedSuffixOrganizer in
  let w := {| files := {[ "/d/IMG_1.jpg" := plainFile 9 1;
                          "/d/IMG_1.mov" := plainFile 20 1;
                          "/d/IMG_2.mov" := plainFile 30 2 ]};
              clock := 10 |} in
  let liveVideos := findLiveVideos (Fs.scan w (baseDirectory o)) in
  let w' := fst (removeLiveVideos o (w, 0%nat)) in
  snd (removeLiveVideos o (w, 0%nat)) = (0 + length liveVideos)%nat
  /\ (dryRun o = true -> w' = w)
  /\ (forall p, ~ In p liveVideos -> files w' !! p = files w !! p)
  /\ (forall p, hasExt imageExtensions p = true -> files w' !! p = files w !! p)
  /\ (dryRun o = false -> forall p, In p liveVideos -> files w' !! p = None).
Proof.
  apply (removeLiveVideos_removes_live_videos_only editedSuffixOrganizer
           {| files := {[ "/d/IMG_1.jpg" := plainFile 9 1;
                          "/d/IMG_1.mov" := plainFile 20 1;
                          "/d/IMG_2.mov" := plainFile 30 2 ]};
              clock := 10 |} 0%nat).
  apply forallb_forall. vm_compute. reflexivity.
Defined.

(** *** Extensions in upper case *)

Lemma take_drop (n : nat) (s : string) : Str.take n s +:+ Str.drop n s = s.
Proof.
  revert s. induction n as [|n IH]; intros s; [reflexivity|].
  destruct s as [|c s]; [reflexivity|]. cbn [Str.take Str.drop].
  rewrite append_cons. now rewrite IH.
Qed.

Lemma suffix_same_length (a b s t : string) :
  a +:+ s = b +:+ t -> String.length s = String.length t -> s = t.
Proof.
  revert b. induction a as [|x a IH]; intros b E Hlen.
  - rewrite append_nil_l in E. destruct b as [|y b]; [exact E|].
    apply (f_equal String.length) in E. rewrite append_length in E. cbn in E. lia.
  - destruct b as [|y b].
    + rewrite append_nil_l in E. apply (f_equal String.length) in E.
      rewrite append_length in E. cbn in E. lia.
    + rewrite !append_cons in E. injection E as _ E. now apply (IH b).
Qed.

Lemma endsWith_suffix (e s : string) :
  Str.endsWith e s = true -> exists pre, s = pre +:+ e.
Proof.
  unfold Str.endsWith. intros H. apply andb_true_iff in H as [_ H].
  apply String.eqb_eq in H.
  exists (Str.take (String.length s - String.length e) s).
  symmetry. etransitivity; [|apply (take_drop (String.length s - String.length e) s)].
  f_equal. symmetry. exact H.
Qed.

Lemma basename_suffix (p : string) : exists pre, p = pre +:+ Path.basename p.
Proof.
  unfold Path.basename. destruct (Str.lastIndexOf "/" p) as [i|].
  - exists (Str.take (S i) p). symmetry. apply take_drop.
  - now exists "".
Qed.

Lemma extname_suffix (p : string) : exists pre, Path.basename p = pre +:+ Path.extname p.
Proof.
  unfold Path.extname. destruct (Str.lastIndexOf "." (Path.basename p)) as [[|i]|].
  - exists (Path.basename p). now rewrite append_nil_r.
  - destruct (String.eqb (Path.basename p) "..").
    + exists (Path.basename p). now rewrite append_nil_r.
    + exists (Str.take (S i) (Path.basename p)). symmetry. apply take_drop.
  - exists (Path.basename p). now rewrite append_nil_r.
Qed.

Lemma lower_length (s : string) : String.length (Path.lower s) = String.length s.
Proof. induction s as [|c s IH]; cbn; [reflexivity|now rewrite IH]. Qed.

(** Taking off an extension the name does not end with leaves the name. *)
Lemma basenameExt_other (p ext : string) :
  String.length ext = String.length (Path.extname p) ->
  ext <> Path.extname p ->
  Path.basenameExt p ext = Path.basename p.
Proof.
  intros Hlen Hne. unfold Path.basenameExt.
  destruct (String.eqb ext "") eqn:E0; [reflexivity|].
  destruct (extname_suffix p) as [pre Hpre].
  destruct (String.eqb ext p) eqn:Ep.
  - exfalso. apply String.eqb_eq in Ep. apply Hne.
    destruct (basename_suffix p) as [pre' Hpre']. rewrite Hpre in Hpre'.
    rewrite <- append_assoc in Hpre'.
    apply (suffix_same_length "" (pre' +:+ pre)); [|exact Hlen].
    rewrite append_nil_l. congruence.
  - destruct (Str.endsWith ext (Path.basename p)) eqn:Ee; [|reflexivity].
    exfalso. apply Hne. apply endsWith_suffix in Ee as [pre' Hpre'].
    apply (suffix_same_length pre' pre); [congruence|exact Hlen].
Qed.

Lemma lastIndexOf_drop (c : ascii) (s : string) (i : nat) :
  Str.lastIndexOf c s = Some i -> Str.lastIndexOf c (Str.drop (S i) s) = None.
Proof.
  revert i. induction s as [|a s IH]; intros i; cbn [Str.lastIndexOf]; [discriminate|].
  destruct (Str.lastIndexOf c s) as [j|] eqn:E.
  - intros [= <-]. cbn [Str.drop]. now apply IH.
  - destruct (Str.ascii_eqb a c); [|discriminate]. intros [= <-]. cbn [Str.drop].
    destruct s; exact E.
Qed.

Lemma basename_no_slash (p : string) :
  Str.lastIndexOf "/" (Path.basename p) = None.
Proof.
  unfold Path.basename. destruct (Str.lastIndexOf "/" p) as [i|] eqn:E; [|exact E].
  now apply lastIndexOf_drop.
Qed.

Lemma lastIndexOf_app (c : ascii) (a b : string) :
  Str.lastIndexOf c b = None ->
  Str.lastIndexOf c (a +:+ String c b) = Some (String.length a).
Proof.
  intros Hb. induction a as [|x a IH].
  - rewrite append_nil_l. cbn [Str.lastIndexOf]. rewrite Hb.
    unfold Str.ascii_eqb. now rewrite Ascii.eqb_refl.
  - rewrite append_cons. cbn [Str.lastIndexOf String.length]. now rewrite IH.
Qed.

Lemma drop_app (a b : string) : Str.drop (String.length a) (a +:+ b) = b.
Proof. induction a as [|x a IH]; [reflexivity|]. rewrite append_cons. exact IH. Qed.

Lemma basename_slash (a b : string) :
  Str.lastIndexOf "/" b = None -> Path.basename (a +:+ String "/" b) = b.
Proof.
  intros Hb. unfold Path.basename. rewrite (lastIndexOf_app _ a b Hb).
  change (S (String.length a)) with (String.length (String "/" a)).
  replace (a +:+ String "/" b) with ((a +:+ "/") +:+ b)
    by (now rewrite append_assoc).
  replace (String.length (String "/" a)) with (String.length (a +:+ "/"))
    by (rewrite append_length; cbn; lia).
  apply drop_app.
Qed.

(** The base name of a directory joined with a name is the name. *)
Lemma basename_join (dir b : string) :
  b <> "" -> Str.lastIndexOf "/" b = None -> Path.basename (Path.join dir b) = b.
Proof.
  intros Hne Hb. unfold Path.join.
  apply String.eqb_neq in Hne. rewrite Hne.
  destruct (String.eqb dir "" || String.eqb dir ".").
  - unfold Path.basename. now rewrite Hb.
  - destruct (Str.endsWith "/" dir) eqn:E.
    + apply endsWith_suffix in E as [pre ->]. rewrite append_assoc.
      now apply basename_slash.
    + now apply basename_slash.
Qed.

Lemma extname_basename (p q : string) :
  Path.basename p = Path.basename q -> Path.extname p = Path.extname q.
Proof. unfold Path.extname. now intros ->. Qed.

Lemma key_basename (p : string) :
  Path.extname p <> "" ->
  Path.basename (Path.join (Path.dirname p) (Path.basename p)) = Path.basename p.
Proof.
  intros Hext. apply basename_join; [|apply basename_no_slash].
  intros E. destruct (extname_suffix p) as [pre Hpre]. rewrite E in Hpre.
  destruct pre; [|discriminate]. rewrite append_nil_l in Hpre. congruence.
Qed.

(** A photo and a video whose extensions are not in lower case have
    different keys. *)
Lemma keys_differ_in_upper_case (photo videoFile : string) :
  hasExt imageExtensions photo = true ->
  isMov videoFile = true ->
  Path.extname photo <> Path.lower (Path.extname photo) ->
  Path.extname videoFile <> ".mov" ->
  photoKey photo <> movKey videoFile.
Proof.
  intros Himg Hmov Hup Hvup E.
  assert (Hpe : Path.extname photo <> "") by (intros E0; rewrite E0 in Hup; now apply Hup).
  assert (Hml : Path.lower (Path.extname videoFile) = ".mov")
    by now apply String.eqb_eq.
  assert (Hve : Path.extname videoFile <> "")
    by (intros E0; rewrite E0 in Hml; discriminate).
  unfold photoKey, movKey in E. cbn zeta in E.
  rewrite (basenameExt_other photo) in E
    by (rewrite ?lower_length; congruence).
  rewrite (basenameExt_other videoFile) in E;
    [|rewrite <- (lower_length (Path.extname videoFile)), Hml; reflexivity|congruence].
  apply (f_equal Path.basename) in E.
  rewrite !key_basename in E by assumption.
  apply extname_basename in E.
  rewrite (isMov_not_image photo) in Himg; [discriminate|].
  unfold isMov. rewrite E. now apply String.eqb_eq.
Qed.

(** X15.  A video whose extension is not written [.mov] in lower case
    ([.MOV], say) is found as a live video only through a photo whose own
    extension is all in lower case: the keys of a photo and of a video
    whose extensions both have a capital letter, as [IMG_1.JPG] and
    [IMG_1.MOV], are never the same. *)
Theorem upper_case_pairs_are_not_matched (files : list string) (videoFile : string) :
  In videoFile (findLiveVideos files) ->
  Path.extname videoFile <> ".mov" ->
  exists photo,
    In photo files /\ hasExt imageExtensions photo = true
    /\ photoKey photo = movKey videoFile
    /\ Path.extname photo = Path.lower (Path.extname photo).
Proof.
  intros Hin Hup.
  apply findLiveVideos_members in Hin as (_ & _ & Hmov & photo & Hp & Himg & Hkey).
  exists photo. split; [exact Hp|]. split; [exact Himg|]. split; [exact Hkey|].
  destruct (String.string_dec (Path.extname photo) (Path.lower (Path.extname photo)))
    as [|Hne]; [assumption|].
  exfalso. now apply (keys_differ_in_upper_case photo videoFile).
Qed.

(** An instance: the video found through a photo named after it. *)
Lemma upper_case_pairs_are_not_matched_witness :
  exists photo,
    In photo ["/d/IMG_1.JPG"; "/d/IMG_1.MOV"; "/d/IMG_1.MOV.jpg"]
    /\ hasExt imageExtensions photo = true
    /\ photoKey photo = movKey "/d/IMG_1.MOV"
    /\ Path.extname photo = Path.lower (Path.extname photo).
Proof.
  apply (upper_case_pairs_are_not_matched
           ["/d/IMG_1.JPG"; "/d/IMG_1.MOV"; "/d/IMG_1.MOV.jpg"] "/d/IMG_1.MOV").
  - vm_compute. left. reflexivity.
  - vm_compute. discriminate.
Defined.

(** The pair in lower case is found, the pair in upper case is not. *)
Example live_video_pairs :
  findLiveVideos ["/d/IMG_1.jpg"; "/d/IMG_1.mov"] = ["/d/IMG_1.mov"]
  /\ findLiveVideos ["/d/IMG_1.JPG"; "/d/IMG_1.MOV"] = []
  /\ findLiveVideos ["/d/IMG_1.JPG"; "/d/IMG_1.mov"] = [].
Proof. vm_compute. repeat split. Qed.

(** ** Duplicates by file name *)

Lemma membersOf_get (o : Organizer) (w : World) (m : StrMap (list string)) (k : string) :
  JsMap.get String.eqb (membersOf o w m) k
  = option_map (map (memberOf o w)) (JsMap.get String.eqb m k).
Proof.
  induction m as [|[k1 v1] m IH]; [reflexivity|]. cbn.
  destruct (String.eqb k1 k); [reflexivity|exact IH].
Qed.

Lemma membersOf_set (o : Organizer) (w : World) (m : StrMap (list string))
    (k : string) (v : list string) :
  JsMap.set String.eqb (membersOf o w m) k (map (memberOf o w) v)
  = membersOf o w (JsMap.set String.eqb m k v).
Proof.
  induction m as [|[k1 v1] m IH]; [reflexivity|]. cbn.
  destruct (String.eqb k1 k); [reflexivity|]. cbn. f_equal. exact IH.
Qed.

Lemma membersOf_groupPush (o : Organizer) (w : World) (m : StrMap (list string))
    (k x : string) :
  groupPush (membersOf o w m) k (memberOf o w x) = membersOf o w (groupPush m k x).
Proof.
  unfold groupPush. rewrite membersOf_get, <- membersOf_set. f_equal.
  rewrite map_app. cbn. f_equal. now destruct (JsMap.get String.eqb m k).
Qed.

(** The first loop of the pass, when the files are there: the groups by
    name, and no file set aside. *)
Lemma analyseByFilename_groups (o : Organizer) (w : World) (imageFiles : list string)
    (st : Stats) :
  (forall f, In f imageFiles -> is_Some (files w !! f)) ->
  analyseByFilename o w imageFiles st
  = (membersOf o w (groupByKey (fun f => Some (nameKey o f)) imageFiles []), [], st).
Proof.
  unfold analyseByFilename. intros Hex.
  match goal with
  | |- fold_left ?F _ _ = _ =>
      enough (G : forall keep m,
                fold_left F imageFiles (membersOf o w m, keep, st)
                = (membersOf o w (groupByKey (fun f => Some (nameKey o f)) imageFiles m),
                   keep, st)) by apply (G [] [])
  end.
  induction imageFiles as [|f rest IH]; intros keep m; [reflexivity|].
  rewrite groupByKey_cons. cbn [fold_left]. cbv beta iota zeta.
  destruct (Hex f (or_introl eq_refl)) as [stats Hf].
  assert (Hs : Fs.stat w f = Returns stats) by (unfold Fs.stat; now rewrite Hf).
  rewrite Hs.
  assert (Hm : {| path := f;
                  hasSuffix := suffixed o (Path.basenameExt f (Path.extname f));
                  memberMtime := mtime stats |} = memberOf o w f).
  { unfold memberOf, hasDuplicateSuffix, mtimeOf. now rewrite Hf. }
  rewrite Hm. fold (nameKey o f). rewrite membersOf_groupPush.
  apply IH. intros g Hg. apply Hex. now right.
Qed.

Lemma resolveGroup_returns (o : Organizer) (group : list Member) :
  group <> [] ->
  exists keep,
    In keep group
    /\ resolveGroup o group
       = Returns (path keep,
                  map path (List.filter
                    (fun f => negb (String.eqb (path f) (path keep))) group))
    /\ (hasSuffix keep = false -> suffixConfigured o = true -> ~ someSuffixed group)
    /\ (forall x, In x group -> hasSuffix x = hasSuffix keep ->
          memberMtime keep <= memberMtime x).
Proof.
  intros Hne.
  destruct (chooseFileToKeep_policy o group Hne) as (keep & Hch & Hin & Hsuf & Hold).
  assert (Hpolicy :
    (hasSuffix keep = false -> suffixConfigured o = true -> ~ someSuffixed group)
    /\ (forall x, In x group -> hasSuffix x = hasSuffix keep ->
          memberMtime keep <= memberMtime x)).
  { split.
    - intros Hk Hc Hs. destruct (Hsuf (conj Hc Hs)) as [Hk' _]. congruence.
    - intros x Hx Hflag.
      destruct (suffixConfigured o) eqn:Hc.
      + destruct (hasSuffix keep) eqn:Hk.
        * assert (Hs : someSuffixed group) by (exists x; auto).
          destruct (Hsuf (conj eq_refl Hs)) as [_ [_ Hmin]].
          apply Hmin. apply filter_In. auto.
        * assert (Hns : ~ (true = true /\ someSuffixed group)).
          { intros [_ Hs]. destruct (Hsuf (conj eq_refl Hs)) as [Hk' _]. congruence. }
          destruct (Hold Hns) as [_ Hmin]. now apply Hmin.
      + assert (Hns : ~ (false = true /\ someSuffixed group)) by (intros [? _]; discriminate).
        destruct (Hold Hns) as [_ Hmin]. now apply Hmin. }
  destruct group as [|a [|b rest]]; [contradiction| |].
  - destruct Hin as [<-|[]]. exists a. split; [now left|]. split; [|exact Hpolicy].
    cbn. now rewrite String.eqb_refl.
  - exists keep. split; [exact Hin|]. split; [|exact Hpolicy].
    apply resolveGroup_several; [cbn; lia|exact Hch].
Qed.

Lemma resolveGroups_run (o : Organizer) (groups : list (list Member)) :
  (forall g, In g groups -> g <> []) ->
  forall w st kept,
    resolveGroups o groups (w, st, kept)
    = Returns (removeAll o (flat_map (removedOf o) groups) (w, st),
               kept ++ map (keptOf o) groups).
Proof.
  induction groups as [|g groups IH]; intros Hne w st kept.
  - cbn. now rewrite app_nil_r.
  - destruct (resolveGroup_returns o g (Hne g (or_introl eq_refl)))
      as (keep & _ & Hres & _).
    cbn [resolveGroups flat_map map]. unfold removedOf at 1, keptOf at 1.
    rewrite Hres. rewrite removeAll_app.
    destruct (removeAll o _ (w, st)) as [w1 st1] eqn:E1.
    rewrite IH by (intros g' Hg'; apply Hne; now right).
    now rewrite <- app_assoc.
Qed.

Lemma path_memberOf (o : Organizer) (w : World) (g : list string) :
  map path (map (memberOf o w) g) = g.
Proof. rewrite map_map. cbn. apply map_id. Qed.

(** What the pass keeps and removes of one group of names. *)
Lemma nameGroup_resolved (o : Organizer) (w : World) (g : list string) :
  g <> [] ->
  let members := map (memberOf o w) g in
  In (keptOf o members) g
  /\ ~ In (keptOf o members) (removedOf o members)
  /\ (forall p, In p g <-> p = keptOf o members \/ In p (removedOf o members))
  /\ (forall p, In p g -> hasDuplicateSuffix o p = true ->
        hasDuplicateSuffix o (keptOf o members) = true)
  /\ (forall p, In p g ->
        hasDuplicateSuffix o (keptOf o members) = hasDuplicateSuffix o p ->
        mtimeOf w (keptOf o members) <= mtimeOf w p).
Proof.
  intros Hne members.
  assert (Hm : members <> []) by (subst members; destruct g; [contradiction|discriminate]).
  destruct (resolveGroup_returns o members Hm) as (keep & Hin & Hres & Hpol1 & Hpol2).
  destruct (survivor_unique keep members Hin) as [Hnot Hall].
  cbn zeta in Hnot, Hall.
  unfold keptOf, removedOf. rewrite Hres.
  subst members. rewrite path_memberOf in Hall.
  apply in_map_iff in Hin as (q & <- & Hq). cbn [path memberOf] in *.
  split; [exact Hq|]. split; [exact Hnot|]. split; [exact Hall|]. split.
  - intros p Hp Hsuf. destruct (hasDuplicateSuffix o q) eqn:Hk; [reflexivity|].
    exfalso. apply Hpol1; [exact Hk| |].
    + unfold hasDuplicateSuffix, suffixed in Hsuf. unfold suffixConfigured.
      destruct (duplicateSuffix o) as [s|]; [|discriminate].
      now apply andb_true_iff in Hsuf as [-> _].
    + exists (memberOf o w p). split; [now apply in_map|exact Hsuf].
  - intros p Hp Hflag.
    apply (Hpol2 (memberOf o w p)); [now apply in_map|]. cbn. congruence.
Qed.

Lemma NoDup_map_pick {A : Type} (f : list A -> A) (L : list (list A)) :
  NoDup (concat L) -> (forall g, In g L -> In (f g) g) -> NoDup (map f L).
Proof.
  induction L as [|g L IH]; intros Hnd Hpick; [apply NoDup_nil_2|].
  cbn in *. apply NoDup_app in Hnd as (_ & Hdisj & Hrest).
  apply NoDup_cons. split; [|apply IH; auto].
  intros Hin. apply list_elem_of_In, in_map_iff in Hin as (g' & E & Hg').
  apply (Hdisj (f g)); [apply list_elem_of_In, Hpick; now left|].
  apply list_elem_of_In, in_concat. exists g'. split; [exact Hg'|].
  rewrite <- E. apply Hpick. now right.
Qed.

(** The pass over the names, on files that are there. *)
Lemma handleFilenameDuplicates_spec (o : Organizer) (w : World)
    (st : Stats) (imageFiles : list string) :
  (forall f, In f imageFiles -> is_Some (files w !! f)) ->
  exists w' st' kept,
    handleFilenameDuplicates o w st imageFiles = Returns (w', st', kept)
    /\ (forall p, In p imageFiles ->
          exists q, In q kept /\ nameKey o q = nameKey o p
                    /\ (hasDuplicateSuffix o p = true -> hasDuplicateSuffix o q = true)
                    /\ (hasDuplicateSuffix o q = hasDuplicateSuffix o p ->
                        mtimeOf w q <= mtimeOf w p))
    /\ (forall q q', In q kept -> In q' kept -> nameKey o q = nameKey o q' -> q = q')
    /\ (forall q, In q kept -> In q imageFiles /\ files w' !! q = files w !! q)
    /\ (forall p, ~ In p imageFiles -> files w' !! p = files w !! p)
    /\ (forall p, In p imageFiles -> ~ In p kept ->
          files w' !! p = if dryRun o then files w !! p else None)
    /\ (NoDup imageFiles -> NoDup kept)
    /\ (dryRun o = true -> w' = w).
Proof.
  intros Hex. unfold handleFilenameDuplicates.
  rewrite (analyseByFilename_groups o w imageFiles st Hex).
  set (key := fun f => Some (nameKey o f)).
  set (G := groupByKey key imageFiles []).
  assert (Hvalues : JsMap.values (membersOf o w G)
                    = map (map (memberOf o w)) (JsMap.values G)).
  { unfold JsMap.values, membersOf. rewrite !map_map. reflexivity. }
  rewrite Hvalues.
  set (groups := map (map (memberOf o w)) (JsMap.values G)).
  assert (HG : forall g, In g (JsMap.values G)
                         <-> exists k, g = withKey key k imageFiles /\ g <> [])
    by (intros g; apply groupByKey_groups).
  assert (Hclass : forall p, In p imageFiles ->
            In p (withKey key (nameKey o p) imageFiles)
            /\ In (withKey key (nameKey o p) imageFiles) (JsMap.values G)).
  { intros p Hp.
    assert (Hin : In p (withKey key (nameKey o p) imageFiles))
      by (apply withKey_In; auto).
    split; [exact Hin|]. apply HG. exists (nameKey o p). split; [reflexivity|].
    intros E. rewrite E in Hin. destruct Hin. }
  assert (Hne : forall g, In g groups -> g <> []).
  { intros g Hg. apply in_map_iff in Hg as (g0 & <- & Hg0).
    apply HG in Hg0 as (k & -> & Hne). destruct (withKey key k imageFiles);
      [contradiction|discriminate]. }
  rewrite (resolveGroups_run o groups Hne). cbn [app].
  set (R := flat_map (removedOf o) groups).
  set (kept := map (keptOf o) groups).
  assert (Hkept : forall q, In q kept <->
            exists k, withKey key k imageFiles <> []
                      /\ q = keptOf o (map (memberOf o w) (withKey key k imageFiles))).
  { intros q. unfold kept, groups. rewrite map_map, in_map_iff. split.
    - intros (g & <- & Hg). apply HG in Hg as (k & -> & Hne'). eauto.
    - intros (k & Hne' & ->). eexists. split; [reflexivity|]. apply HG. eauto. }
  assert (HR : forall p, In p R <->
            exists k, withKey key k imageFiles <> []
                      /\ In p (removedOf o (map (memberOf o w) (withKey key k imageFiles)))).
  { intros p. unfold R, groups. rewrite in_flat_map. split.
    - intros (g & Hg & Hp). apply in_map_iff in Hg as (g0 & <- & Hg0).
      apply HG in Hg0 as (k & -> & Hne'). eauto.
    - intros (k & Hne' & Hp). eexists. split; [|exact Hp].
      apply in_map. apply HG. eauto. }
  assert (Hkey : forall k q, withKey key k imageFiles <> [] ->
            q = keptOf o (map (memberOf o w) (withKey key k imageFiles)) ->
            In q imageFiles /\ nameKey o q = k).
  { intros k q Hne' ->.
    destruct (nameGroup_resolved o w _ Hne') as (Hin & _).
    apply withKey_In in Hin as [Hin Hk]. split; [exact Hin|]. now injection Hk. }
  assert (HkeptR : forall q, In q kept -> ~ In q R).
  { intros q Hq HqR. apply Hkept in Hq as (k & Hne' & Hq).
    destruct (Hkey k q Hne' Hq) as [_ Hk].
    apply HR in HqR as (k' & Hne'' & HqR).
    destruct (nameGroup_resolved o w _ Hne'') as (_ & _ & Hall' & _).
    assert (Hin' : In q (withKey key k' imageFiles)) by (apply Hall'; now right).
    apply withKey_In in Hin' as [_ Hk'].
    assert (Ek : k' = k) by (injection Hk' as Hk'; congruence).
    rewrite Ek in HqR.
    destruct (nameGroup_resolved o w _ Hne') as (_ & Hnot & _).
    apply Hnot. rewrite <- Hq. exact HqR. }
  assert (HRfiles : forall p, In p R -> In p imageFiles).
  { intros p Hp. apply HR in Hp as (k & Hne' & Hp).
    destruct (nameGroup_resolved o w _ Hne') as (_ & _ & Hall & _).
    assert (Hin : In p (withKey key k imageFiles)) by (apply Hall; now right).
    now apply withKey_In in Hin as [Hin _]. }
  destruct (removeAll o R (w, st)) as [w' st'] eqn:Hrun.
  assert (Hw' : w' = fst (removeAll o R (w, st))) by now rewrite Hrun.
  exists w', st', kept. split; [reflexivity|].
  split; [|split; [|split; [|split; [|split; [|split]]]]].
  - intros p Hp. destruct (Hclass p Hp) as [Hin Hg].
    assert (Hne' : withKey key (nameKey o p) imageFiles <> [])
      by (intros E; rewrite E in Hin; destruct Hin).
    destruct (nameGroup_resolved o w _ Hne') as (Hq & _ & _ & Hsuf & Hold).
    eexists. split; [apply Hkept; eauto|].
    split; [now apply (Hkey (nameKey o p) _ Hne')|]. split; [now apply Hsuf|now apply Hold].
  - intros q q' Hq Hq' Hsame.
    apply Hkept in Hq as (k & Hne' & Hq). apply Hkept in Hq' as (k' & Hne'' & Hq').
    destruct (Hkey k q Hne' Hq) as [_ Hk]. destruct (Hkey k' q' Hne'' Hq') as [_ Hk'].
    assert (k' = k) by congruence. subst k'. congruence.
  - intros q Hq. pose proof (HkeptR q Hq) as HnR.
    apply Hkept in Hq as (k & Hne' & Hq). split; [now apply (Hkey k q Hne' Hq)|].
    rewrite Hw'. now apply removeAll_other.
  - intros p Hp. rewrite Hw'. apply removeAll_other. intros HpR. apply Hp.
    now apply HRfiles.
  - intros p Hp Hnk. destruct (Hclass p Hp) as [Hin Hg].
    assert (Hne' : withKey key (nameKey o p) imageFiles <> [])
      by (intros E; rewrite E in Hin; destruct Hin).
    destruct (nameGroup_resolved o w _ Hne') as (_ & _ & Hall & _).
    apply Hall in Hin as [Hpk|HpR].
    + exfalso. apply Hnk. apply Hkept. eauto.
    + assert (HinR : In p R) by (apply HR; eauto).
      rewrite Hw'. destruct (dryRun o) eqn:Hdry.
      * now rewrite removeAll_dry.
      * now apply removeAll_removed.
  - intros Hnd. unfold kept, groups. rewrite map_map.
    apply NoDup_map_pick.
    + apply groupByKey_NoDup; [exact Hnd| |apply NoDup_nil_2]. intros x _ [].
    + intros g Hg. apply HG in Hg as (k & -> & Hne').
      now destruct (nameGroup_resolved o w _ Hne') as (Hin & _).
  - intros Hdry. rewrite Hw'. now apply removeAll_dry.
Qed.

(** X16.  [handleFilenameDuplicates] on photos that are there: of the
    files with one name (a name with the preferred suffix counting as the
    name without it) exactly one is kept, one with the suffix if a file of
    that name carries it, and no file of the name that is like it in this
    respect is older; the kept files are left as they are, the other files
    of the list are removed unless this is a dry run, and no file outside
    the list is touched. *)
Theorem handleFilenameDuplicates_keeps_one_per_name (o : Organizer) (w : World)
    (st : Stats) (imageFiles : list string) :
  (forall f, In f imageFiles -> hasExt imageExtensions f = true) ->
  (forall f, In f imageFiles -> is_Some (files w !! f)) ->
  exists w' st' kept,
    handleFilenameDuplicates o w st imageFiles = Returns (w', st', kept)
    /\ (forall p, In p imageFiles ->
          exists q, In q kept /\ nameKey o q = nameKey o p
                    /\ (hasDuplicateSuffix o p = true -> hasDuplicateSuffix o q = true)
                    /\ (hasDuplicateSuffix o q = hasDuplicateSuffix o p ->
                        mtimeOf w q <= mtimeOf w p))
    /\ (forall q q', In q kept -> In q' kept -> nameKey o q = nameKey o q' -> q = q')
    /\ (forall q, In q kept -> In q imageFiles /\ files w' !! q = files w !! q)
    /\ (forall p, ~ In p imageFiles -> files w' !! p = files w !! p)
    /\ (forall p, In p imageFiles -> ~ In p kept ->
          files w' !! p = if dryRun o then files w !! p else None).
Proof.
  intros _ Hex.
  destruct (handleFilenameDuplicates_spec o w st imageFiles Hex)
    as (w' & st' & kept & H1 & H2 & H3 & H4 & H5 & H6 & _ & _).
  exists w', st', kept. repeat split; try assumption; now apply H4.
Qed.

(** An instance: the three files of the example folder, two of one name. *)
Lemma handleFilenameDuplicates_keeps_one_per_name_witness :
  exists w' st' kept,
    handleFilenameDuplicates editedSuffixOrganizer threeCopies noStats ["/d/x.jpg"; "/d/x_edited.jpg"; "/d/y.jpg"]
    = Returns (w', st', kept)
    /\ (forall p, In p ["/d/x.jpg"; "/d/x_edited.jpg"; "/d/y.jpg"] ->
          exists q, In q kept
                    /\ nameKey editedSuffixOrganizer q = nameKey editedSuffixOrganizer p
                    /\ (hasDuplicateSuffix editedSuffixOrganizer p = true ->
                        hasDuplicateSuffix editedSuffixOrganizer q = true)
                    /\ (hasDuplicateSuffix editedSuffixOrganizer q
                        = hasDuplicateSuffix editedSuffixOrganizer p ->
                        mtimeOf threeCopies q <= mtimeOf threeCopies p))
    /\ (forall q q', In q kept -> In q' kept ->
          nameKey editedSuffixOrganizer q = nameKey editedSuffixOrganizer q' -> q = q')
    /\ (forall q, In q kept ->
          In q ["/d/x.jpg"; "/d/x_edited.jpg"; "/d/y.jpg"] /\ files w' !! q = files threeCopies !! q)
    /\ (forall p, ~ In p ["/d/x.jpg"; "/d/x_edited.jpg"; "/d/y.jpg"] -> files w' !! p = files threeCopies !! p)
    /\ (forall p, In p ["/d/x.jpg"; "/d/x_edited.jpg"; "/d/y.jpg"] -> ~ In p kept ->
          files w' !! p
          = if dryRun editedSuffixOrganizer then files threeCopies !! p else None).
Proof.
  apply (handleFilenameDuplicates_keeps_one_per_name editedSuffixOrganizer
           threeCopies noStats ["/d/x.jpg"; "/d/x_edited.jpg"; "/d/y.jpg"]).
  { apply forallb_forall. vm_compute. reflexivity. }
  intros f [<-|[<-|[<-|[]]]].
  - exists (plainFile 9 1). vm_compute. reflexivity.
  - exists (plainFile 9 2). vm_compute. reflexivity.
  - exists (plainFile 9 3). vm_compute. reflexivity.
Defined.


(** ** The cache, written and read back *)

Lemma has_set (V : Type) (m : ValMap V) (k k1 : jsval) (v : V) :
  JsMap.has Js.same (JsMap.set Js.same m k v) k1
  = JsMap.has Js.same m k1 || Js.same k k1.
Proof.
  unfold JsMap.has. induction m as [|[k2 v2] m IH]; cbn.
  - now destruct (Js.same k k1).
  - destruct (Js.same k2 k) eqn:E2; cbn.
    + destruct (Js.same k2 k1) eqn:E1; [reflexivity|].
      destruct (Js.same k k1) eqn:E; [|now rewrite orb_false_r].
      apply Js_same_sound in E2. subst k2. congruence.
    + destruct (Js.same k2 k1); [reflexivity|exact IH].
Qed.

Lemma distinctKeys_set {V : Type} (m : ValMap V) (k : jsval) (v : V) :
  distinctKeys m -> distinctKeys (JsMap.set Js.same m k v).
Proof.
  induction m as [|[k1 v1] m IH]; cbn.
  - auto.
  - intros [Hk1 Hm]. destruct (Js.same k1 k) eqn:E; cbn; [auto|].
    split; [|auto]. rewrite has_set, Hk1. cbn.
    destruct (Js.same k k1) eqn:E'; [|reflexivity].
    pose proof E' as E''. apply Js_same_sound in E'. subst k1. congruence.
Qed.

Lemma fillCache_written (cache : ValMap jsval) :
  forall acc,
    fillCache (map (fun kv => JArr [default JNull (fst kv); default JNull (snd kv)])
                   cache) acc
    = Returns (fold_left (fun c kv => JsMap.set Js.same c (throughJson (fst kv))
                                                (throughJson (snd kv)))
                         cache acc).
Proof.
  induction cache as [|[k v] cache IH]; intros acc; [reflexivity|].
  cbn [map fillCache destructurePair nth_error fold_left fst snd]. apply IH.
Qed.

(** What [loadHashCache] reads after a write of the cache. *)
Lemma loadHashCache_written (bp : BatchProcessor) (w : World) (now : Z)
    (cache : ValMap jsval) :
  loadHashCache bp (Fs.writeJson w (hashCacheFile bp) (cacheData now cache))
  = reloaded cache.
Proof.
  unfold cacheData.
  change (Fs.writeJson w (hashCacheFile bp) ?j) with (withCacheFile bp w j).
  rewrite loadHashCache_snapshot, fillCache_written. reflexivity.
Qed.

Lemma same_throughJson_str (k : jsval) (s : string) :
  Js.same (throughJson k) (Js.str s) = Js.same k (Js.str s).
Proof. now destruct k as [[| | | | |]|]. Qed.

Lemma reload_get (cache : ValMap jsval) (s : string) :
  distinctKeys cache ->
  forall acc,
    JsMap.get Js.same
      (fold_left (fun c kv => JsMap.set Js.same c (throughJson (fst kv))
                                        (throughJson (snd kv))) cache acc)
      (Js.str s)
    = match JsMap.get Js.same cache (Js.str s) with
      | Some v => Some (throughJson v)
      | None => JsMap.get Js.same acc (Js.str s)
      end.
Proof.
  induction cache as [|[k v] cache IH]; intros Hd acc; [reflexivity|].
  destruct Hd as [Hk Hd]. cbn [fold_left fst snd JsMap.get].
  rewrite (IH Hd).
  destruct (Js.same k (Js.str s)) eqn:E.
  - apply Js_same_sound in E. subst k. unfold JsMap.has in Hk.
    destruct (JsMap.get Js.same cache (Js.str s)); [discriminate|].
    apply (get_set_eq Js.same). cbn. apply String.eqb_refl.
  - destruct (JsMap.get Js.same cache (Js.str s)); [reflexivity|].
    apply (get_set_ne Js.same Js_same_sound).
    intros Ek. pose proof (same_throughJson_str k s) as Hs.
    rewrite Ek, E in Hs. cbn in Hs. rewrite String.eqb_refl in Hs. discriminate.
Qed.

Lemma fillCache_distinct (items : list json) :
  forall acc cache,
    distinctKeys acc -> fillCache items acc = Returns cache -> distinctKeys cache.
Proof.
  induction items as [|item items IH]; intros acc cache Hd; cbn [fillCache].
  - now intros [= <-].
  - destruct (destructurePair item) as [[file entry]|]; [|discriminate].
    apply IH. now apply distinctKeys_set.
Qed.

(** What [loadHashCache] returns is a map. *)
Lemma loadHashCache_distinct (bp : BatchProcessor) (w : World) :
  distinctKeys (loadHashCache bp w).
Proof.
  unfold loadHashCache, loadHashCacheTry.
  destruct (Fs.pathExists w (hashCacheFile bp)); [|exact I].
  destruct (Fs.readJson w (hashCacheFile bp)) as [[| | | | |props]|]; try exact I.
  destruct (Js.lookup "entries" props) as [[| | | |items|]|]; try exact I.
  destruct (fillCache items []) as [cache|] eqn:E; [|exact I].
  now apply (fillCache_distinct items [] cache I).
Qed.

(** The loop of [updateCacheWithNewFiles] over the index: an entry the
    cache has is left as it is, and a file of the index without one gets the
    entry of its hash and its modification time. *)
Lemma newFiles_fold (w : World) (index : ValMap string) :
  forall cache,
    let step := fun (cache : ValMap jsval) (ht : jsval * string) =>
      let '(hash, targetFile) := ht in
      if JsMap.has Js.same cache (Js.str targetFile) then cache
      else match Fs.stat w targetFile with
           | Returns stats =>
               JsMap.set Js.same cache (Js.str targetFile)
                         (cacheEntry hash (Js.num (mtime stats)))
           | Throws => cache
           end in
    distinctKeys cache ->
    distinctKeys (fold_left step index cache)
    /\ (forall file e, JsMap.get Js.same cache (Js.str file) = Some e ->
          JsMap.get Js.same (fold_left step index cache) (Js.str file) = Some e)
    /\ (forall file hash f,
          JsMap.has Js.same cache (Js.str file) = false ->
          files w !! file = Some f ->
          In (hash, file) index ->
          (forall hash', In (hash', file) index -> hash' = hash) ->
          JsMap.get Js.same (fold_left step index cache) (Js.str file)
          = Some (cacheEntry hash (Js.num (mtime f)))).
Proof.
  induction index as [|[h tf] index IH]; intros cache step Hd.
  - cbn. split; [exact Hd|]. split; [auto|]. intros file hash f _ _ [].
  - cbn [fold_left].
    assert (Hstep : distinctKeys (step cache (h, tf))
                    /\ (forall file e, JsMap.get Js.same cache (Js.str file) = Some e ->
                          JsMap.get Js.same (step cache (h, tf)) (Js.str file) = Some e)
                    /\ (forall file, file <> tf ->
                          JsMap.has Js.same (step cache (h, tf)) (Js.str file)
                          = JsMap.has Js.same cache (Js.str file))
                    /\ (forall f, JsMap.has Js.same cache (Js.str tf) = false ->
                          files w !! tf = Some f ->
                          JsMap.get Js.same (step cache (h, tf)) (Js.str tf)
                          = Some (cacheEntry h (Js.num (mtime f))))).
    { unfold step. destruct (JsMap.has Js.same cache (Js.str tf)) eqn:Hhas.
      - split; [exact Hd|]. split; [auto|]. split; [auto|]. discriminate.
      - unfold Fs.stat. destruct (files w !! tf) as [f0|] eqn:Hf.
        + split; [now apply distinctKeys_set|]. split; [|split].
          * intros file e He. rewrite (get_set_ne Js.same Js_same_sound); [exact He|].
            intros [= ->]. unfold JsMap.has in Hhas. now rewrite He in Hhas.
          * intros file Hne. apply (has_set_ne Js.same Js_same_sound).
            unfold Js.str. congruence.
          * intros f _ [= <-]. apply (get_set_eq Js.same). cbn. apply String.eqb_refl.
        + split; [exact Hd|]. split; [auto|]. split; [auto|]. discriminate. }
    destruct Hstep as (S1 & S2 & S3 & S4).
    destruct (IH (step cache (h, tf)) S1) as (I1 & I2 & I3).
    split; [exact I1|]. split; [intros file e He; apply I2; now apply S2|].
    intros file hash f Hhas Hf Hin Huniq.
    destruct (String.string_dec file tf) as [->|Hne].
    + assert (h = hash) by (apply Huniq; now left). subst h.
      apply I2. now apply S4.
    + destruct Hin as [[= _ E]|Hin]; [congruence|].
      apply I3; [rewrite S3 by exact Hne; exact Hhas|exact Hf|exact Hin|].
      intros hash' Hin'. apply Huniq. now right.
Qed.

Lemma cacheEntry_covers (hash : jsval) (m : Z) :
  Js.truthy (cacheEntry hash (Js.num m)) = true
  /\ cacheEntry hash (Js.num m) ≫= Js.prop "modTime" = Js.num m
  /\ cacheEntry hash (Js.num m) ≫= Js.prop "hash" = hash.
Proof. destruct hash as [h|]; cbn; auto. Qed.

Lemma throughJson_cacheEntry (hash modTime : jsval) :
  throughJson (cacheEntry hash modTime) = cacheEntry hash modTime.
Proof. reflexivity. Qed.

(** The entry of a file of the index, written and read back. *)
Lemma updateCacheWithNewFiles_entry (bp : BatchProcessor) (w : World)
    (index : ValMap string) (hash : jsval) (file : string) (f : File) :
  files w !! file = Some f ->
  file <> hashCacheFile bp ->
  In (hash, file) index ->
  (forall hash', In (hash', file) index -> hash' = hash) ->
  JsMap.has Js.same (loadHashCache bp w) (Js.str file) = false ->
  let w' := updateCacheWithNewFiles bp w index in
  cachedEntryOf (loadHashCache bp w') file = cacheEntry hash (Js.num (mtime f))
  /\ cacheCovers (loadHashCache bp w') w' file = true
  /\ cachedEntryOf (loadHashCache bp w') file ≫= Js.prop "hash" = hash
  /\ forall other e,
       JsMap.get Js.same (loadHashCache bp w) (Js.str other) = Some e ->
       JsMap.get Js.same (loadHashCache bp w') (Js.str other) = Some (throughJson e).
Proof.
  intros Hf Hne Hin Huniq Hhas w'.
  destruct (newFiles_fold w index (loadHashCache bp w) (loadHashCache_distinct bp w))
    as (Hd & Hold & Hnew).
  specialize (Hnew file hash f Hhas Hf Hin Huniq).
  assert (Hload : forall s,
            JsMap.get Js.same (loadHashCache bp w') (Js.str s)
            = option_map throughJson
                (JsMap.get Js.same
                   (fold_left
                      (fun cache ht =>
                         let '(hash, targetFile) := ht in
                         if JsMap.has Js.same cache (Js.str targetFile) then cache
                         else match Fs.stat w targetFile with
                              | Returns stats =>
                                  JsMap.set Js.same cache (Js.str targetFile)
                                    (cacheEntry hash (Js.num (mtime stats)))
                              | Throws => cache
                              end) index (loadHashCache bp w))
                   (Js.str s))).
  { intros s. unfold w', updateCacheWithNewFiles. rewrite loadHashCache_written.
    unfold reloaded. rewrite (reload_get _ s Hd).
    now destruct (JsMap.get Js.same _ (Js.str s)). }
  assert (Hentry : cachedEntryOf (loadHashCache bp w') file
                   = cacheEntry hash (Js.num (mtime f))).
  { unfold cachedEntryOf. rewrite Hload, Hnew. reflexivity. }
  destruct (cacheEntry_covers hash (mtime f)) as (C1 & C2 & C3).
  split; [exact Hentry|]. split; [|split].
  - unfold cacheCovers. rewrite Hentry, C1, C2. cbn [andb].
    unfold currentModTimeOf, w'. rewrite updateCacheWithNewFiles_other by exact Hne.
    rewrite Hf. cbn. apply Z.eqb_refl.
  - now rewrite Hentry.
  - intros other e He. rewrite Hload, (Hold other e He). reflexivity.
Qed.

(** X17.  What [updateCacheWithNewFiles] writes and the next
    [loadHashCache] reads: a file of the index that exists and had no entry
    has the entry of its hash and its modification time, which the next
    [buildTargetHashDatabase] takes as valid; and an entry that the cache
    had is kept as it was. *)
Theorem updateCacheWithNewFiles_records (bp : BatchProcessor) (w : World)
    (index : ValMap string) (hash : jsval) (file : string) (f : File) :
  files w !! file = Some f ->
  file <> hashCacheFile bp ->
  In (hash, file) index ->
  (forall hash', In (hash', file) index -> hash' = hash) ->
  JsMap.has Js.same (loadHashCache bp w) (Js.str file) = false ->
  let w' := updateCacheWithNewFiles bp w index in
  cachedEntryOf (loadHashCache bp w') file = cacheEntry hash (Js.num (mtime f))
  /\ cacheCovers (loadHashCache bp w') w' file = true
  /\ cachedEntryOf (loadHashCache bp w') file ≫= Js.prop "hash" = hash
  /\ forall other e,
       JsMap.get Js.same (loadHashCache bp w) (Js.str other) = Some e ->
       JsMap.get Js.same (loadHashCache bp w') (Js.str other) = Some (throughJson e).
Proof. apply updateCacheWithNewFiles_entry. Qed.

(** An instance: the file of the example target. *)
Lemma updateCacheWithNewFiles_records_witness :
  let w' := updateCacheWithNewFiles exampleBatch twoAlike
              [(Js.str "6-no-exif", "/t/2021/05/2021-05-01_001.jpg")] in
  cachedEntryOf (loadHashCache exampleBatch w') "/t/2021/05/2021-05-01_001.jpg"
  = cacheEntry (Js.str "6-no-exif") (Js.num (mtime (plainFile 6 4)))
  /\ cacheCovers (loadHashCache exampleBatch w') w' "/t/2021/05/2021-05-01_001.jpg" = true
  /\ cachedEntryOf (loadHashCache exampleBatch w') "/t/2021/05/2021-05-01_001.jpg"
       ≫= Js.prop "hash" = Js.str "6-no-exif"
  /\ forall other e,
       JsMap.get Js.same (loadHashCache exampleBatch twoAlike) (Js.str other) = Some e ->
       JsMap.get Js.same (loadHashCache exampleBatch w') (Js.str other)
       = Some (throughJson e).
Proof.
  apply (updateCacheWithNewFiles_records exampleBatch twoAlike
           [(Js.str "6-no-exif", "/t/2021/05/2021-05-01_001.jpg")]
           (Js.str "6-no-exif") "/t/2021/05/2021-05-01_001.jpg" (plainFile 6 4)).
  - vm_compute. reflexivity.
  - vm_compute. discriminate.
  - now left.
  - intros hash' [[= <-]|[]]. reflexivity.
  - vm_compute. reflexivity.
Defined.

(** ** A second run *)

Lemma loadHashCache_ext (bp : BatchProcessor) (w1 w2 : World) :
  files w1 !! hashCacheFile bp = files w2 !! hashCacheFile bp ->
  loadHashCache bp w1 = loadHashCache bp w2.
Proof.
  intros E. unfold loadHashCache, loadHashCacheTry, Fs.pathExists, Fs.readJson.
  now rewrite E.
Qed.

Lemma get_filter_out {V : Type} (keep : jsval * V -> bool) (m : ValMap V) (k : jsval) :
  (forall v, keep (k, v) = false) ->
  JsMap.get Js.same (List.filter keep m) k = None.
Proof.
  intros Hk. induction m as [|[k1 v1] m IH]; [reflexivity|]. cbn.
  destruct (keep (k1, v1)) eqn:E; [|exact IH]. cbn.
  destruct (Js.same k1 k) eqn:Es; [|exact IH].
  apply Js_same_sound in Es. subst k1. now rewrite Hk in E.
Qed.

Lemma has_filter_false {V : Type} (keep : jsval * V -> bool) (m : ValMap V) (k : jsval) :
  JsMap.has Js.same m k = false -> JsMap.has Js.same (List.filter keep m) k = false.
Proof.
  unfold JsMap.has. induction m as [|[k1 v1] m IH]; [reflexivity|]. cbn.
  destruct (Js.same k1 k) eqn:Es; [discriminate|]. intros H.
  destruct (keep (k1, v1)); cbn; [rewrite Es|]; now apply IH.
Qed.

Lemma distinctKeys_filter {V : Type} (keep : jsval * V -> bool) (m : ValMap V) :
  distinctKeys m -> distinctKeys (List.filter keep m).
Proof.
  induction m as [|[k1 v1] m IH]; [auto|]. cbn. intros [Hk Hd].
  destruct (keep (k1, v1)); cbn; [|auto]. split; [|auto]. now apply has_filter_false.
Qed.

Lemma distinctKeys_fold_set {A : Type} (key : A -> jsval) (val : A -> jsval)
    (l : list A) :
  forall m, distinctKeys m ->
            distinctKeys (fold_left (fun c x => JsMap.set Js.same c (key x) (val x)) l m).
Proof.
  induction l as [|x l IH]; intros m Hd; [exact Hd|].
  cbn. apply IH. now apply distinctKeys_set.
Qed.

(** After [updateHashCache] the cache has no entry for a path that is not
    one of the index. *)
Lemma updateHashCache_pruned (bp : BatchProcessor) (w : World)
    (newEntries : StrMap jsval) (allHashes : ValMap string) (p : string) :
  ~ In p (JsMap.values allHashes) ->
  JsMap.has Js.same (loadHashCache bp (updateHashCache bp w newEntries allHashes))
            (Js.str p) = false.
Proof.
  intros Hp. unfold updateHashCache. rewrite loadHashCache_written.
  unfold JsMap.has, reloaded. rewrite reload_get.
  - rewrite get_filter_out; [reflexivity|]. intros v. cbn.
    destruct (existsb (String.eqb p) (JsMap.values allHashes)) eqn:E; [|reflexivity].
    apply existsb_exists in E as (q & Hq & Epq). apply String.eqb_eq in Epq.
    subst q. contradiction.
  - apply distinctKeys_filter.
    apply (distinctKeys_fold_set (fun fe => Js.str (fst fe)) snd).
    apply loadHashCache_distinct.
Qed.

(** Building the index gives the cache no entry for a path that is not a
    file of the target. *)
Lemma buildTargetHashDatabase_cache `{Md5} (bp : BatchProcessor) (w : World) (p : string) :
  ~ In p (Fs.scan w (targetDirectory bp)) ->
  JsMap.has Js.same (loadHashCache bp w) (Js.str p) = false ->
  JsMap.has Js.same (loadHashCache bp (snd (buildTargetHashDatabase bp w))) (Js.str p)
  = false.
Proof.
  intros Hp Hhas.
  pose proof (buildTargetHashDatabase_index bp w) as [Hvalues _].
  unfold buildTargetHashDatabase in *.
  destruct (negb (Fs.dirExists w (targetDirectory bp))); [exact Hhas|].
  unfold buildTargetWith in *.
  destruct (Fs.scan w (targetDirectory bp)) as [|f0 fs] eqn:Hscan; [exact Hhas|].
  destruct (splitByCache _ _ _) as [valid toHash].
  destruct toHash as [|g gs]; [exact Hhas|].
  destruct (hashRemaining _ _ _ _) as [index entries]. cbn [fst snd] in *.
  apply updateHashCache_pruned. intros Hin. apply Hp. now apply Hvalues.
Qed.

Lemma set_absent {V : Type} (m : ValMap V) (k : jsval) (v : V) :
  JsMap.has Js.same m k = false -> JsMap.set Js.same m k v = m ++ [(k, v)].
Proof.
  unfold JsMap.has. induction m as [|[k1 v1] m IH]; [reflexivity|]. cbn.
  destruct (Js.same k1 k); [discriminate|]. intros H. now rewrite IH.
Qed.

(** One turn of the loop, for the files and for the index: a copy adds a
    file and an entry, and nothing else changes. *)
Lemma copyStep_adds (bp : BatchProcessor) (sourcePath : string)
    (sourceHashes : StrMap string) (s s' : Merge) (sourceFile : string) (a : Action) :
  copyStep bp sourcePath sourceHashes s sourceFile = Some (Returns (a, s')) ->
  match a with
  | Copy sf final =>
      exists h, JsMap.get String.eqb sourceHashes sf = Some h
                /\ targetHashes s' = targetHashes s ++ [(Js.str h, final)]
                /\ forall q, q <> final -> files (world s') !! q = files (world s) !! q
  | _ => targetHashes s' = targetHashes s /\ world s' = world s
  end.
Proof.
  unfold copyStep.
  destruct (JsMap.get String.eqb sourceHashes sourceFile) as [h|] eqn:Hh;
    [|intros [= <- <-]; auto].
  destruct (String.eqb h ""); [intros [= <- <-]; auto|].
  destruct (JsMap.has Js.same (targetHashes s) (Js.str h)) eqn:Hhas;
    [intros [= <- <-]; auto|].
  destruct (findUniqueFilename (world s) _) as [final|]; [|discriminate].
  unfold Fs.copy. destruct (files (world s) !! sourceFile) as [f|]; [|discriminate].
  intros [= <- <-]. cbn. exists h. split; [exact Hh|].
  split; [now apply set_absent|]. intros q Hq. now apply lookup_insert_ne.
Qed.

(** The loop, for the files and for the index: the index grows by the
    entries of the copies, and a path no copy goes to keeps its file, or
    stays free. *)
Lemma copyLoop_adds (bp : BatchProcessor) (sourcePath : string)
    (sourceHashes : StrMap string) (sourceFiles : list string) :
  forall s0 acts s,
    copyLoop bp sourcePath sourceHashes sourceFiles s0 = Some (Returns (acts, s)) ->
    targetHashes s = targetHashes s0 ++ omap (copiedEntry sourceHashes) acts
    /\ forall q, ~ In q (copyTargets acts) ->
         files (world s) !! q = files (world s0) !! q.
Proof.
  induction sourceFiles as [|f0 rest IH]; intros s0 acts s; cbn [copyLoop].
  - intros [= <- <-]. cbn. now rewrite app_nil_r.
  - destruct (copyStep bp sourcePath sourceHashes s0 f0) as [[[a s1]|]|] eqn:Hstep;
      [|discriminate|discriminate].
    destruct (copyLoop bp sourcePath sourceHashes rest s1) as [[[acts' s']|]|] eqn:Hloop;
      [|discriminate|discriminate].
    intros [= <- <-]. destruct (IH s1 acts' s' Hloop) as [Hidx Hfiles].
    apply copyStep_adds in Hstep. rewrite Hidx.
    destruct a as [x|x|sf final]; cbn [omap copiedEntry copyTargets].
    + destruct Hstep as [Hi Hw]. rewrite Hi, <- Hw. split; [reflexivity|exact Hfiles].
    + destruct Hstep as [Hi Hw]. rewrite Hi, <- Hw. split; [reflexivity|exact Hfiles].
    + destruct Hstep as (h & Hh & -> & Hother). simpl. rewrite Hh. simpl.
      split; [now rewrite <- app_assoc|].
      intros q Hq. rewrite Hfiles by (intros H; apply Hq; now right).
      apply Hother. intros ->. apply Hq. now left.
Qed.

Lemma copyTargets_unique (acts : list Action) (a b final : string) :
  NoDup (copyTargets acts) ->
  In (Copy a final) acts -> In (Copy b final) acts -> a = b.
Proof.
  induction acts as [|x acts IH]; [intros _ []|].
  intros Hnd [->|Ha] [Hb|Hb].
  - now injection Hb.
  - cbn in Hnd. apply NoDup_cons in Hnd as [Hnot _]. exfalso. apply Hnot.
    apply list_elem_of_In, copyTargets_In. eauto.
  - subst x. cbn in Hnd. apply NoDup_cons in Hnd as [Hnot _]. exfalso. apply Hnot.
    apply list_elem_of_In, copyTargets_In. eauto.
  - apply IH; [|exact Ha|exact Hb].
    destruct x; cbn in Hnd; [exact Hnd|exact Hnd|].
    now apply NoDup_cons in Hnd as [_ Hnd].
Qed.

(** A file whose fingerprint the index has is skipped. *)
Lemma copyLoop_skips (bp : BatchProcessor) (sourcePath : string)
    (sourceHashes : StrMap string) (sourceFiles : list string) (sf h : string) :
  JsMap.get String.eqb sourceHashes sf = Some h -> h <> "" ->
  forall s0 acts s,
    In sf sourceFiles ->
    JsMap.has Js.same (targetHashes s0) (Js.str h) = true ->
    copyLoop bp sourcePath sourceHashes sourceFiles s0 = Some (Returns (acts, s)) ->
    In (Skip sf) acts.
Proof.
  intros Hh Hne.
  induction sourceFiles as [|f0 rest IH]; intros s0 acts s; [intros []|].
  cbn [copyLoop]. intros Hin Hhas.
  destruct (copyStep bp sourcePath sourceHashes s0 f0) as [[[a s1]|]|] eqn:Hstep;
    [|discriminate|discriminate].
  destruct (copyLoop bp sourcePath sourceHashes rest s1) as [[[acts' s']|]|] eqn:Hloop;
    [|discriminate|discriminate].
  intros [= <- <-].
  destruct (String.string_dec f0 sf) as [->|Hne0].
  - rewrite (copyStep_skip bp sourcePath sourceHashes s0 sf h Hh Hne Hhas) in Hstep.
    injection Hstep as <- _. now left.
  - destruct Hin as [|Hin]; [contradiction|]. right.
    apply (IH s1 acts' s' Hin); [|exact Hloop].
    apply copyStep_index in Hstep
      as [(-> & _) | (h' & final & _ & _ & _ & ->)]; [exact Hhas|].
    now apply has_set_mono.
Qed.

Lemma scan_In (w : World) (dir p : string) :
  In p (Fs.scan w dir)
  <-> is_Some (files w !! p) /\ Str.startsWith (dir +:+ "/") p = true.
Proof.
  unfold Fs.scan. rewrite filter_In, in_map_iff. split.
  - intros [([q f] & <- & Hin) Hs]. split; [|exact Hs].
    apply list_elem_of_In, elem_of_map_to_list in Hin. cbn. eauto.
  - intros [[f Hf] Hs]. split; [|exact Hs]. exists (p, f). split; [reflexivity|].
    now apply list_elem_of_In, elem_of_map_to_list.
Qed.

Lemma createFileFingerprint_ext `{Md5} (w1 w2 : World) (p : string) :
  files w1 !! p = files w2 !! p ->
  createFileFingerprint w1 p = createFileFingerprint w2 p.
Proof. intros E. unfold createFileFingerprint, Fs.stat. now rewrite E. Qed.

Lemma keys_has {V : Type} (m : ValMap V) (k : jsval) :
  Js.same k k = true -> In k (JsMap.keys m) -> JsMap.has Js.same m k = true.
Proof.
  intros Hr. unfold JsMap.has, JsMap.keys.
  induction m as [|[k1 v1] m IH]; cbn; [intros []|].
  intros [->|Hin]; [now rewrite Hr|].
  destruct (Js.same k1 k); [reflexivity|now apply IH].
Qed.

Lemma createFileFingerprint_not_empty `{Md5} (w : World) (p h : string) :
  createFileFingerprint w p = Returns h -> h <> "".
Proof.
  intros Hh. apply createFileFingerprint_shape in Hh as (stats & rest & _ & ->).
  intros E. apply (f_equal String.length) in E. rewrite !append_length in E.
  cbn in E. lia.
Qed.

(** A run of the merge from the loop. *)
Lemma copyOrganizedFiles_of_loop `{Md5} (bp : BatchProcessor) (w : World)
    (gs : GlobalStats) (sourcePath : string) (acts : list Action) (s1 : Merge) :
  copyLoop bp sourcePath (buildHashDatabase w (Fs.scan w sourcePath))
    (Fs.scan w sourcePath)
    {| world := snd (buildTargetHashDatabase bp w);
       targetHashes := fst (buildTargetHashDatabase bp w);
       copiedCount := 0; globalStats := gs |}
  = Some (Returns (acts, s1)) ->
  exists s, copyOrganizedFiles bp w gs sourcePath = Some (Returns (acts, s)).
Proof.
  intros Hloop. unfold copyOrganizedFiles.
  destruct (buildTargetHashDatabase bp w) as [index w1]. cbn [fst snd] in *.
  rewrite Hloop. eauto.
Qed.

(** Where no folder is in the way, the next run returns and skips the
    source file of a copy. *)
Lemma second_run_finds_copy `{Md5} (bp : BatchProcessor) (w : World)
    (gs gs' : GlobalStats) (sourcePath : string) (acts : list Action) (s : Merge)
    (sf final : string) :
  copyOrganizedFiles bp w gs sourcePath = Some (Returns (acts, s)) ->
  In (Copy sf final) acts ->
  sf <> hashCacheFile bp ->
  ~ In (hashCacheFile bp) (copyTargets acts) ->
  Str.startsWith (targetDirectory bp +:+ "/") final = true ->
  JsMap.has Js.same (loadHashCache bp w) (Js.str final) = false ->
  exists acts' s',
    copyOrganizedFiles bp (world s) gs' sourcePath = Some (Returns (acts', s'))
    /\ In (Skip sf) acts'.
Proof.
  intros Hrun Hcopy Hsf Hcf Hunder Hstale.
  apply copyOrganizedFiles_inv in Hrun as (s1 & Hloop & _ & _ & _ & Hworld).
  set (w1 := snd (buildTargetHashDatabase bp w)) in *.
  set (index0 := fst (buildTargetHashDatabase bp w)) in *.
  assert (Hsrc : forall x, In x (Fs.scan w sourcePath) ->
                           is_Some (files (world {| world := w1; targetHashes := index0;
                                                    copiedCount := 0; globalStats := gs |})
                                      !! x)).
  { intros x Hx. apply buildTargetHashDatabase_keeps. now apply scan_exists in Hx. }
  destruct (copyLoop_files _ _ _ _ _ _ _ Hloop Hsrc)
    as (Hmap & Hkeep & Hcount & _ & Hnd & Hcopies).
  destruct (copyLoop_adds _ _ _ _ _ _ _ Hloop) as [Hidx Hfiles].
  cbn [world targetHashes copiedCount] in *.
  destruct (Hcopies sf final Hcopy) as (Hfree1 & f & f' & Hf1 & Hf' & _).
  (* the source file and its fingerprint *)
  assert (Hsfscan : In sf (Fs.scan w sourcePath)).
  { rewrite <- Hmap. apply in_map_iff. now exists (Copy sf final). }
  assert (Hsfw : files w1 !! sf = files w !! sf)
    by (apply buildTargetHashDatabase_other; exact Hsf).
  assert (Hfpex : exists h, createFileFingerprint w sf = Returns h).
  { unfold createFileFingerprint, Fs.stat. rewrite <- Hsfw, Hf1. eauto. }
  destruct Hfpex as [h Hfp].
  assert (Hh : JsMap.get String.eqb (buildHashDatabase w (Fs.scan w sourcePath)) sf
               = Some h).
  { unfold buildHashDatabase. rewrite buildHashDatabase_get.
    destruct (in_dec String.string_dec sf (Fs.scan w sourcePath)); [|contradiction].
    now rewrite Hfp. }
  assert (Hhne : h <> "") by now apply createFileFingerprint_not_empty in Hfp.
  (* the copy is new *)
  assert (Hfree : files w !! final = None).
  { destruct (files w !! final) eqn:E; [|reflexivity].
    assert (Hk : is_Some (files w1 !! final))
      by (apply buildTargetHashDatabase_keeps; rewrite E; eauto).
    rewrite Hfree1 in Hk. now destruct Hk. }
  assert (Hnotscan : ~ In final (Fs.scan w (targetDirectory bp))).
  { intros Hin. apply scan_exists in Hin. rewrite Hfree in Hin. now destruct Hin. }
  assert (Hfinal : final <> hashCacheFile bp).
  { intros ->. apply Hcf. apply copyTargets_In. eauto. }
  (* the first run writes the cache *)
  assert (Hpos : (0 <? copiedCount s1)%nat = true).
  { apply Nat.ltb_lt. rewrite Hcount. cbn.
    assert (Hin : In (Copy sf final) (List.filter isCopy acts))
      by (apply filter_In; auto).
    destruct (List.filter isCopy acts); [destruct Hin|cbn; lia]. }
  rewrite Hpos in Hworld.
  (* the entry of the copy in the index *)
  assert (Hentry : In (Js.str h, final) (targetHashes s1)).
  { rewrite Hidx. apply in_or_app. right. apply list_elem_of_In, list_elem_of_omap.
    exists (Copy sf final). split; [now apply list_elem_of_In|]. cbn. now rewrite Hh. }
  assert (Huniq : forall hash', In (hash', final) (targetHashes s1) -> hash' = Js.str h).
  { intros hash' Hin. rewrite Hidx in Hin. apply in_app_or in Hin as [Hin|Hin].
    - exfalso. apply Hnotscan.
      apply (proj1 (buildTargetHashDatabase_index bp w)).
      apply in_map_iff. now exists (hash', final).
    - apply list_elem_of_In, list_elem_of_omap in Hin as (a & Ha & Hce).
      apply list_elem_of_In in Ha. destruct a as [x|x|sf' final']; try discriminate.
      cbn in Hce.
      destruct (JsMap.get String.eqb (buildHashDatabase w (Fs.scan w sourcePath)) sf')
        as [h'|] eqn:Hh'; [|discriminate].
      cbn in Hce. injection Hce as <- ->.
      assert (sf' = sf) by (apply (copyTargets_unique acts sf' sf final); auto).
      subst sf'. congruence. }
  assert (Hcache1 : JsMap.has Js.same (loadHashCache bp (world s1)) (Js.str final) = false).
  { rewrite (loadHashCache_ext bp (world s1) w1) by (apply Hfiles; exact Hcf).
    now apply buildTargetHashDatabase_cache. }
  destruct (updateCacheWithNewFiles_entry bp (world s1) (targetHashes s1)
              (Js.str h) final f' Hf' Hfinal Hentry Huniq Hcache1)
    as (_ & Hcovers & Hhash & _).
  cbn zeta in Hcovers, Hhash. rewrite <- Hworld in Hcovers, Hhash.
  (* the files of the source and the copy after the first run *)
  assert (Hother : forall q, q <> hashCacheFile bp ->
                             files (world s) !! q = files (world s1) !! q).
  { intros q Hq. rewrite Hworld. now apply updateCacheWithNewFiles_other. }
  assert (Hsf' : files (world s) !! sf = files w !! sf).
  { rewrite Hother by exact Hsf. rewrite Hkeep by (rewrite Hf1; eauto). exact Hsfw. }
  assert (Hfinal' : files (world s) !! final = Some f')
    by (rewrite Hother by exact Hfinal; exact Hf').
  (* the second run *)
  set (w' := world s) in *.
  set (st0 := {| world := snd (buildTargetHashDatabase bp w');
                 targetHashes := fst (buildTargetHashDatabase bp w');
                 copiedCount := 0; globalStats := gs' |}).
  assert (Hsrc' : forall x, In x (Fs.scan w' sourcePath) ->
                            is_Some (files (world st0) !! x)).
  { intros x Hx. apply buildTargetHashDatabase_keeps. now apply scan_exists in Hx. }
  destruct (copyLoop_returns bp sourcePath
              (buildHashDatabase w' (Fs.scan w' sourcePath)) _ st0 Hsrc')
    as (acts' & s1' & Hloop').
  destruct (copyOrganizedFiles_of_loop bp w' gs' sourcePath acts' s1' Hloop')
    as [s' Hrun'].
  exists acts', s'. split; [exact Hrun'|].
  assert (Hsfscan' : In sf (Fs.scan w' sourcePath)).
  { apply scan_In. apply scan_In in Hsfscan as [Hex Hst]. split; [|exact Hst].
    now rewrite Hsf'. }
  apply (copyLoop_skips bp sourcePath (buildHashDatabase w' (Fs.scan w' sourcePath))
           (Fs.scan w' sourcePath) sf h) with (s0 := st0) (s := s1');
    [|exact Hhne|exact Hsfscan'| |exact Hloop'].
  - unfold buildHashDatabase. rewrite buildHashDatabase_get.
    destruct (in_dec String.string_dec sf (Fs.scan w' sourcePath)); [|contradiction].
    rewrite (createFileFingerprint_ext w' w sf Hsf'). now rewrite Hfp.
  - cbn [targetHashes st0].
    assert (Hscan' : In final (Fs.scan w' (targetDirectory bp))).
    { apply scan_In. split; [rewrite Hfinal'; eauto|exact Hunder]. }
    pose proof (proj2 (buildTargetHashDatabase_index bp w') final Hscan') as Hidx'.
    rewrite Hcovers, Hhash in Hidx'.
    apply keys_has; [cbn; apply String.eqb_refl|exact Hidx'].
Qed.

(** X18.  A file that a run of the merge copied is skipped by the next
    run, when that one returns: the first run leaves in the cache the entry
    of the copy, with the fingerprint of the source file and the
    modification time of the copy; the next run takes the entry as valid, has
    the fingerprint in its index, and skips the source file as a duplicate.
    (The copy is below the target folder, as it is for paths that are well
    formed; the source file and the copies are not the cache file; and the
    cache had no entry left for the path of the copy.) *)
Theorem second_run_skips_copied_files `{Md5} (bp : BatchProcessor) (w : World)
    (gs gs' : GlobalStats) (sourcePath : string) (acts : list Action) (s : Merge)
    (sf final : string) (acts' : list Action) (s' : Merge) :
  copyOrganizedFiles bp w gs sourcePath = Some (Returns (acts, s)) ->
  In (Copy sf final) acts ->
  sf <> hashCacheFile bp ->
  ~ In (hashCacheFile bp) (copyTargets acts) ->
  Str.startsWith (targetDirectory bp +:+ "/") final = true ->
  JsMap.has Js.same (loadHashCache bp w) (Js.str final) = false ->
  copyOrganizedFiles bp (world s) gs' sourcePath = Some (Returns (acts', s')) ->
  In (Skip sf) acts'.
Proof.
  intros Hrun Hcopy Hsf Hcf Hunder Hstale Hrun'.
  destruct (second_run_finds_copy bp w gs gs' sourcePath acts s sf final
              Hrun Hcopy Hsf Hcf Hunder Hstale) as (acts'' & s'' & Hrun'' & Hskip).
  rewrite Hrun' in Hrun''. now injection Hrun'' as <- <-.
Qed.

(** An instance: the example run and the run after it. *)
Lemma second_run_skips_copied_files_witness :
  exists acts' s',
    copyOrganizedFiles (H := plainDigest) exampleBatch
      (worldAfter twoAlike
         (copyOrganizedFiles (H := plainDigest) exampleBatch twoAlike
            noGlobalStats "/s"))
      noGlobalStats "/s"
    = Some (Returns (acts', s'))
    /\ In (Skip "/s/2021/05/2021-05-01_001.jpg") acts'.
Proof.
  destruct (copyOrganizedFiles (H := plainDigest) exampleBatch twoAlike
              noGlobalStats "/s") as [[[acts s]|]|] eqn:E.
  - assert (Hacts : acts = [Copy "/s/2021/05/2021-05-01_001.jpg"
                                 "/t/2021/05/2021-05-01_002.jpg";
                            Skip "/s/2021/05/2021-05-01_002.jpg";
                            Skip "/s/2021/05/2021-05-02_001.jpg"]).
    { pose proof E as E'. vm_compute in E'. now injection E' as <- _. }
    cbn [worldAfter].
    destruct (copyOrganizedFiles (H := plainDigest) exampleBatch (world s)
                noGlobalStats "/s") as [[[acts' s']|]|] eqn:E2.
    + exists acts', s'. split; [reflexivity|].
      apply (@second_run_skips_copied_files plainDigest exampleBatch twoAlike
               noGlobalStats noGlobalStats "/s" acts s
               "/s/2021/05/2021-05-01_001.jpg" "/t/2021/05/2021-05-01_002.jpg"
               acts' s' E).
      * rewrite Hacts. now left.
      * vm_compute. discriminate.
      * rewrite Hacts. vm_compute. intros [Hc|[]]. discriminate.
      * vm_compute. reflexivity.
      * vm_compute. reflexivity.
      * exact E2.
    + exfalso.
      destruct (copyOrganizedFiles_counts (H := plainDigest) exampleBatch (world s)
                  noGlobalStats "/s") as (a & b & Hab & _).
      rewrite E2 in Hab. discriminate.
    + exfalso.
      destruct (copyOrganizedFiles_counts (H := plainDigest) exampleBatch (world s)
                  noGlobalStats "/s") as (a & b & Hab & _).
      rewrite E2 in Hab. discriminate.
  - vm_compute in E. discriminate.
  - vm_compute in E. discriminate.
Defined.

(** ** Where the copies go *)

Lemma startsWith_app (p s : string) : Str.startsWith p (p +:+ s) = true.
Proof.
  induction p as [|c p IH]; [reflexivity|]. rewrite append_cons. cbn.
  unfold Str.ascii_eqb. now rewrite Ascii.eqb_refl, IH.
Qed.

Lemma lastIndexOf_app_r (c : ascii) (a b : string) (j : nat) :
  Str.lastIndexOf c b = Some j ->
  Str.lastIndexOf c (a +:+ b) = Some (String.length a + j)%nat.
Proof.
  intros Hb. induction a as [|x a IH]; [exact Hb|].
  rewrite append_cons. cbn [Str.lastIndexOf String.length]. now rewrite IH.
Qed.

Lemma take_app (a b : string) (j : nat) :
  Str.take (String.length a + j) (a +:+ b) = a +:+ Str.take j b.
Proof.
  induction a as [|x a IH]; [reflexivity|].
  rewrite !append_cons. cbn [String.length Nat.add Str.take]. now rewrite IH.
Qed.

Lemma lastIndexOf_head (c : ascii) (b : string) :
  exists j, Str.lastIndexOf c (String c b) = Some j.
Proof.
  cbn. destruct (Str.lastIndexOf c b); [eauto|].
  unfold Str.ascii_eqb. rewrite Ascii.eqb_refl. eauto.
Qed.

(** The directory of a path below [dir] is [dir] or lies below it. *)
Lemma dirname_below (dir rel : string) :
  dir <> "" ->
  exists r, Path.dirname (dir +:+ "/" +:+ rel) = dir +:+ r
            /\ (r = "" \/ exists r', r = String "/" r').
Proof.
  intros Hdir. unfold Path.dirname.
  change (dir +:+ "/" +:+ rel) with (dir +:+ String "/" rel).
  destruct (lastIndexOf_head "/" rel) as [j Hj].
  rewrite (lastIndexOf_app_r _ dir _ j Hj).
  destruct (String.length dir + j)%nat as [|n] eqn:En.
  - destruct dir; [contradiction|discriminate].
  - rewrite <- En, take_app. exists (Str.take j (String "/" rel)). split; [reflexivity|].
    destruct j; cbn; eauto.
Qed.

Lemma join_below (dir r name : string) :
  dir <> "" -> name <> "" ->
  r = "" \/ (exists r', r = String "/" r') ->
  Str.endsWith "/" dir = false -> dir <> "." ->
  Str.startsWith (dir +:+ "/") (Path.join (dir +:+ r) name) = true.
Proof.
  intros Hdir Hname Hr Hslash Hdot. unfold Path.join.
  apply String.eqb_neq in Hname. rewrite Hname.
  destruct Hr as [->|[r' ->]].
  - rewrite append_nil_r. apply String.eqb_neq in Hdir, Hdot. rewrite Hdir, Hdot, Hslash.
    cbn [orb]. rewrite <- append_assoc. apply startsWith_app.
  - assert (E1 : String.eqb (dir +:+ String "/" r') "" = false).
    { apply String.eqb_neq. intros E. apply (f_equal String.length) in E.
      rewrite append_length in E. cbn in E. lia. }
    assert (E2 : String.eqb (dir +:+ String "/" r') "." = false).
    { apply String.eqb_neq. intros E. apply (f_equal String.length) in E.
      rewrite append_length in E. cbn in E. destruct dir; [contradiction|cbn in E; lia]. }
    rewrite E1, E2. cbn [orb].
    replace (dir +:+ String "/" r') with ((dir +:+ "/") +:+ r')
      by (now rewrite append_assoc).
    destruct (Str.endsWith "/" ((dir +:+ "/") +:+ r'));
      rewrite (append_assoc (dir +:+ "/")); apply startsWith_app.
Qed.

Lemma startsWith_split (p s : string) :
  Str.startsWith p s = true -> s = p +:+ Str.drop (String.length p) s.
Proof.
  revert s. induction p as [|c p IH]; intros s; [reflexivity|].
  destruct s as [|d s]; [discriminate|]. cbn [Str.startsWith]. intros H.
  apply andb_true_iff in H as [Hc Hp]. apply Ascii.eqb_eq in Hc. subst d.
  rewrite append_cons. cbn [String.length Str.drop]. f_equal. now apply IH.
Qed.

(** The result of [findUniqueFilename] is the path or a name in the
    directory of the path. *)
Lemma findUniqueFilename_shape (w : World) (targetPath q : string) :
  findUniqueFilename w targetPath = Some q ->
  q = targetPath
  \/ exists name, name <> "" /\ q = Path.join (Path.dirname targetPath) name.
Proof.
  unfold findUniqueFilename.
  destruct (negb (Fs.pathExists w targetPath)); [intros [= <-]; now left|].
  intros Hq. right.
  destruct (matchDateCounter _) as [[datePrefix counterStr]|];
    apply firstFree_spec in Hq as (c & _ & -> & _);
    eexists; (split; [apply counterName_not_empty|reflexivity]).
Qed.

(** A path joined below a directory, or renamed there, starts with the
    directory. *)
Lemma findUniqueFilename_below (w : World) (dir rel q : string) :
  dir <> "" -> dir <> "." -> Str.endsWith "/" dir = false -> rel <> "" ->
  findUniqueFilename w (Path.join dir rel) = Some q ->
  Str.startsWith (dir +:+ "/") q = true.
Proof.
  intros Hdir Hdot Hslash Hrel Hq.
  assert (Hjoin : Path.join dir rel = dir +:+ "/" +:+ rel).
  { unfold Path.join. apply String.eqb_neq in Hrel, Hdir, Hdot.
    now rewrite Hrel, Hdir, Hdot, Hslash. }
  rewrite Hjoin in Hq.
  apply findUniqueFilename_shape in Hq as [->|(name & Hname & ->)].
  - rewrite <- append_assoc. apply startsWith_app.
  - destruct (dirname_below dir rel Hdir) as (r & -> & Hr).
    now apply join_below.
Qed.

Lemma copyLoop_targets (bp : BatchProcessor) (sourcePath : string)
    (sourceHashes : StrMap string) (sourceFiles : list string) (sf final : string) :
  forall s0 acts s,
    copyLoop bp sourcePath sourceHashes sourceFiles s0 = Some (Returns (acts, s)) ->
    In (Copy sf final) acts ->
    exists wi,
      findUniqueFilename wi
        (Path.join (targetDirectory bp) (Path.relative sourcePath sf)) = Some final.
Proof.
  induction sourceFiles as [|f0 rest IH]; intros s0 acts s; cbn [copyLoop].
  - intros [= <- <-] [].
  - destruct (copyStep bp sourcePath sourceHashes s0 f0) as [[[a s1]|]|] eqn:Hstep;
      [|discriminate|discriminate].
    destruct (copyLoop bp sourcePath sourceHashes rest s1) as [[[acts' s']|]|] eqn:Hloop;
      [|discriminate|discriminate].
    intros [= <- <-] [->|Hin]; [|now apply (IH s1 acts' s')].
    exists (world s0). unfold copyStep in Hstep.
    destruct (JsMap.get String.eqb sourceHashes f0) as [h|]; [|discriminate].
    destruct (String.eqb h ""); [discriminate|].
    destruct (JsMap.has Js.same (targetHashes s0) (Js.str h)); [discriminate|].
    destruct (findUniqueFilename (world s0) _) as [q|] eqn:Hq; [|discriminate].
    destruct (Fs.copy (world s0) f0 q); [|discriminate].
    injection Hstep as -> -> _. exact Hq.
Qed.

(** X19.  The copies of a run go below the target folder, and are files
    of it after the run, when the target folder is named by a path that is
    not empty, is not [.] and does not end with a slash, and the source file
    has a name below the source folder. *)
Theorem copies_land_below_target `{Md5} (bp : BatchProcessor) (w : World)
    (gs : GlobalStats) (sourcePath : string) (acts : list Action) (s : Merge)
    (sf final : string) :
  copyOrganizedFiles bp w gs sourcePath = Some (Returns (acts, s)) ->
  In (Copy sf final) acts ->
  targetDirectory bp <> "" -> targetDirectory bp <> "." ->
  Str.endsWith "/" (targetDirectory bp) = false ->
  Path.relative sourcePath sf <> "" ->
  Str.startsWith (targetDirectory bp +:+ "/") final = true
  /\ In final (Fs.scan (world s) (targetDirectory bp)).
Proof.
  intros Hrun Hcopy Hne Hdot Hslash Hrel.
  apply copyOrganizedFiles_inv in Hrun as (s1 & Hloop & _ & _ & _ & Hworld).
  assert (Hunder : Str.startsWith (targetDirectory bp +:+ "/") final = true).
  { destruct (copyLoop_targets _ _ _ _ sf final _ _ _ Hloop Hcopy) as [wi Hq].
    now apply (findUniqueFilename_below wi (targetDirectory bp)
                 (Path.relative sourcePath sf)). }
  split; [exact Hunder|]. apply scan_In. split; [|exact Hunder].
  assert (Hsrc : forall x, In x (Fs.scan w sourcePath) ->
            is_Some (files (snd (buildTargetHashDatabase bp w)) !! x)).
  { intros x Hx. apply buildTargetHashDatabase_keeps. now apply scan_exists in Hx. }
  destruct (copyLoop_files _ _ _ _ _ _ _ Hloop Hsrc) as (_ & _ & _ & _ & _ & Hcopies).
  destruct (Hcopies sf final Hcopy) as (_ & f & f' & _ & Hf' & _).
  cbn [world] in Hf'. rewrite Hworld.
  destruct (0 <? copiedCount s1)%nat; [|rewrite Hf'; eauto].
  destruct (String.string_dec final (hashCacheFile bp)) as [->|Hcf].
  - unfold updateCacheWithNewFiles, Fs.writeJson. rewrite write_same. eauto.
  - rewrite updateCacheWithNewFiles_other by exact Hcf. rewrite Hf'. eauto.
Qed.

(** An instance: the copy of the example run. *)
Lemma copies_land_below_target_witness :
  exists acts s,
    copyOrganizedFiles (H := plainDigest) exampleBatch twoAlike noGlobalStats "/s"
    = Some (Returns (acts, s))
    /\ Str.startsWith (targetDirectory exampleBatch +:+ "/")
                      "/t/2021/05/2021-05-01_002.jpg" = true
    /\ In "/t/2021/05/2021-05-01_002.jpg" (Fs.scan (world s) (targetDirectory exampleBatch)).
Proof.
  destruct (copyOrganizedFiles (H := plainDigest) exampleBatch twoAlike
              noGlobalStats "/s") as [[[acts s]|]|] eqn:E.
  - assert (Hacts : acts = [Copy "/s/2021/05/2021-05-01_001.jpg"
                                 "/t/2021/05/2021-05-01_002.jpg";
                            Skip "/s/2021/05/2021-05-01_002.jpg";
                            Skip "/s/2021/05/2021-05-02_001.jpg"]).
    { pose proof E as E'. vm_compute in E'. now injection E' as <- _. }
    exists acts, s. split; [reflexivity|].
    apply (@copies_land_below_target plainDigest exampleBatch twoAlike
             noGlobalStats "/s" acts s "/s/2021/05/2021-05-01_001.jpg"
             "/t/2021/05/2021-05-01_002.jpg" E).
    + rewrite Hacts. now left.
    + vm_compute. discriminate.
    + vm_compute. discriminate.
    + vm_compute. reflexivity.
    + vm_compute. discriminate.
  - vm_compute in E. discriminate.
  - vm_compute in E. discriminate.
Defined.

(** ** The cache after the index is built *)

Lemma splitByCache_toHash (cachedHashes : ValMap jsval) (w : World)
    (fileModTimes : StrMap Z) (targetFiles : list string) :
  (forall p, In p targetFiles ->
     option_map JNum (JsMap.get String.eqb fileModTimes p) = currentModTimeOf w p) ->
  forall acc p,
    In p (snd (fold_left (splitStep cachedHashes fileModTimes) targetFiles acc)) ->
    In p (snd acc) \/ (In p targetFiles /\ cacheCovers cachedHashes w p = false).
Proof.
  induction targetFiles as [|file rest IH]; intros Hmt acc p; cbn [fold_left]; [auto|].
  intros Hin. apply IH in Hin; [|intros q Hq; apply Hmt; now right].
  destruct Hin as [Hin|[Hin Hc]]; [|right; split; [now right|exact Hc]].
  assert (Hstep : splitStep cachedHashes fileModTimes acc file
                  = if cacheCovers cachedHashes w file
                    then (JsMap.set Js.same (fst acc)
                            (cachedEntryOf cachedHashes file ≫= Js.prop "hash") file,
                          snd acc)
                    else (fst acc, snd acc ++ [file])).
  { unfold splitStep, cacheCovers, cachedEntryOf. destruct acc as [v t].
    rewrite (Hmt file) by now left. reflexivity. }
  rewrite Hstep in Hin.
  destruct (cacheCovers cachedHashes w file) eqn:Hc; cbn [snd] in Hin; [now left|].
  apply in_app_or in Hin as [Hin|[<-|[]]]; [now left|].
  right. split; [now left|exact Hc].
Qed.

(** The entries [hashRemaining] makes for the cache. *)
Lemma hashRemaining_entries `{Md5} (w : World) (fileModTimes : StrMap Z)
    (filesToHash : list string) (p : string) :
  forall acc,
    JsMap.get String.eqb
      (snd (fold_left (hashRemainingStep w fileModTimes) filesToHash acc)) p
    = if in_dec String.string_dec p filesToHash
      then match createFileFingerprint w p with
           | Returns h =>
               Some (cacheEntry (Js.str h)
                       (option_map JNum (JsMap.get String.eqb fileModTimes p)))
           | Throws => JsMap.get String.eqb (snd acc) p
           end
      else JsMap.get String.eqb (snd acc) p.
Proof.
  induction filesToHash as [|q rest IH]; intros acc; cbn [fold_left].
  - now destruct (in_dec String.string_dec p []).
  - rewrite IH.
    assert (Hstep : JsMap.get String.eqb (snd (hashRemainingStep w fileModTimes acc q)) p
                    = if String.eqb q p
                      then match createFileFingerprint w p with
                           | Returns h =>
                               Some (cacheEntry (Js.str h)
                                       (option_map JNum
                                          (JsMap.get String.eqb fileModTimes p)))
                           | Throws => JsMap.get String.eqb (snd acc) p
                           end
                      else JsMap.get String.eqb (snd acc) p).
    { destruct acc as [v e]. unfold hashRemainingStep.
      destruct (String.eqb q p) eqn:E.
      - apply String.eqb_eq in E. subst q.
        destruct (createFileFingerprint w p); [|reflexivity]. cbn [snd].
        apply (get_set_eq String.eqb). apply String.eqb_refl.
      - destruct (createFileFingerprint w q); [|reflexivity]. cbn [snd].
        apply (get_set_ne _ String_eqb_sound). intros ->.
        now rewrite String.eqb_refl in E. }
    rewrite Hstep.
    destruct (in_dec String.string_dec p rest) as [Hin|Hin].
    + destruct (in_dec String.string_dec p (q :: rest)) as [_|Hn];
        [|exfalso; apply Hn; now right].
      destruct (createFileFingerprint w p); [reflexivity|].
      now destruct (String.eqb q p).
    + destruct (String.eqb q p) eqn:E.
      * apply String.eqb_eq in E. subst q.
        destruct (in_dec String.string_dec p (p :: rest)) as [_|Hn];
          [reflexivity|exfalso; apply Hn; now left].
      * destruct (in_dec String.string_dec p (q :: rest)) as [[->|?]|_];
          [now rewrite String.eqb_refl in E|contradiction|reflexivity].
Qed.

Lemma hashRemaining_keys `{Md5} (w : World) (fileModTimes : StrMap Z)
    (filesToHash : list string) :
  forall acc, NoDup (JsMap.keys (snd acc)) ->
    NoDup (JsMap.keys (snd (fold_left (hashRemainingStep w fileModTimes)
                                      filesToHash acc))).
Proof.
  induction filesToHash as [|q rest IH]; intros [v e] Hnd; [exact Hnd|].
  cbn [fold_left]. apply IH. unfold hashRemainingStep.
  destruct (createFileFingerprint w q); [|exact Hnd]. cbn [snd].
  now apply NoDup_keys_set.
Qed.

(** The loop of [updateHashCache] that sets the new entries. *)
Lemma newEntries_get (newEntries : StrMap jsval) (p : string) :
  NoDup (JsMap.keys newEntries) ->
  forall cache,
    JsMap.get Js.same
      (fold_left (fun cache fe => JsMap.set Js.same cache (Js.str (fst fe)) (snd fe))
                 newEntries cache) (Js.str p)
    = match JsMap.get String.eqb newEntries p with
      | Some e => Some e
      | None => JsMap.get Js.same cache (Js.str p)
      end.
Proof.
  induction newEntries as [|[k e] rest IH]; intros Hnd cache; [reflexivity|].
  cbn in Hnd. apply NoDup_cons in Hnd as [Hk Hnd].
  cbn [fold_left fst snd JsMap.get]. rewrite (IH Hnd).
  destruct (String.eqb k p) eqn:E.
  - apply String.eqb_eq in E. subst k.
    destruct (JsMap.get String.eqb rest p) as [e'|] eqn:Hr.
    + exfalso. apply Hk. apply (get_Some_In String.eqb String_eqb_sound) in Hr.
      apply list_elem_of_In, in_map_iff. now exists (p, e').
    + apply (get_set_eq Js.same). cbn. apply String.eqb_refl.
  - destruct (JsMap.get String.eqb rest p); [reflexivity|].
    apply (get_set_ne Js.same Js_same_sound). intros [= ->].
    now rewrite String.eqb_refl in E.
Qed.

Lemma get_filter_key {V : Type} (keepKey : jsval -> bool) (m : ValMap V) (k : jsval) :
  JsMap.get Js.same (List.filter (fun kv => keepKey (fst kv)) m) k
  = if keepKey k then JsMap.get Js.same m k else None.
Proof.
  induction m as [|[k1 v1] m IH]; [now destruct (keepKey k)|]. cbn.
  destruct (keepKey k1) eqn:E1; cbn.
  - destruct (Js.same k1 k) eqn:Es; [|exact IH].
    apply Js_same_sound in Es. subst k1. now rewrite E1.
  - rewrite IH. destruct (Js.same k1 k) eqn:Es; [|reflexivity].
    apply Js_same_sound in Es. subst k1. now rewrite E1.
Qed.

(** What [loadHashCache] reads after [updateHashCache]. *)
Lemma updateHashCache_get (bp : BatchProcessor) (w : World)
    (newEntries : StrMap jsval) (allHashes : ValMap string) (p : string) :
  NoDup (JsMap.keys newEntries) ->
  JsMap.get Js.same (loadHashCache bp (updateHashCache bp w newEntries allHashes))
            (Js.str p)
  = if existsb (String.eqb p) (JsMap.values allHashes)
    then option_map throughJson
           (match JsMap.get String.eqb newEntries p with
            | Some e => Some e
            | None => JsMap.get Js.same (loadHashCache bp w) (Js.str p)
            end)
    else None.
Proof.
  intros Hnd. unfold updateHashCache. rewrite loadHashCache_written.
  unfold reloaded. rewrite reload_get.
  - rewrite (get_filter_key
               (fun k => match k with
                         | Some (JStr file) =>
                             existsb (String.eqb file) (JsMap.values allHashes)
                         | _ => false
                         end)).
    cbn. destruct (existsb (String.eqb p) (JsMap.values allHashes)); [|reflexivity].
    rewrite (newEntries_get newEntries p Hnd).
    now destruct (match JsMap.get String.eqb newEntries p with
                  | Some e => Some e
                  | None => JsMap.get Js.same (loadHashCache bp w) (Js.str p)
                  end).
  - apply distinctKeys_filter.
    apply (distinctKeys_fold_set (fun fe => Js.str (fst fe)) snd).
    apply loadHashCache_distinct.
Qed.

Lemma cacheCovers_entry (cache : ValMap jsval) (w : World) (p : string) :
  cacheCovers cache w p = true ->
  exists j, JsMap.get Js.same cache (Js.str p) = Some (Some j).
Proof.
  unfold cacheCovers, cachedEntryOf. intros H. apply andb_true_iff in H as [Ht _].
  destruct (JsMap.get Js.same cache (Js.str p)) as [[j|]|]; [eauto|discriminate|discriminate].
Qed.

(** The cache that a build of the index writes, when it has hashed a
    file. *)
Lemma buildTargetHashDatabase_writes `{Md5} (bp : BatchProcessor) (w : World)
    (q p : string) :
  In q (Fs.scan w (targetDirectory bp)) ->
  cacheCovers (loadHashCache bp w) w q = false ->
  p <> hashCacheFile bp ->
  (cacheCovers (loadHashCache bp (snd (buildTargetHashDatabase bp w)))
               (snd (buildTargetHashDatabase bp w)) p = true
   <-> In p (JsMap.values (fst (buildTargetHashDatabase bp w)))).
Proof.
  intros Hq Hqc Hp.
  pose proof (buildTargetHashDatabase_index bp w) as [Hvalues _].
  unfold buildTargetHashDatabase in *.
  assert (Hdir : negb (Fs.dirExists w (targetDirectory bp)) = false).
  { unfold Fs.dirExists. now destruct (Fs.scan w (targetDirectory bp)). }
  rewrite Hdir in *. unfold buildTargetWith in *.
  destruct (Fs.scan w (targetDirectory bp)) as [|f0 fs] eqn:Hscan; [destruct Hq|].
  set (targetFiles := f0 :: fs) in *.
  set (mt := modTimesOf w targetFiles) in *.
  assert (Hmt : forall x, In x targetFiles ->
            option_map JNum (JsMap.get String.eqb mt x) = currentModTimeOf w x)
    by (intros x Hx; now apply modTimesOf_get).
  pose proof (splitByCache_spec (loadHashCache bp w) w mt targetFiles Hmt ([], []))
    as (_ & _ & _ & _ & S5).
  pose proof (splitByCache_toHash (loadHashCache bp w) w mt targetFiles Hmt ([], []))
    as S6.
  cbn zeta in *.
  fold (splitByCache (loadHashCache bp w) mt targetFiles) in *.
  destruct (splitByCache (loadHashCache bp w) mt targetFiles) as [valid toHash].
  cbn [fst snd] in *.
  assert (HqH : In q toHash) by (specialize (S5 q Hq); now rewrite Hqc in S5).
  pose proof (hashRemaining_entries w mt toHash) as Hent.
  pose proof (hashRemaining_keys w mt toHash (valid, []) (NoDup_nil_2 (A := string))) as Hkeys.
  fold (hashRemaining w mt toHash valid) in *.
  assert (Hent' : forall x,
            JsMap.get String.eqb (snd (hashRemaining w mt toHash valid)) x
            = if in_dec String.string_dec x toHash
              then match createFileFingerprint w x with
                   | Returns h =>
                       Some (cacheEntry (Js.str h)
                               (option_map JNum (JsMap.get String.eqb mt x)))
                   | Throws => None
                   end
              else None).
  { intros x. unfold hashRemaining. rewrite (Hent x (valid, [])). reflexivity. }
  clear Hent.
  destruct (hashRemaining w mt toHash valid) as [index entries].
  destruct toHash as [|g gs] eqn:HtoHash; [destruct HqH|].
  rewrite <- HtoHash in *. cbn [fst snd] in *.
  set (w1 := updateHashCache bp w entries index).
  assert (Hget : JsMap.get Js.same (loadHashCache bp w1) (Js.str p)
                 = if existsb (String.eqb p) (JsMap.values index)
                   then option_map throughJson
                          (match JsMap.get String.eqb entries p with
                           | Some e => Some e
                           | None => JsMap.get Js.same (loadHashCache bp w) (Js.str p)
                           end)
                   else None)
    by now apply updateHashCache_get.
  assert (Hmod : currentModTimeOf w1 p = currentModTimeOf w p).
  { unfold currentModTimeOf, w1. now rewrite updateHashCache_other. }
  split.
  - intros Hc. apply cacheCovers_entry in Hc as [j Hj]. rewrite Hget in Hj.
    destruct (existsb (String.eqb p) (JsMap.values index)) eqn:E; [|discriminate].
    apply existsb_exists in E as (x & Hx & Ex). apply String.eqb_eq in Ex. now subst x.
  - intros Hin.
    assert (E : existsb (String.eqb p) (JsMap.values index) = true).
    { apply existsb_exists. exists p. split; [exact Hin|apply String.eqb_refl]. }
    rewrite E in Hget.
    assert (Hpscan : In p targetFiles) by now apply Hvalues.
    assert (Hpex : is_Some (files w !! p)).
    { apply (scan_exists w (targetDirectory bp)). now rewrite Hscan. }
    destruct Hpex as [f Hf].
    unfold cacheCovers. rewrite Hmod. unfold cachedEntryOf. rewrite Hget, Hent'.
    destruct (cacheCovers (loadHashCache bp w) w p) eqn:Hc.
    + destruct (in_dec String.string_dec p toHash) as [HpH|_].
      { apply S6 in HpH as [[]|[_ Hc']]. congruence. }
      pose proof Hc as Hc0. apply cacheCovers_entry in Hc0 as [j Hj].
      rewrite Hj. cbn [option_map throughJson mjoin].
      unfold cacheCovers, cachedEntryOf in Hc. rewrite Hj in Hc. exact Hc.
    + specialize (S5 p Hpscan). rewrite Hc in S5.
      destruct (in_dec String.string_dec p toHash) as [_|Hn]; [|contradiction].
      assert (Hfp : exists h, createFileFingerprint w p = Returns h)
        by (unfold createFileFingerprint, Fs.stat; rewrite Hf; eauto).
      destruct Hfp as [h ->]. rewrite (Hmt p Hpscan).
      unfold currentModTimeOf. rewrite Hf. cbn [option_map].
      change (Some (JNum (mtime f))) with (Js.num (mtime f)).
      destruct (cacheEntry_covers (Js.str h) (mtime f)) as (C1 & C2 & _).
      cbn [option_map mjoin]. rewrite throughJson_cacheEntry.
      change (option_join json (Some (cacheEntry (Js.str h) (Js.num (mtime f)))))
        with (cacheEntry (Js.str h) (Js.num (mtime f))).
      rewrite C1, C2. cbn. apply Z.eqb_refl.
Qed.

(** X20.  When [buildTargetHashDatabase] has a file to hash, the cache it
    writes covers the files its index names and no other file: a file of
    the target whose fingerprint the index gives to another file has no
    entry in the cache, so that the next run hashes it again. *)
Theorem cache_after_build_covers_index_files `{Md5} (bp : BatchProcessor) (w : World)
    (q p : string) :
  In q (Fs.scan w (targetDirectory bp)) ->
  cacheCovers (loadHashCache bp w) w q = false ->
  p <> hashCacheFile bp ->
  let index := fst (buildTargetHashDatabase bp w) in
  let w1 := snd (buildTargetHashDatabase bp w) in
  cacheCovers (loadHashCache bp w1) w1 p = true <-> In p (JsMap.values index).
Proof. intros Hq Hc Hp. cbn zeta. now apply (buildTargetHashDatabase_writes bp w q p). Qed.

(** An instance: of two files of the same content the second is in the
    index and in the cache, the first in neither. *)
Lemma cache_after_build_covers_index_files_witness :
  let index := fst (buildTargetHashDatabase (H := plainDigest) exampleBatch twoSame) in
  let w1 := snd (buildTargetHashDatabase (H := plainDigest) exampleBatch twoSame) in
  (cacheCovers (loadHashCache exampleBatch w1) w1 "/t/a.jpg" = true
   <-> In "/t/a.jpg" (JsMap.values index))
  /\ JsMap.values index = ["/t/b.jpg"]
  /\ cacheCovers (loadHashCache exampleBatch w1) w1 "/t/a.jpg" = false
  /\ cacheCovers (loadHashCache exampleBatch w1) w1 "/t/b.jpg" = true.
Proof.
  split.
  - apply (@cache_after_build_covers_index_files plainDigest exampleBatch twoSame
             "/t/a.jpg" "/t/a.jpg").
    + vm_compute. left. reflexivity.
    + vm_compute. reflexivity.
    + vm_compute. discriminate.
  - vm_compute. repeat split.
Defined.

(** ** Renaming a photo *)

(** X21.  [processImageFile] on a file that is there.  The date is the
    first valid one of the tags [DateTimeOriginal], [CreateDate], [DateTime]
    and [DateTimeDigitized] when [exifr] reads the file; the date of the
    file name only when [exifr] throws and the mode is the renaming by
    EXIF or the file is HEIC or HEIF; and the modification time
    otherwise.  When the call returns, the file is where it was or at a
    path where no file was, no other file is changed, and no file at all in
    a dry run.  A file that is at the candidate of a counter already, with
    files at the candidates of the counters below, is left where it is: the
    call returns and changes nothing. *)
Theorem processImageFile_never_overwrites (parseDate : json -> JsDate.t)
    (o : Organizer) (w : World) (filePath : string) (f : File) :
  files w !! filePath = Some f ->
  exists creationDate,
    imageCreationDate parseDate o w filePath = Returns creationDate
    /\ match exif f with
       | ExifResolves exifData =>
           creationDate
           = default (Some (mtime f)) (extractCreationDate parseDate exifData)
       | ExifThrows =>
           creationDate
           = if isExifRenameMode o
                || String.eqb (Path.lower (Path.extname filePath)) ".heic"
                || String.eqb (Path.lower (Path.extname filePath)) ".heif"
             then default (Some (mtime f)) (extractDateFromFilename filePath)
             else Some (mtime f)
       end
    /\ (forall w',
          processImageFile parseDate o w filePath = Some (Returns w') ->
          relocated o w filePath f creationDate w')
    /\ (forall c,
          1 <= c <= 9999 ->
          newPathCandidate o filePath creationDate c = filePath ->
          (forall c', 1 <= c' < c ->
             is_Some (files w !! newPathCandidate o filePath creationDate c')) ->
          processImageFile parseDate o w filePath = Some (Returns w)).
Proof.
  intros Hf.
  assert (Hdate : exists creationDate,
            imageCreationDate parseDate o w filePath = Returns creationDate
            /\ match exif f with
               | ExifResolves exifData =>
                   creationDate
                   = default (Some (mtime f)) (extractCreationDate parseDate exifData)
               | ExifThrows =>
                   creationDate
                   = if isExifRenameMode o
                        || String.eqb (Path.lower (Path.extname filePath)) ".heic"
                        || String.eqb (Path.lower (Path.extname filePath)) ".heif"
                     then default (Some (mtime f)) (extractDateFromFilename filePath)
                     else Some (mtime f)
               end).
  { unfold imageCreationDate, parseExif, Fs.stat. rewrite Hf.
    destruct (exif f) as [|exifData].
    - destruct (isExifRenameMode o || _ || _); [|eauto].
      destruct (extractDateFromFilename filePath); eauto.
    - destruct (extractCreationDate parseDate exifData); eauto. }
  destruct Hdate as (creationDate & Hdate & Hwhich).
  exists creationDate. split; [exact Hdate|]. split; [exact Hwhich|].
  unfold processImageFile. rewrite Hdate. split.
  - intros w'. now apply relocate_returns.
  - intros c Hc Hsame Hbelow.
    rewrite (generateNewPath_in_place o w filePath creationDate c Hc Hsame Hbelow).
    now rewrite String.eqb_refl.
Qed.

(** An instance: a photo that [exifr] cannot read, in the mode that
    organizes. *)
Lemma processImageFile_never_overwrites_witness :
  exists creationDate,
    imageCreationDate (fun _ => None) editedSuffixOrganizer threeCopies "/d/x.jpg"
    = Returns creationDate
    /\ match exif (plainFile 9 1) with
       | ExifResolves exifData =>
           creationDate
           = default (Some (mtime (plainFile 9 1)))
               (extractCreationDate (fun _ => None) exifData)
       | ExifThrows =>
           creationDate
           = if isExifRenameMode editedSuffixOrganizer
                || String.eqb (Path.lower (Path.extname "/d/x.jpg")) ".heic"
                || String.eqb (Path.lower (Path.extname "/d/x.jpg")) ".heif"
             then default (Some (mtime (plainFile 9 1)))
                    (extractDateFromFilename "/d/x.jpg")
             else Some (mtime (plainFile 9 1))
       end
    /\ (forall w',
          processImageFile (fun _ => None) editedSuffixOrganizer threeCopies "/d/x.jpg"
          = Some (Returns w') ->
          relocated editedSuffixOrganizer threeCopies "/d/x.jpg" (plainFile 9 1)
                    creationDate w')
    /\ (forall c,
          1 <= c <= 9999 ->
          newPathCandidate editedSuffixOrganizer "/d/x.jpg" creationDate c
          = "/d/x.jpg" ->
          (forall c', 1 <= c' < c ->
             is_Some (files threeCopies
                      !! newPathCandidate editedSuffixOrganizer "/d/x.jpg"
                           creationDate c')) ->
          processImageFile (fun _ => None) editedSuffixOrganizer threeCopies "/d/x.jpg"
          = Some (Returns threeCopies)).
Proof.
  apply (processImageFile_never_overwrites (fun _ => None) editedSuffixOrganizer
           threeCopies "/d/x.jpg" (plainFile 9 1)).
  vm_compute. reflexivity.
Defined.

Lemma extensions_disjoint (ext : string) :
  existsb (String.eqb ext) imageExtensions = true ->
  existsb (String.eqb ext) videoExtensions || String.eqb ext ".gif" = false.
Proof.
  intros H. apply existsb_exists in H as (x & Hx & E). apply String.eqb_eq in E.
  subst x. cbn in Hx.
  repeat (destruct Hx as [<-|Hx]; [reflexivity|]). destruct Hx.
Qed.

Lemma imageCreationDate_returns (parseDate : json -> JsDate.t) (o : Organizer)
    (w : World) (filePath : string) (f : File) :
  files w !! filePath = Some f ->
  exists creationDate, imageCreationDate parseDate o w filePath = Returns creationDate.
Proof.
  intros Hf. unfold imageCreationDate, parseExif, Fs.stat. rewrite Hf.
  destruct (exif f) as [|exifData].
  - destruct (isExifRenameMode o || _ || _); [|eauto].
    destruct (extractDateFromFilename filePath); eauto.
  - destruct (extractCreationDate parseDate exifData); eauto.
Qed.

Lemma videoCreationDate_returns (w : World) (filePath : string) (f : File) :
  files w !! filePath = Some f ->
  exists creationDate, videoCreationDate w filePath = Returns creationDate.
Proof.
  intros Hf. unfold videoCreationDate, Fs.stat. rewrite Hf.
  destruct (extractDateFromFilename filePath); eauto.
Qed.

Lemma relocated_others (o : Organizer) (w : World) (filePath : string) (f : File)
    (creationDate : JsDate.t) (w' : World) :
  relocated o w filePath f creationDate w' ->
  (dryRun o = true -> files w' = files w)
  /\ forall q, q <> filePath -> is_Some (files w !! q) ->
       files w' !! q = files w !! q.
Proof.
  intros (c & Hc & Hfree & Hsame & Hmove). cbn zeta in *.
  split; [intros Hdry; apply Hsame; now left|].
  intros q Hq Hex. destruct (dryRun o) eqn:Hdry.
  - now rewrite (Hsame (or_introl eq_refl)).
  - destruct (Hmove eq_refl) as (_ & _ & Hother).
    apply Hother; [exact Hq|]. intros ->.
    destruct Hfree as [E|E]; [congruence|]. rewrite E in Hex. now destruct Hex.
Qed.

(** What [processFile] does with a file that is there. *)
Lemma processFile_cases (parseDate : json -> JsDate.t)
    (o : Organizer) (w : World) (filePath : string) (f : File) :
  files w !! filePath = Some f ->
  let ext := Path.lower (Path.extname filePath) in
  processFile parseDate o w filePath = Some Throws
  \/ exists w',
       processFile parseDate o w filePath = Some (Returns w')
       /\ (dryRun o = true -> files w' = files w)
       /\ (forall q, q <> filePath -> is_Some (files w !! q) ->
             files w' !! q = files w !! q)
       /\ (if String.eqb ext ".json"
           then w' = (if dryRun o then w else Fs.remove w filePath)
           else if existsb (String.eqb ext) imageExtensions
                   || existsb (String.eqb ext) videoExtensions
                   || String.eqb ext ".gif"
                then exists creationDate, relocated o w filePath f creationDate w'
                else w' = w).
Proof.
  intros Hf ext. unfold processFile. fold ext.
  destruct (String.eqb ext ".json") eqn:Ejson.
  { right. eexists. split; [reflexivity|].
    split; [intros ->; reflexivity|]. split; [|reflexivity].
    intros q Hq _. destruct (dryRun o); [reflexivity|]. cbn.
    now apply lookup_delete_ne. }
  destruct (existsb (String.eqb ext) imageExtensions) eqn:Eimg.
  - rewrite (extensions_disjoint ext Eimg). cbn [orb].
    destruct (imageCreationDate_returns parseDate o w filePath f Hf) as [d Hd].
    unfold processImageFile. rewrite Hd.
    pose proof (relocate_safe o w filePath f d Hf) as Hmove.
    destruct (generateNewPath o w filePath d) as [[[newPath newFilename]|]|];
      [right|now left|destruct Hmove].
    destruct Hmove as (w' & Hw' & Hrel). rewrite Hw'. exists w'.
    split; [reflexivity|].
    destruct (relocated_others _ _ _ _ _ _ Hrel) as [Hdry Hothers].
    split; [exact Hdry|]. split; [exact Hothers|]. eauto.
  - cbn [orb].
    destruct (existsb (String.eqb ext) videoExtensions || String.eqb ext ".gif") eqn:Evid.
    + destruct (videoCreationDate_returns w filePath f Hf) as [d Hd].
      unfold processVideoOrPatternFile. rewrite Hd.
      pose proof (relocate_safe o w filePath f d Hf) as Hmove.
      destruct (generateNewPath o w filePath d) as [[[newPath newFilename]|]|];
        [right|now left|destruct Hmove].
      destruct Hmove as (w' & Hw' & Hrel). rewrite Hw'. exists w'.
      split; [reflexivity|].
      destruct (relocated_others _ _ _ _ _ _ Hrel) as [Hdry Hothers].
      split; [exact Hdry|]. split; [exact Hothers|]. eauto.
    + right. exists w. split; [reflexivity|]. split; [reflexivity|].
      split; [reflexivity|reflexivity].
Qed.

(** X22.  [processFile] on a file that is there.  A file with the
    extension [.json] is removed, or left in a dry run, and the call
    returns; a file that is neither that nor a photo, a video or a GIF is
    left alone, and the call returns.  Whenever the call returns, no other
    file is changed, no file at all in a dry run, and a photo, a video or a
    GIF is where it was or at a path where no file was, at a name that
    [generateNewPath] builds: it is renamed once (no extension is both of a
    photo and of a video). *)
Theorem processFile_changes_no_other_file (parseDate : json -> JsDate.t)
    (o : Organizer) (w : World) (filePath : string) (f : File) :
  files w !! filePath = Some f ->
  let ext := Path.lower (Path.extname filePath) in
  let media := existsb (String.eqb ext) imageExtensions
               || existsb (String.eqb ext) videoExtensions
               || String.eqb ext ".gif" in
  (ext = ".json" ->
   processFile parseDate o w filePath
   = Some (Returns (if dryRun o then w else Fs.remove w filePath)))
  /\ (ext <> ".json" -> media = false ->
      processFile parseDate o w filePath = Some (Returns w))
  /\ (forall w',
        processFile parseDate o w filePath = Some (Returns w') ->
        (dryRun o = true -> files w' = files w)
        /\ (forall q, q <> filePath -> is_Some (files w !! q) ->
              files w' !! q = files w !! q)
        /\ (ext <> ".json" -> media = true ->
            exists creationDate, relocated o w filePath f creationDate w')).
Proof.
  intros Hf ext media.
  pose proof (processFile_cases parseDate o w filePath f Hf) as Hcases.
  cbn zeta in Hcases. fold ext in Hcases. fold media in Hcases.
  split; [|split].
  - intros Ejson. unfold processFile. fold ext. now rewrite Ejson.
  - intros Ejson Emedia. apply String.eqb_neq in Ejson.
    destruct Hcases as [Ht|(w' & Hrun & _ & _ & Hkind)].
    + exfalso. revert Ht. unfold processFile. fold ext. rewrite Ejson.
      unfold media in Emedia. apply orb_false_iff in Emedia as [Emedia Egif].
      apply orb_false_iff in Emedia as [Eimg Evid].
      rewrite Eimg, Evid, Egif. discriminate.
    + rewrite Ejson, Emedia in Hkind. now rewrite Hrun, Hkind.
  - intros w' Hrun.
    destruct Hcases as [Ht|(w'' & Hrun' & Hdry & Hothers & Hkind)]; [congruence|].
    assert (w'' = w') by congruence. subst w''.
    split; [exact Hdry|]. split; [exact Hothers|].
    intros Ejson Emedia. apply String.eqb_neq in Ejson.
    now rewrite Ejson, Emedia in Hkind.
Qed.

(** An instance: a JSON file beside the photos. *)
Lemma processFile_changes_no_other_file_witness :
  let w := Fs.write threeCopies "/d/x.json" (plainFile 2 5) in
  let ext := Path.lower (Path.extname "/d/x.json") in
  let media := existsb (String.eqb ext) imageExtensions
               || existsb (String.eqb ext) videoExtensions
               || String.eqb ext ".gif" in
  (ext = ".json" ->
   processFile (fun _ => None) editedSuffixOrganizer w "/d/x.json"
   = Some (Returns (if dryRun editedSuffixOrganizer then w
                    else Fs.remove w "/d/x.json")))
  /\ (ext <> ".json" -> media = false ->
      processFile (fun _ => None) editedSuffixOrganizer w "/d/x.json"
      = Some (Returns w))
  /\ (forall w',
        processFile (fun _ => None) editedSuffixOrganizer w "/d/x.json"
        = Some (Returns w') ->
        (dryRun editedSuffixOrganizer = true -> files w' = files w)
        /\ (forall q, q <> "/d/x.json" -> is_Some (files w !! q) ->
              files w' !! q = files w !! q)
        /\ (ext <> ".json" -> media = true ->
            exists creationDate,
              relocated editedSuffixOrganizer w "/d/x.json" (plainFile 2 5)
                        creationDate w')).
Proof.
  apply (processFile_changes_no_other_file (fun _ => None) editedSuffixOrganizer
           (Fs.write threeCopies "/d/x.json" (plainFile 2 5)) "/d/x.json"
           (plainFile 2 5)).
  vm_compute. reflexivity.
Defined.

(** ** Videos of one day *)

Lemma take_length_app (a b : string) : Str.take (String.length a) (a +:+ b) = a.
Proof.
  rewrite <- (Nat.add_0_r (String.length a)), take_app. cbn. apply append_nil_r.
Qed.

Lemma matchVideoDatePattern_counter (date c1 c2 : string) :
  String.length date = 10%nat ->
  c1 <> "" -> c2 <> "" -> Str.all_digits c1 = true -> Str.all_digits c2 = true ->
  matchVideoDatePattern (date +:+ "_" +:+ c1)
  = matchVideoDatePattern (date +:+ "_" +:+ c2).
Proof.
  intros Hlen H1 H2 Hd1 Hd2. unfold matchVideoDatePattern, splitDatePrefix.
  rewrite <- Hlen, !take_length_app, !drop_app.
  destruct date as [|a [|b [|c [|d [|h1 [|e [|f [|h2 [|g [|h [|x rest]]]]]]]]]]];
    try reflexivity.
  destruct (forallb Str.is_digit [a; b; c; d; e; f; g; h] && _ && _); [|reflexivity].
  change ("_" +:+ c1) with (String "_" c1). change ("_" +:+ c2) with (String "_" c2).
  cbv beta iota. apply String.eqb_neq in H1, H2. rewrite H1, H2, Hd1, Hd2. reflexivity.
Qed.

(** X23.  The fingerprint of a video does not read the counter of its
    name: two videos of the same size whose names are a date followed by
    [_] and digits, with the same date, have the same fingerprint, whatever
    the digits; when the date is valid, the pass over the videos takes them
    for duplicates. *)
Theorem video_fingerprint_ignores_counter (w : World) (p q : string)
    (sp sq : File) (date c1 c2 : string) :
  Fs.stat w p = Returns sp -> Fs.stat w q = Returns sq ->
  sizeBytes sp = sizeBytes sq ->
  String.length date = 10%nat ->
  Path.basenameExt p (Path.extname p) = date +:+ "_" +:+ c1 ->
  Path.basenameExt q (Path.extname q) = date +:+ "_" +:+ c2 ->
  c1 <> "" /\ c2 <> "" /\ Str.all_digits c1 = true /\ Str.all_digits c2 = true ->
  createVideoFingerprint w p = createVideoFingerprint w q
  /\ videoKey w p = videoKey w q.
Proof.
  intros Hp Hq Hsize Hlen Hbp Hbq (H1 & H2 & Hd1 & Hd2).
  assert (E : createVideoFingerprint w p = createVideoFingerprint w q).
  { unfold createVideoFingerprint. rewrite Hp, Hq, Hbp, Hbq, Hsize.
    now rewrite (matchVideoDatePattern_counter date c1 c2). }
  split; [exact E|]. unfold videoKey. now rewrite E.
Qed.

(** An instance: two clips of one day. *)
Lemma video_fingerprint_ignores_counter_witness :
  let w := {| files := {[ "/v/2023-01-15_001.mp4" := plainFile 7 1;
                          "/v/2023-01-15_002.mp4" := plainFile 7 2 ]};
              clock := 10 |} in
  createVideoFingerprint w "/v/2023-01-15_001.mp4"
  = createVideoFingerprint w "/v/2023-01-15_002.mp4"
  /\ videoKey w "/v/2023-01-15_001.mp4" = videoKey w "/v/2023-01-15_002.mp4".
Proof.
  apply (video_fingerprint_ignores_counter _ _ _ (plainFile 7 1) (plainFile 7 2)
           "2023-01-15" "001" "002").
  - vm_compute. reflexivity.
  - vm_compute. reflexivity.
  - reflexivity.
  - reflexivity.
  - vm_compute. reflexivity.
  - vm_compute. reflexivity.
  - repeat split; try discriminate.
Defined.

(** ** The loop of [organize] *)

Lemma relocated_size (o : Organizer) (w : World) (filePath : string) (f : File)
    (creationDate : JsDate.t) (w' : World) :
  files w !! filePath = Some f ->
  relocated o w filePath f creationDate w' ->
  size (files w') = size (files w)
  /\ exists newPath, files w' !! newPath = Some f
                     /\ (newPath = filePath \/ files w !! newPath = None).
Proof.
  intros Hf (c & Hc & Hfree & Hsame & Hmove). cbn zeta in *.
  set (newPath := newPathCandidate o filePath creationDate c) in *.
  destruct (dryRun o) eqn:Hdry.
  { rewrite (Hsame (or_introl eq_refl)). split; [reflexivity|].
    destruct Hfree as [E|E].
    - exists newPath. rewrite E. auto.
    - exists filePath. auto. }
  destruct (Hmove eq_refl) as (Hnew & Hold & Hother).
  split; [|exists newPath; auto].
  destruct (String.string_dec newPath filePath) as [E|Hne].
  { now rewrite (Hsame (or_intror E)). }
  destruct Hfree as [|Hnone]; [contradiction|].
  assert (Hmap : files w' = <[newPath := f]> (delete filePath (files w))).
  { apply map_eq. intros q.
    destruct (String.string_dec q newPath) as [->|Hq1];
      [now rewrite lookup_insert_eq|].
    rewrite lookup_insert_ne by congruence.
    destruct (String.string_dec q filePath) as [->|Hq2].
    - rewrite lookup_delete_eq. now apply Hold.
    - rewrite lookup_delete_ne by congruence. now apply Hother. }
  rewrite Hmap, map_size_insert_None
    by (rewrite lookup_delete_ne by congruence; exact Hnone).
  rewrite map_size_delete_Some by (rewrite Hf; eauto).
  assert (Hpos : size (files w) <> 0%nat).
  { intros E. apply map_size_empty_iff in E. rewrite E in Hf.
    now rewrite lookup_empty in Hf. }
  lia.
Qed.

(** One turn of the loop of [processFiles], for a file that is there. *)
Lemma processFile_step (parseDate : json -> JsDate.t) (o : Organizer) (w : World)
    (filePath : string) (f : File) :
  files w !! filePath = Some f ->
  (processFile parseDate o w filePath = Some Throws /\ isJsonFile filePath = false)
  \/ exists w',
       processFile parseDate o w filePath = Some (Returns w')
       /\ (dryRun o = true -> files w' = files w)
       /\ (forall q, q <> filePath -> is_Some (files w !! q) ->
             files w' !! q = files w !! q)
       /\ size (files w)
          = (size (files w')
             + if dryRun o then 0 else if isJsonFile filePath then 1 else 0)%nat
       /\ (isJsonFile filePath = true
           \/ exists newPath, files w' !! newPath = Some f
                              /\ (newPath = filePath \/ files w !! newPath = None)).
Proof.
  intros Hf. destruct (processFile_cases parseDate o w filePath f Hf) as [Ht|Hr].
  { left. split; [exact Ht|]. unfold isJsonFile, processFile in *.
    destruct (String.eqb (Path.lower (Path.extname filePath)) ".json");
      [discriminate|reflexivity]. }
  right. cbn zeta in Hr. destruct Hr as (w' & Hrun & Hdry & Hothers & Hkind).
  exists w'. split; [exact Hrun|]. split; [exact Hdry|]. split; [exact Hothers|].
  unfold isJsonFile.
  destruct (String.eqb (Path.lower (Path.extname filePath)) ".json") eqn:Ejson.
  - split; [|now left]. destruct (dryRun o) eqn:Ed.
    + rewrite (Hdry eq_refl). lia.
    + subst w'.
      cbn. rewrite map_size_delete_Some by (rewrite Hf; eauto).
      assert (Hpos : size (files w) <> 0%nat).
      { intros E. apply map_size_empty_iff in E. rewrite E in Hf.
        now rewrite lookup_empty in Hf. }
      lia.
  - destruct (existsb _ imageExtensions || existsb _ videoExtensions || _).
    + destruct Hkind as [d Hrel].
      destruct (relocated_size o w filePath f d w' Hf Hrel) as [Hsize Hnew].
      split; [rewrite Hsize; destruct (dryRun o); lia|now right].
    + subst w'. split; [destruct (dryRun o); lia|]. right. exists filePath. auto.
Qed.

(** The loop over files that are there: it completes; a file that is not
    of the list stays as it is; a file of the list is somewhere after the
    loop unless it is a JSON file; and the number of files falls by the
    number of JSON files of the list. *)
Lemma processFiles_spec (parseDate : json -> JsDate.t) (o : Organizer)
    (files0 : list string) :
  forall w n,
    NoDup files0 ->
    (forall x, In x files0 -> is_Some (files w !! x)) ->
    exists w' n',
      processFiles parseDate o files0 (w, n) = Some (w', n')
      /\ (dryRun o = true -> files w' = files w)
      /\ (forall p f, files w !! p = Some f -> ~ In p files0 -> files w' !! p = Some f)
      /\ (forall p f, files w !! p = Some f -> In p files0 ->
            isJsonFile p = true \/ exists p', files w' !! p' = Some f)
      /\ size (files w)
         = (size (files w')
            + if dryRun o then 0 else length (List.filter isJsonFile files0))%nat.
Proof.
  induction files0 as [|x rest IH]; intros w n Hnd Hex.
  - exists w, n. split; [reflexivity|]. split; [auto|]. split; [auto|].
    split; [intros p f _ []|]. cbn. destruct (dryRun o); lia.
  - apply NoDup_cons in Hnd as [Hx Hnd].
    assert (Hxr : ~ In x rest) by (intros H; apply Hx; now apply list_elem_of_In).
    destruct (Hex x (or_introl eq_refl)) as [fx Hfx].
    cbn [processFiles fst snd].
    destruct (processFile_step parseDate o w x fx Hfx)
      as [[Ht Hnj]|(w1 & Hrun & Hdry1 & Hothers1 & Hsize1 & Hwhere1)].
    + (* the call throws: the files are as they were *)
      rewrite Ht.
      destruct (IH w (S n) Hnd (fun y Hy => Hex y (or_intror Hy)))
        as (w' & n' & Hloop & Hdry & Hout & Hin & Hsize).
      exists w', n'. split; [exact Hloop|]. split; [exact Hdry|].
      split; [intros p f Hp Hnp; apply Hout; [exact Hp|]; intros H; apply Hnp; now right|].
      split.
      * intros p f Hp [<-|Hpin]; [|now apply Hin].
        right. exists x. now apply Hout.
      * cbn [List.filter]. rewrite Hnj. exact Hsize.
    + rewrite Hrun.
      assert (Hex1 : forall y, In y rest -> is_Some (files w1 !! y)).
      { intros y Hy. rewrite Hothers1; [apply Hex; now right| |apply Hex; now right].
        intros ->. contradiction. }
      destruct (IH w1 n Hnd Hex1) as (w' & n' & Hloop & Hdry & Hout & Hin & Hsize).
      exists w', n'. split; [exact Hloop|].
      split; [intros Hd; now rewrite (Hdry Hd), (Hdry1 Hd)|].
      assert (Hkeep : forall p f, files w !! p = Some f -> p <> x ->
                                  files w1 !! p = Some f).
      { intros p f Hp Hne. rewrite Hothers1; [exact Hp|exact Hne|rewrite Hp; eauto]. }
      split; [|split].
      * intros p f Hp Hnp. apply Hout.
        -- apply Hkeep; [exact Hp|]. intros ->. apply Hnp. now left.
        -- intros H. apply Hnp. now right.
      * intros p f Hp [<-|Hpin].
        -- destruct Hwhere1 as [Hj|(newPath & Hnew & Hfree)]; [now left|].
           right. exists newPath. rewrite Hfx in Hp. injection Hp as <-.
           apply Hout; [exact Hnew|].
           intros Hnr. destruct Hfree as [->|Hnone]; [contradiction|].
           destruct (Hex newPath (or_intror Hnr)) as [g Hg]. congruence.
        -- apply Hin; [|exact Hpin]. apply Hkeep; [exact Hp|].
           intros ->. contradiction.
      * cbn [List.filter]. rewrite Hsize1, Hsize.
        destruct (dryRun o); [lia|]. destruct (isJsonFile x); cbn [length]; lia.
Qed.

(** X24.  The loop of [organize] over the files of a folder that holds
    some loses no file.  It completes; every file of the folder that is not
    a JSON file is somewhere after it, with its content; a file outside the
    folder stays where it is; the number of files falls by the number of
    JSON files of the folder and by no more, so that no file has taken the
    place of another; and a dry run changes no file. *)
Theorem organize_loses_no_file (parseDate : json -> JsDate.t) (o : Organizer)
    (w : World) :
  Fs.dirExists w (baseDirectory o) = true ->
  let scanned := Fs.scan w (baseDirectory o) in
  exists w' errorCount,
    processFiles parseDate o scanned (w, 0%nat) = Some (w', errorCount)
    /\ (dryRun o = true -> files w' = files w)
    /\ (forall p f, files w !! p = Some f ->
          (In p scanned /\ isJsonFile p = true)
          \/ exists p', files w' !! p' = Some f /\ (~ In p scanned -> p' = p))
    /\ size (files w)
       = (size (files w')
          + if dryRun o then 0 else length (List.filter isJsonFile scanned))%nat.
Proof.
  intros _. cbn zeta.
  destruct (processFiles_spec parseDate o (Fs.scan w (baseDirectory o)) w 0%nat
              (scan_NoDup w (baseDirectory o))
              (fun x Hx => scan_exists w (baseDirectory o) x Hx))
    as (w' & errorCount & Hloop & Hdry & Hout & Hin & Hsize).
  exists w', errorCount.
  split; [exact Hloop|]. split; [exact Hdry|]. split; [|exact Hsize].
  intros p f Hp.
  destruct (in_dec String.string_dec p (Fs.scan w (baseDirectory o))) as [Hs|Hs].
  - destruct (Hin p f Hp Hs) as [Hj|[p' Hp']]; [now left|].
    right. exists p'. split; [exact Hp'|]. intros Hn. contradiction.
  - right. exists p. split; [now apply Hout|reflexivity].
Qed.

(** An instance: a folder with three photos and a JSON file. *)
Lemma organize_loses_no_file_witness :
  let w := Fs.write threeCopies "/d/x.json" (plainFile 2 5) in
  let scanned := Fs.scan w "/d" in
  exists w' errorCount,
    processFiles (fun _ => None) editedSuffixOrganizer scanned (w, 0%nat)
    = Some (w', errorCount)
    /\ (dryRun editedSuffixOrganizer = true -> files w' = files w)
    /\ (forall p f, files w !! p = Some f ->
          (In p scanned /\ isJsonFile p = true)
          \/ exists p', files w' !! p' = Some f /\ (~ In p scanned -> p' = p))
    /\ size (files w)
       = (size (files w')
          + if dryRun editedSuffixOrganizer then 0
            else length (List.filter isJsonFile scanned))%nat.
Proof.
  apply (organize_loses_no_file (fun _ => None) editedSuffixOrganizer
           (Fs.write threeCopies "/d/x.json" (plainFile 2 5))).
  vm_compute. reflexivity.
Defined.

(** ** The organization of the target after a merge *)

Lemma json_not_image (p : string) :
  isJsonFile p = true -> hasExt imageExtensions p = false.
Proof.
  unfold isJsonFile, hasExt. intros E. apply String.eqb_eq in E. rewrite E. reflexivity.
Qed.

(** X25.  [handleDuplicatesAndOrganize] on a folder that holds some
    file completes, and every file that was there is accounted for: it is
    somewhere afterwards with its content (where it was, if it is outside
    the folder), or it is a JSON file of the folder, or it is a photo of the
    folder that has the name of another photo, which was kept and is
    somewhere afterwards.  A dry run changes no file. *)
Theorem handleDuplicatesAndOrganize_accounts_for_files
    (parseDate : json -> JsDate.t) (o : Organizer) (w : World) :
  Fs.dirExists w (baseDirectory o) = true ->
  let scanned := Fs.scan w (baseDirectory o) in
  exists w' errorCount,
    handleDuplicatesAndOrganize parseDate o w = Some (Returns (w', errorCount))
    /\ (dryRun o = true -> files w' = files w)
    /\ forall p f, files w !! p = Some f ->
         (exists p', files w' !! p' = Some f /\ (~ In p scanned -> p' = p))
         \/ (In p scanned /\ isJsonFile p = true)
         \/ (In p scanned /\ hasExt imageExtensions p = true
             /\ exists q fq q',
                  q <> p /\ In q scanned /\ hasExt imageExtensions q = true
                  /\ nameKey o q = nameKey o p
                  /\ files w !! q = Some fq /\ files w' !! q' = Some fq).
Proof.
  intros _. cbn zeta. unfold handleDuplicatesAndOrganize.
  set (scanned := Fs.scan w (baseDirectory o)).
  set (imageFiles := List.filter (hasExt imageExtensions) scanned).
  set (nonImageFiles := List.filter (fun file => negb (hasExt imageExtensions file))
                                    scanned).
  assert (Hscan_nd : NoDup scanned) by apply scan_NoDup.
  assert (Hscan_ex : forall x, In x scanned -> is_Some (files w !! x))
    by (intros x Hx; now apply scan_exists in Hx).
  assert (Himg_nd : NoDup imageFiles).
  { assert (E : imageFiles = List.filter (hasExt imageExtensions) scanned)
      by reflexivity.
    rewrite E. now apply NoDup_List_filter. }
  assert (Himg_in : forall x, In x imageFiles
                              <-> In x scanned /\ hasExt imageExtensions x = true)
    by (intros x; apply filter_In).
  assert (Hnon_in : forall x, In x nonImageFiles
                              <-> In x scanned /\ hasExt imageExtensions x = false).
  { intros x. unfold nonImageFiles. rewrite filter_In, negb_true_iff. reflexivity. }
  assert (Hnon_nd : NoDup nonImageFiles) by now apply NoDup_List_filter.
  clearbody imageFiles nonImageFiles.
  assert (Himg_ex : forall x, In x imageFiles -> is_Some (files w !! x))
    by (intros x Hx; apply Hscan_ex; now apply Himg_in in Hx as [Hx _]).
  destruct (handleFilenameDuplicates_spec o w noStats imageFiles Himg_ex)
    as (w1 & st1 & kept & Hrun & Hone & _ & Hkept & Hother & _ & Hnd & Hdry1).
  rewrite Hrun.
  destruct imageFiles as [|i0 irest] eqn:Himg.
  { destruct (processFiles_spec parseDate o scanned w 0%nat Hscan_nd Hscan_ex)
      as (w' & n' & Hloop & Hdry & Hout & Hin & _).
    rewrite Hloop. exists w', n'. split; [reflexivity|]. split; [exact Hdry|].
    intros p f Hp.
    destruct (in_dec String.string_dec p scanned) as [Hs|Hs].
    - destruct (Hin p f Hp Hs) as [Hj|[p' Hp']]; [right; left; auto|].
      left. exists p'. split; [exact Hp'|]. intros Hn. contradiction.
    - left. exists p. split; [now apply Hout|reflexivity]. }
  rewrite <- Himg in *. clear Himg i0 irest.
  specialize (Hnd Himg_nd).
  assert (Hkept_img : forall x, In x kept -> hasExt imageExtensions x = true).
  { intros x Hx. apply Hkept in Hx as [Hx _]. now apply Himg_in in Hx as [_ Hx]. }
  assert (Hl_nd : NoDup (kept ++ nonImageFiles)).
  { apply NoDup_app. split; [exact Hnd|]. split; [|exact Hnon_nd].
    intros x Hx Hx'. apply list_elem_of_In in Hx, Hx'.
    apply Hkept_img in Hx. apply Hnon_in in Hx' as [_ Hx']. congruence. }
  assert (Hl_scan : forall x, In x (kept ++ nonImageFiles) -> In x scanned).
  { intros x Hx. apply in_app_or in Hx as [Hx|Hx].
    - apply Hkept in Hx as [Hx _]. now apply Himg_in in Hx as [Hx _].
    - now apply Hnon_in in Hx as [Hx _]. }
  assert (Hl_w1 : forall x, In x (kept ++ nonImageFiles) ->
                            files w1 !! x = files w !! x).
  { intros x Hx. apply in_app_or in Hx as [Hx|Hx].
    - now apply Hkept in Hx as [_ Hx].
    - apply Hother. intros Hi. apply Himg_in in Hi as [_ Hi].
      apply Hnon_in in Hx as [_ Hx]. congruence. }
  assert (Hl_ex : forall x, In x (kept ++ nonImageFiles) -> is_Some (files w1 !! x)).
  { intros x Hx. rewrite (Hl_w1 x Hx). apply Hscan_ex. now apply Hl_scan. }
  destruct (processFiles_spec parseDate o (kept ++ nonImageFiles) w1 (errors st1)
              Hl_nd Hl_ex) as (w' & n' & Hloop & Hdry & Hout & Hin & _).
  rewrite Hloop. exists w', n'. split; [reflexivity|].
  split; [intros Hd; now rewrite (Hdry Hd), (Hdry1 Hd)|].
  assert (Hprocessed : forall x fx, In x (kept ++ nonImageFiles) ->
            files w !! x = Some fx ->
            isJsonFile x = true \/ exists x', files w' !! x' = Some fx).
  { intros x fx Hx Hfx. apply (Hin x fx); [|exact Hx]. now rewrite (Hl_w1 x Hx). }
  intros p f Hp.
  destruct (in_dec String.string_dec p scanned) as [Hs|Hs].
  - destruct (hasExt imageExtensions p) eqn:Hext.
    + assert (Hpi : In p imageFiles) by (apply Himg_in; auto).
      destruct (in_dec String.string_dec p kept) as [Hk|Hk].
      * destruct (Hprocessed p f (in_or_app _ _ _ (or_introl Hk)) Hp)
          as [Hj|[p' Hp']]; [right; left; auto|].
        left. exists p'. split; [exact Hp'|]. intros Hn. contradiction.
      * destruct (Hone p Hpi) as (q & Hq & Hkey & _).
        assert (Hqs : In q scanned) by (apply Hl_scan, in_or_app; auto).
        destruct (Hscan_ex q Hqs) as [fq Hfq].
        destruct (Hprocessed q fq (in_or_app _ _ _ (or_introl Hq)) Hfq)
          as [Hj|[q' Hq']].
        { apply json_not_image in Hj. rewrite (Hkept_img q Hq) in Hj. discriminate. }
        right; right. split; [exact Hs|]. split; [reflexivity|].
        exists q, fq, q'. split; [intros ->; contradiction|].
        split; [exact Hqs|]. split; [now apply Hkept_img|]. auto.
    + assert (Hpn : In p nonImageFiles) by (apply Hnon_in; auto).
      destruct (Hprocessed p f (in_or_app _ _ _ (or_intror Hpn)) Hp)
        as [Hj|[p' Hp']]; [right; left; auto|].
      left. exists p'. split; [exact Hp'|]. intros Hn. contradiction.
  - left. exists p. split; [|reflexivity].
    apply Hout.
    + rewrite Hother; [exact Hp|]. intros Hi. apply Himg_in in Hi as [Hi _].
      contradiction.
    + intros Hi. apply Hs. now apply Hl_scan.
Qed.

(** An instance: a folder with three photos, two of one name, and a JSON
    file. *)
Lemma handleDuplicatesAndOrganize_accounts_for_files_witness :
  let w := Fs.write threeCopies "/d/x.json" (plainFile 2 5) in
  let o := editedSuffixOrganizer in
  let scanned := Fs.scan w "/d" in
  exists w' errorCount,
    handleDuplicatesAndOrganize (fun _ => None) o w = Some (Returns (w', errorCount))
    /\ (dryRun o = true -> files w' = files w)
    /\ forall p f, files w !! p = Some f ->
         (exists p', files w' !! p' = Some f /\ (~ In p scanned -> p' = p))
         \/ (In p scanned /\ isJsonFile p = true)
         \/ (In p scanned /\ hasExt imageExtensions p = true
             /\ exists q fq q',
                  q <> p /\ In q scanned /\ hasExt imageExtensions q = true
                  /\ nameKey o q = nameKey o p
                  /\ files w !! q = Some fq /\ files w' !! q' = Some fq).
Proof.
  apply (handleDuplicatesAndOrganize_accounts_for_files (fun _ => None)
           editedSuffixOrganizer
           (Fs.write threeCopies "/d/x.json" (plainFile 2 5))).
  vm_compute. reflexivity.
Defined.
